(** * Room inventory back end: reservations, housekeeping, maintenance

    A shallow embedding of the Express/Mongoose controllers of the hotel
    back end and the properties its specification states about them:

    - [ReservationController]  (controllers/reservationController.js):
      [createReservation], [checkIn], [checkOut], [updateReservation];
    - [HousekeepingController] (controllers/housekeepingController.js):
      [updateTask];
    - [MaintenanceController]  (controllers/maintenanceController.js):
      [createRequest], [updateRequest].

    Modelling conventions.
    - A MongoDB collection is the list of its documents in natural order;
      [findOne] returns the first match, [save] replaces the document with
      the same [_id], [create] appends.
    - An [ObjectId] is a number (its [toString()] is injective, so the
      source's string comparisons of ids are equalities of numbers).
    - A JavaScript [Date] is [InvalidDate] or a time value in milliseconds;
      numbers are exact integers.
    - A request body is a record with one optional field per key the handler
      reads ([None] is [undefined]); the values are taken at the type of the
      schema path they are assigned to.
    - A handler is a computation over the store that may answer early
      ([return res.status(..).json(..)]) or throw; the enclosing
      [try { .. } catch] turns a throw into the 500 answer.  Writes made
      before a throw stay in the store, as no transaction is opened.
    - E-mail and notification dispatch happen inside their own [try/catch]
      after all writes and never change the answer or the collections
      modelled here; they are left out. *)

From Stdlib Require Import ZArith NArith List String Ascii Bool Lia.
From Stdlib Require Import DecimalString QArith Qround.
Import ListNotations.

Local Open Scope string_scope.
Local Open Scope Z_scope.

(* ================================================================== *)
(** ** JavaScript values *)

Module Js.

(** [Boolean(v)] for a value that is [undefined] or a string. *)
Definition truthy (v : option string) : bool :=
  match v with
  | Some s => negb (s =? "")%string
  | None => false
  end.

(** [v === s] for a value that is [undefined] or a string. *)
Definition strictEq (v : option string) (s : string) : bool :=
  match v with
  | Some x => (x =? s)%string
  | None => false
  end.

(** [list.includes(v)]. *)
Definition includes (l : list string) (v : option string) : bool :=
  existsb (strictEq v) l.

(** [a || b] on optional strings. *)
Definition orElse (a : option string) (b : string) : string :=
  match a with
  | Some s => if (s =? "")%string then b else s
  | None => b
  end.

(** A [Date] object: its time value is NaN or a number of milliseconds. *)
Inductive Date : Type :=
| InvalidDate
| TimeValue (ms : Z).

(** [n > m] where [n] may be [undefined]: [ToNumber(undefined)] is NaN
    and every comparison with NaN is false. *)
Definition gt (n : option Z) (m : Z) : bool :=
  match n with
  | Some x => x >? m
  | None => false
  end.

(** [`${n}`] for an integer. *)
Definition toString (n : Z) : string := NilZero.string_of_int (Z.to_int n).

(** [v] when it is truthy, for the code after an [if (!v) return ..]. *)
Definition nonEmpty (v : option string) : option string :=
  match v with
  | Some s => if (s =? "")%string then None else Some s
  | None => None
  end.

(** [d.getTime()] when it is not NaN. *)
Definition getTime (d : Date) : option Z :=
  match d with
  | InvalidDate => None
  | TimeValue ms => Some ms
  end.

(** [Math.ceil(a / b)] on integers, [b > 0]. *)
Definition ceilDiv (a b : Z) : Z := - ((- a) / b).

End Js.

(* ================================================================== *)
(** ** Documents *)

Definition ObjectId := N.

Record User : Type := mkUser {
  user_id : ObjectId;
  role : string
}.

Module Room.
(** Modelled from the spec: models/Room.js is not part of the sources; the
    fields are the ones of the data model (section 3) that the controllers
    read or write. *)
Record t : Type := mk {
  _id : ObjectId;
  status : string;
  maxOccupancy : Z;
  pricePerNight : Z
}.

Definition set_status (s : string) (r : t) : t :=
  mk (_id r) s (maxOccupancy r) (pricePerNight r).
End Room.

Module Reservation.
(** Modelled from the spec: models/Reservation.js is not part of the
    sources; the fields are those of the data model (section 3) and those
    [createReservation] passes to [Reservation.create]. *)
Record t : Type := mk {
  _id : ObjectId;
  guestId : ObjectId;
  roomId : ObjectId;
  checkInDate : Z;
  checkOutDate : Z;
  numberOfGuests : option Z;
  status : string;
  totalAmount : Z;
  specialRequests : option string;
  bookingSource : string;
  confirmationNumber : string;
  updatedAt : Z
}.

Definition set_status (s : string) (r : t) : t :=
  mk (_id r) (guestId r) (roomId r) (checkInDate r) (checkOutDate r)
     (numberOfGuests r) s (totalAmount r) (specialRequests r)
     (bookingSource r) (confirmationNumber r) (updatedAt r).

Definition set_specialRequests (v : option string) (r : t) : t :=
  mk (_id r) (guestId r) (roomId r) (checkInDate r) (checkOutDate r)
     (numberOfGuests r) (status r) (totalAmount r) v
     (bookingSource r) (confirmationNumber r) (updatedAt r).

Definition set_updatedAt (now : Z) (r : t) : t :=
  mk (_id r) (guestId r) (roomId r) (checkInDate r) (checkOutDate r)
     (numberOfGuests r) (status r) (totalAmount r) (specialRequests r)
     (bookingSource r) (confirmationNumber r) now.
End Reservation.

Module Housekeeping.
(** models/Housekeeping.js *)
Record t : Type := mk {
  _id : ObjectId;
  roomId : ObjectId;
  assignedTo : option ObjectId;
  taskType : string;
  status : string;
  scheduledDate : Js.Date;
  completedDate : option Js.Date;
  notes : option string;
  priority : string;
  createdAt : Js.Date;
  updatedAt : Z
}.

Definition set_roomId (v : ObjectId) (d : t) : t :=
  mk (_id d) v (assignedTo d) (taskType d) (status d) (scheduledDate d)
     (completedDate d) (notes d) (priority d) (createdAt d) (updatedAt d).
Definition set_assignedTo (v : option ObjectId) (d : t) : t :=
  mk (_id d) (roomId d) v (taskType d) (status d) (scheduledDate d)
     (completedDate d) (notes d) (priority d) (createdAt d) (updatedAt d).
Definition set_taskType (v : string) (d : t) : t :=
  mk (_id d) (roomId d) (assignedTo d) v (status d) (scheduledDate d)
     (completedDate d) (notes d) (priority d) (createdAt d) (updatedAt d).
Definition set_status (v : string) (d : t) : t :=
  mk (_id d) (roomId d) (assignedTo d) (taskType d) v (scheduledDate d)
     (completedDate d) (notes d) (priority d) (createdAt d) (updatedAt d).
Definition set_scheduledDate (v : Js.Date) (d : t) : t :=
  mk (_id d) (roomId d) (assignedTo d) (taskType d) (status d) v
     (completedDate d) (notes d) (priority d) (createdAt d) (updatedAt d).
Definition set_completedDate (v : option Js.Date) (d : t) : t :=
  mk (_id d) (roomId d) (assignedTo d) (taskType d) (status d)
     (scheduledDate d) v (notes d) (priority d) (createdAt d) (updatedAt d).
Definition set_notes (v : option string) (d : t) : t :=
  mk (_id d) (roomId d) (assignedTo d) (taskType d) (status d)
     (scheduledDate d) (completedDate d) v (priority d) (createdAt d)
     (updatedAt d).
Definition set_priority (v : string) (d : t) : t :=
  mk (_id d) (roomId d) (assignedTo d) (taskType d) (status d)
     (scheduledDate d) (completedDate d) (notes d) v (createdAt d)
     (updatedAt d).
Definition set_createdAt (v : Js.Date) (d : t) : t :=
  mk (_id d) (roomId d) (assignedTo d) (taskType d) (status d)
     (scheduledDate d) (completedDate d) (notes d) (priority d) v
     (updatedAt d).
Definition set_updatedAt (v : Z) (d : t) : t :=
  mk (_id d) (roomId d) (assignedTo d) (taskType d) (status d)
     (scheduledDate d) (completedDate d) (notes d) (priority d)
     (createdAt d) v.

Definition taskTypes : list string :=
  ["cleaning"; "maintenance"; "inspection"; "deep-cleaning"].
Definition statuses : list string :=
  ["pending"; "in-progress"; "completed"; "cancelled"].
Definition priorities : list string := ["low"; "medium"; "high"; "urgent"].

Definition validDate (d : Js.Date) : bool :=
  match d with Js.InvalidDate => false | Js.TimeValue _ => true end.

(** Schema validation run by [save]: the enum validators and the cast of
    the date paths (an invalid date is a cast error). *)
Definition validate (d : t) : bool :=
  existsb (String.eqb (taskType d)) taskTypes
  && existsb (String.eqb (status d)) statuses
  && existsb (String.eqb (priority d)) priorities
  && validDate (scheduledDate d)
  && match completedDate d with Some c => validDate c | None => true end
  && validDate (createdAt d).
End Housekeeping.

Module Maintenance.
(** models/Maintenance.js *)
Record t : Type := mk {
  _id : ObjectId;
  roomId : ObjectId;
  reportedBy : ObjectId;
  issueType : option string;
  description : option string;
  status : string;
  priority : string;
  assignedTo : option ObjectId;
  estimatedCost : option Z;
  actualCost : option Z;
  reportedAt : Z;
  resolvedAt : option Z;
  notes : option string
}.

Definition set_status (v : string) (d : t) : t :=
  mk (_id d) (roomId d) (reportedBy d) (issueType d) (description d) v
     (priority d) (assignedTo d) (estimatedCost d) (actualCost d)
     (reportedAt d) (resolvedAt d) (notes d).
Definition set_assignedTo (v : option ObjectId) (d : t) : t :=
  mk (_id d) (roomId d) (reportedBy d) (issueType d) (description d)
     (status d) (priority d) v (estimatedCost d) (actualCost d)
     (reportedAt d) (resolvedAt d) (notes d).
Definition set_priority (v : string) (d : t) : t :=
  mk (_id d) (roomId d) (reportedBy d) (issueType d) (description d)
     (status d) v (assignedTo d) (estimatedCost d) (actualCost d)
     (reportedAt d) (resolvedAt d) (notes d).
Definition set_estimatedCost (v : option Z) (d : t) : t :=
  mk (_id d) (roomId d) (reportedBy d) (issueType d) (description d)
     (status d) (priority d) (assignedTo d) v (actualCost d)
     (reportedAt d) (resolvedAt d) (notes d).
Definition set_actualCost (v : option Z) (d : t) : t :=
  mk (_id d) (roomId d) (reportedBy d) (issueType d) (description d)
     (status d) (priority d) (assignedTo d) (estimatedCost d) v
     (reportedAt d) (resolvedAt d) (notes d).
Definition set_resolvedAt (v : option Z) (d : t) : t :=
  mk (_id d) (roomId d) (reportedBy d) (issueType d) (description d)
     (status d) (priority d) (assignedTo d) (estimatedCost d)
     (actualCost d) (reportedAt d) v (notes d).
Definition set_notes (v : option string) (d : t) : t :=
  mk (_id d) (roomId d) (reportedBy d) (issueType d) (description d)
     (status d) (priority d) (assignedTo d) (estimatedCost d)
     (actualCost d) (reportedAt d) (resolvedAt d) v.

Definition issueTypes : list string :=
  ["plumbing"; "electrical"; "hvac"; "furniture"; "appliance"; "other"].
Definition statuses : list string :=
  ["reported"; "assigned"; "in-progress"; "resolved"; "cancelled"].
Definition priorities : list string := ["low"; "medium"; "high"; "urgent"].

(** [min: 0] *)
Definition minZero (c : option Z) : bool :=
  match c with Some x => 0 <=? x | None => true end.

(** [required: true] on a string path. *)
Definition required (v : option string) : bool :=
  match v with Some s => negb (s =? "")%string | None => false end.

(** Schema validation run by [create] and [save]. *)
Definition validate (d : t) : bool :=
  required (issueType d)
  && existsb (fun e => Js.strictEq (issueType d) e) issueTypes
  && required (description d)
  && existsb (String.eqb (status d)) statuses
  && existsb (String.eqb (priority d)) priorities
  && minZero (estimatedCost d)
  && minZero (actualCost d).
End Maintenance.

(* ================================================================== *)
(** ** The store and the Mongoose operations *)

Record Store : Type := mkStore {
  rooms : list Room.t;
  reservations : list Reservation.t;
  tasks : list Housekeeping.t;
  requests : list Maintenance.t
}.

Definition with_rooms (v : list Room.t) (st : Store) : Store :=
  mkStore v (reservations st) (tasks st) (requests st).
Definition with_reservations (v : list Reservation.t) (st : Store) : Store :=
  mkStore (rooms st) v (tasks st) (requests st).
Definition with_tasks (v : list Housekeeping.t) (st : Store) : Store :=
  mkStore (rooms st) (reservations st) v (requests st).
Definition with_requests (v : list Maintenance.t) (st : Store) : Store :=
  mkStore (rooms st) (reservations st) (tasks st) v.

(** What the controllers take from their surroundings: the [Date]
    constructor on strings, [String.prototype.trim] (the [trim: true]
    setter of the schemas) and, for the Reservation model that is not part
    of the sources, its schema validation and the confirmation number it
    assigns to a new document. *)
Record Env : Type := mkEnv {
  Date_new : string -> Js.Date;
  String_trim : string -> string;
  Reservation_validate : Reservation.t -> bool;
  Reservation_confirmationNumber : ObjectId -> string
}.

Module Db.
Section Collection.
Context {A : Type} (id_of : A -> ObjectId).

Definition findOne (q : A -> bool) (c : list A) : option A := find q c.

Definition findById (id : ObjectId) (c : list A) : option A :=
  find (fun d => N.eqb (id_of d) id) c.

Definition replaceById (d : A) (c : list A) : list A :=
  map (fun x => if N.eqb (id_of x) (id_of d) then d else x) c.

Definition freshId (c : list A) : ObjectId :=
  N.succ (fold_right N.max 0%N (map id_of c)).
End Collection.
End Db.

(* ================================================================== *)
(** ** Answers and the handler monad *)

Inductive Payload : Type :=
| Message (message : string)
| ServerError (message error : string)
| ReservationJson (reservation : option Reservation.t)
| TaskJson (task : option Housekeeping.t)
| RequestJson (request : option Maintenance.t).

Record Response : Type := mkResponse {
  code : Z;
  json : Payload
}.

Inductive outcome (A : Type) : Type :=
| Value (a : A)
| Answered (r : Response)
| Thrown (e : string).
Arguments Value {A} a.
Arguments Answered {A} r.
Arguments Thrown {A} e.

Definition M (A : Type) : Type := Store -> outcome A * Store.

Definition ret {A} (a : A) : M A := fun st => (Value a, st).

Definition bind {A B} (m : M A) (k : A -> M B) : M B :=
  fun st =>
    match m st with
    | (Value a, st') => k a st'
    | (Answered r, st') => (Answered r, st')
    | (Thrown e, st') => (Thrown e, st')
    end.

Notation "x <- m ;; k" := (bind m (fun x => k))
  (at level 61, m at next level, right associativity).
Notation "m ;; k" := (bind m (fun _ => k))
  (at level 61, right associativity).

(** [return res.status(c).json(p)] *)
Definition answer {A} (c : Z) (p : Payload) : M A :=
  fun st => (Answered (mkResponse c p), st).

Definition throw {A} (e : string) : M A := fun st => (Thrown e, st).

(** [if (c) return res.status(..).json(..)] *)
Definition when_ (c : bool) (code : Z) (p : Payload) : M unit :=
  if c then answer code p else ret tt.

(** [if (!v) return res.status(..).json(..)], then [v] is used. *)
Definition orAnswer {A} (v : option A) (code : Z) (p : Payload) : M A :=
  match v with
  | Some a => ret a
  | None => answer code p
  end.

(** [try { body } catch (error) { res.status(500).json(onError(error)) }] *)
Definition tryCatch (body : M Response) (onError : string -> Payload)
  : Store -> Response * Store :=
  fun st =>
    match body st with
    | (Value r, st') => (r, st')
    | (Answered r, st') => (r, st')
    | (Thrown e, st') => (mkResponse 500 (onError e), st')
    end.

Definition serverError (e : string) : Payload := ServerError "Server error" e.

Definition Room_findById (id : ObjectId) : M (option Room.t) :=
  fun st => (Value (Db.findById Room._id id (rooms st)), st).

(** [room.save()]: the only path the controllers modify is [status], with a
    literal of the room status domain. *)
Definition Room_save (r : Room.t) : M unit :=
  fun st => (Value tt, with_rooms (Db.replaceById Room._id r (rooms st)) st).

Definition isSome {A} (v : option A) : bool :=
  match v with Some _ => true | None => false end.

(** [if (v !== undefined) d.path = v] *)
Definition assign {A D} (v : option A) (set : A -> D -> D) (d : D) : D :=
  match v with
  | Some a => set a d
  | None => d
  end.

(** [if (v) d.path = v] for a string. *)
Definition assignTruthy {D} (v : option string) (set : string -> D -> D)
    (d : D) : D :=
  match v with
  | Some s => if Js.truthy (Some s) then set s d else d
  | None => d
  end.

(* ================================================================== *)
(** ** Request bodies *)

Module CreateBody.
(** [req.body] of POST /api/reservations *)
Record t : Type := mk {
  roomId : option ObjectId;
  checkInDate : option string;
  checkOutDate : option string;
  numberOfGuests : option Z;
  specialRequests : option string;
  bookingSource : option string;
  guestId : option ObjectId
}.

Definition set_guestId (v : option ObjectId) (b : t) : t :=
  mk (roomId b) (checkInDate b) (checkOutDate b) (numberOfGuests b)
     (specialRequests b) (bookingSource b) v.
End CreateBody.

Module UpdateBody.
(** [req.body] of PUT /api/reservations/:id *)
Record t : Type := mk {
  status : option string;
  specialRequests : option string
}.
End UpdateBody.

(* ================================================================== *)
(** ** controllers/reservationController.js *)

Module ReservationController.
Section Handlers.
Variable env : Env.
(** [Date.now()] at the time of the request. *)
Variable now : Z.

Definition Reservation_findById (id : ObjectId) : M (option Reservation.t) :=
  fun st => (Value (Db.findById Reservation._id id (reservations st)), st).

Definition Reservation_findOne (q : Reservation.t -> bool)
  : M (option Reservation.t) :=
  fun st => (Value (Db.findOne q (reservations st)), st).

(** Modelled from the spec: [Reservation.create] of the missing model
    "assigns a unique confirmation number, persists as Confirmed"; the
    document is validated against the schema first, and a validation
    error is thrown. *)
Definition Reservation_create (guestId roomId : ObjectId)
    (checkInDate checkOutDate : Z) (numberOfGuests : option Z)
    (totalAmount : Z) (specialRequests : option string)
    (bookingSource : string) : M Reservation.t :=
  fun st =>
    let id := Db.freshId Reservation._id (reservations st) in
    let doc :=
      Reservation.mk id guestId roomId checkInDate checkOutDate
        numberOfGuests "confirmed" totalAmount specialRequests
        bookingSource (Reservation_confirmationNumber env id) now in
    if Reservation_validate env doc
    then (Value doc, with_reservations (reservations st ++ [doc]) st)
    else (Thrown "Reservation validation failed", st).

(** [reservation.save()] *)
Definition Reservation_save (r : Reservation.t) : M unit :=
  fun st =>
    if Reservation_validate env r
    then (Value tt,
          with_reservations
            (Db.replaceById Reservation._id r (reservations st)) st)
    else (Thrown "Reservation validation failed", st).

(** [status: { $in: ['confirmed', 'checked-in'] }] *)
Definition blocking (r : Reservation.t) : bool :=
  existsb (String.eqb (Reservation.status r)) ["confirmed"; "checked-in"].

(** The [$or] of the conflict query. *)
Definition dateClauses (checkIn checkOut : Z) (r : Reservation.t) : bool :=
  ((Reservation.checkInDate r <? checkOut)
     && (Reservation.checkInDate r >=? checkIn))
  || ((Reservation.checkOutDate r >? checkIn)
        && (Reservation.checkOutDate r <=? checkOut))
  || ((Reservation.checkInDate r <=? checkIn)
        && (Reservation.checkOutDate r >=? checkOut)).

(** The filter passed to [Reservation.findOne]. *)
Definition conflictQuery (roomId : ObjectId) (checkIn checkOut : Z)
    (r : Reservation.t) : bool :=
  N.eqb (Reservation.roomId r) roomId
  && blocking r
  && dateClauses checkIn checkOut r.

Definition occupancyMessage (room : Room.t) : string :=
  "Room can only accommodate " ++ Js.toString (Room.maxOccupancy room)
    ++ " guests".

(** Lines 118-120. *)
Definition nights (checkIn checkOut : Z) : Z :=
  Js.ceilDiv (checkOut - checkIn) (1000 * 60 * 60 * 24).

Definition totalAmount (room : Room.t) (checkIn checkOut : Z) : Z :=
  Room.pricePerNight room * nights checkIn checkOut.

(** Line 123: staff can create for any guest, guests create for
    themselves. *)
Definition guestIdFor (user : User) (body : CreateBody.t) : ObjectId :=
  if (role user =? "guest")%string then user_id user
  else match CreateBody.guestId body with
       | Some g => g
       | None => user_id user
       end.

Definition createReservation (user : User) (body : CreateBody.t)
  : Store -> Response * Store :=
  tryCatch (
    let numberOfGuests := CreateBody.numberOfGuests body in
    let specialRequests := CreateBody.specialRequests body in
    let bookingSource := CreateBody.bookingSource body in
    roomId <- orAnswer (CreateBody.roomId body)
                400 (Message "Room is required") ;;
    checkInDate <- orAnswer (Js.nonEmpty (CreateBody.checkInDate body))
                400 (Message "Check-in date is required") ;;
    checkOutDate <- orAnswer (Js.nonEmpty (CreateBody.checkOutDate body))
                400 (Message "Check-out date is required") ;;
    let checkIn := Date_new env checkInDate in
    let checkOut := Date_new env checkOutDate in
    checkIn <- orAnswer (Js.getTime checkIn)
                400 (Message "Invalid check-in date format") ;;
    checkOut <- orAnswer (Js.getTime checkOut)
                400 (Message "Invalid check-out date format") ;;
    when_ (checkOut <=? checkIn)
      400 (Message "Check-out date must be after check-in date") ;;
    room <- Room_findById roomId ;;
    room <- orAnswer room 404 (Message "Room not found") ;;
    when_ (Js.gt numberOfGuests (Room.maxOccupancy room))
      400 (Message (occupancyMessage room)) ;;
    conflictingReservation <-
      Reservation_findOne (conflictQuery roomId checkIn checkOut) ;;
    when_ (isSome conflictingReservation)
      400 (Message "Room is not available for the selected dates") ;;
    let totalAmount := totalAmount room checkIn checkOut in
    let guestId := guestIdFor user body in
    reservation <-
      Reservation_create guestId roomId checkIn checkOut numberOfGuests
        totalAmount specialRequests (Js.orElse bookingSource "online") ;;
    Room_save (Room.set_status "reserved" room) ;;
    populatedReservation <-
      Reservation_findById (Reservation._id reservation) ;;
    answer 201 (ReservationJson populatedReservation))
  (fun e => ServerError (Js.orElse (Some e) "Server error") e).

(** [reservation.roomId._id] after [populate('roomId')]: a [TypeError]
    when the room no longer exists, the room otherwise. *)
Definition populatedRoom (r : Reservation.t) : M Room.t :=
  room <- Room_findById (Reservation.roomId r) ;;
  match room with
  | Some x => ret x
  | None => throw "Cannot read properties of null (reading '_id')"
  end.

Definition checkIn (id : ObjectId) : Store -> Response * Store :=
  tryCatch (
    reservation <- Reservation_findById id ;;
    reservation <- orAnswer reservation
                     404 (Message "Reservation not found") ;;
    when_ (negb (Reservation.status reservation =? "confirmed")%string)
      400 (Message "Only confirmed reservations can be checked in") ;;
    let reservation :=
      Reservation.set_updatedAt now
        (Reservation.set_status "checked-in" reservation) in
    Reservation_save reservation ;;
    room <- populatedRoom reservation ;;
    Room_save (Room.set_status "occupied" room) ;;
    populatedReservation <-
      Reservation_findById (Reservation._id reservation) ;;
    answer 200 (ReservationJson populatedReservation))
  serverError.

Definition checkOut (id : ObjectId) : Store -> Response * Store :=
  tryCatch (
    reservation <- Reservation_findById id ;;
    reservation <- orAnswer reservation
                     404 (Message "Reservation not found") ;;
    when_ (negb (Reservation.status reservation =? "checked-in")%string)
      400 (Message "Only checked-in reservations can be checked out") ;;
    let reservation :=
      Reservation.set_updatedAt now
        (Reservation.set_status "checked-out" reservation) in
    Reservation_save reservation ;;
    room <- populatedRoom reservation ;;
    Room_save (Room.set_status "cleaning" room) ;;
    populatedReservation <-
      Reservation_findById (Reservation._id reservation) ;;
    answer 200 (ReservationJson populatedReservation))
  serverError.

(** Lines 318-327: "Guests can only cancel their own reservations". *)
Definition guestGuard (user : User) (body : UpdateBody.t)
    (reservation : Reservation.t) : M unit :=
  if (role user =? "guest")%string then
    when_ (negb (N.eqb (Reservation.guestId reservation) (user_id user)))
      403 (Message "Not authorized") ;;
    when_ (Js.truthy (UpdateBody.status body)
           && negb (Js.strictEq (UpdateBody.status body) "cancelled"))
      403 (Message "Guests can only cancel reservations")
  else ret tt.

(** Lines 329-331: "Update fields". *)
Definition updateFields (body : UpdateBody.t) (reservation : Reservation.t)
  : Reservation.t :=
  let reservation := assignTruthy (UpdateBody.status body)
                       Reservation.set_status reservation in
  assignTruthy (UpdateBody.specialRequests body)
    (fun v => Reservation.set_specialRequests (Some v)) reservation.

Definition updateReservation (user : User) (id : ObjectId)
    (body : UpdateBody.t) : Store -> Response * Store :=
  tryCatch (
    reservation <- Reservation_findById id ;;
    reservation <- orAnswer reservation
                     404 (Message "Reservation not found") ;;
    guestGuard user body reservation ;;
    let reservation := Reservation.set_updatedAt now
                         (updateFields body reservation) in
    Reservation_save reservation ;;
    populatedReservation <-
      Reservation_findById (Reservation._id reservation) ;;
    answer 200 (ReservationJson populatedReservation))
  serverError.

End Handlers.
End ReservationController.

Module TaskBody.
(** [req.body] of PUT /api/housekeeping/:id, restricted to the schema
    paths of the Housekeeping model other than [updatedAt], which the
    handler overwrites; Mongoose drops the other keys. *)
Record t : Type := mk {
  roomId : option ObjectId;
  assignedTo : option ObjectId;
  taskType : option string;
  status : option string;
  scheduledDate : option string;
  completedDate : option string;
  notes : option string;
  priority : option string;
  createdAt : option string
}.
End TaskBody.

Module RequestBody.
(** [req.body] of POST /api/maintenance *)
Record t : Type := mk {
  roomId : option ObjectId;
  issueType : option string;
  description : option string;
  priority : option string
}.
End RequestBody.

Module RequestUpdate.
(** [req.body] of PUT /api/maintenance/:id *)
Record t : Type := mk {
  status : option string;
  assignedTo : option ObjectId;
  priority : option string;
  estimatedCost : option Z;
  actualCost : option Z;
  notes : option string
}.
End RequestUpdate.

(* ================================================================== *)
(** ** controllers/housekeepingController.js *)

Module HousekeepingController.
Section Handlers.
Variable env : Env.
Variable now : Z.

Definition Housekeeping_findById (id : ObjectId)
  : M (option Housekeeping.t) :=
  fun st => (Value (Db.findById Housekeeping._id id (tasks st)), st).

(** [task.save()] *)
Definition Housekeeping_save (t : Housekeeping.t) : M unit :=
  fun st =>
    if Housekeeping.validate t
    then (Value tt,
          with_tasks (Db.replaceById Housekeeping._id t (tasks st)) st)
    else (Thrown "Housekeeping validation failed", st).

(** [Object.keys(req.body).forEach(key => { if (req.body[key] !==
    undefined && key !== '_id') task[key] = req.body[key] })]; the
    assignments are to distinct paths, so their order is immaterial. *)
Definition assignAll (body : TaskBody.t) (task : Housekeeping.t)
  : Housekeeping.t :=
  let task := assign (TaskBody.roomId body) Housekeeping.set_roomId task in
  let task := assign (TaskBody.assignedTo body)
                (fun v => Housekeeping.set_assignedTo (Some v)) task in
  let task := assign (TaskBody.taskType body)
                Housekeeping.set_taskType task in
  let task := assign (TaskBody.status body) Housekeeping.set_status task in
  let task := assign (TaskBody.scheduledDate body)
                (fun v => Housekeeping.set_scheduledDate (Date_new env v))
                task in
  let task := assign (TaskBody.completedDate body)
                (fun v => Housekeeping.set_completedDate
                            (Some (Date_new env v))) task in
  let task := assign (TaskBody.notes body)
                (fun v => Housekeeping.set_notes (Some (String_trim env v)))
                task in
  let task := assign (TaskBody.priority body)
                Housekeeping.set_priority task in
  assign (TaskBody.createdAt body)
    (fun v => Housekeeping.set_createdAt (Date_new env v)) task.

(** Lines 120-127: the room follows a completed cleaning task. *)
Definition syncRoom (task : Housekeeping.t) : M unit :=
  if ((Housekeeping.status task =? "completed")
      && (Housekeeping.taskType task =? "cleaning"))%string
  then
    room <- Room_findById (Housekeeping.roomId task) ;;
    match room with
    | Some room =>
        if (Room.status room =? "cleaning")%string
        then Room_save (Room.set_status "available" room)
        else ret tt
    | None => ret tt
    end
  else ret tt.

(** Lines 94-115: what the caller may change depends on the role. *)
Definition applyBody (user : User) (body : TaskBody.t)
    (task : Housekeeping.t) : M Housekeeping.t :=
  if (role user =? "housekeeping")%string then
    when_ (match Housekeeping.assignedTo task with
           | Some a => negb (N.eqb a (user_id user))
           | None => false
           end)
      403 (Message "Not authorized to update this task") ;;
    let task := assignTruthy (TaskBody.status body)
                  Housekeeping.set_status task in
    let task := assignTruthy (TaskBody.notes body)
                  (fun v => Housekeeping.set_notes
                              (Some (String_trim env v))) task in
    let task :=
      if Js.strictEq (TaskBody.status body) "completed"
      then Housekeeping.set_completedDate (Some (Js.TimeValue now)) task
      else task in
    ret task
  else
    let task := assignAll body task in
    let task :=
      if Js.strictEq (TaskBody.status body) "completed"
         && negb (isSome (Housekeeping.completedDate task))
      then Housekeeping.set_completedDate (Some (Js.TimeValue now)) task
      else task in
    ret task.

Definition updateTask (user : User) (id : ObjectId) (body : TaskBody.t)
  : Store -> Response * Store :=
  tryCatch (
    task <- Housekeeping_findById id ;;
    task <- orAnswer task 404 (Message "Task not found") ;;
    task <- applyBody user body task ;;
    let task := Housekeeping.set_updatedAt now task in
    Housekeeping_save task ;;
    syncRoom task ;;
    populatedTask <- Housekeeping_findById (Housekeeping._id task) ;;
    answer 200 (TaskJson populatedTask))
  serverError.

End Handlers.
End HousekeepingController.

(* ================================================================== *)
(** ** controllers/maintenanceController.js *)

Module MaintenanceController.
Section Handlers.
Variable env : Env.
Variable now : Z.

Definition Maintenance_findById (id : ObjectId)
  : M (option Maintenance.t) :=
  fun st => (Value (Db.findById Maintenance._id id (requests st)), st).

(** [Maintenance.create({ roomId, reportedBy, issueType, description,
    priority })] with the defaults of the schema. *)
Definition Maintenance_create (roomId reportedBy : ObjectId)
    (issueType description : option string) (priority : string)
  : M Maintenance.t :=
  fun st =>
    let doc :=
      Maintenance.mk (Db.freshId Maintenance._id (requests st))
        roomId reportedBy issueType
        (option_map (String_trim env) description)
        "reported" priority None None None now None None in
    if Maintenance.validate doc
    then (Value doc, with_requests (requests st ++ [doc]) st)
    else (Thrown "Maintenance validation failed", st).

(** [request.save()] *)
Definition Maintenance_save (r : Maintenance.t) : M unit :=
  fun st =>
    if Maintenance.validate r
    then (Value tt,
          with_requests (Db.replaceById Maintenance._id r (requests st)) st)
    else (Thrown "Maintenance validation failed", st).

Definition createRequest (user : User) (body : RequestBody.t)
  : Store -> Response * Store :=
  tryCatch (
    let roomId := RequestBody.roomId body in
    let priority := RequestBody.priority body in
    (* [Room.findById(undefined)] resolves to [null] *)
    roomId <- orAnswer roomId 404 (Message "Room not found") ;;
    room <- Room_findById roomId ;;
    room <- orAnswer room 404 (Message "Room not found") ;;
    request <-
      Maintenance_create roomId (user_id user)
        (RequestBody.issueType body) (RequestBody.description body)
        (Js.orElse priority "medium") ;;
    (if Js.strictEq priority "urgent"
     then Room_save (Room.set_status "maintenance" room)
     else ret tt) ;;
    populatedRequest <- Maintenance_findById (Maintenance._id request) ;;
    answer 201 (RequestJson populatedRequest))
  serverError.

Definition restrictedStatuses : list string :=
  ["assigned"; "in-progress"; "resolved"; "cancelled"].

Definition privilegedRoles : list string := ["admin"; "manager"].

(** Lines 124-129: "Update room status back to available if it was in
    maintenance". *)
Definition releaseRoom (request : Maintenance.t) : M unit :=
  room <- Room_findById (Maintenance.roomId request) ;;
  match room with
  | Some room =>
      if (Room.status room =? "maintenance")%string
      then Room_save (Room.set_status "available" room)
      else ret tt
  | None => ret tt
  end.

(** Lines 113-119: "Update fields". *)
Definition updateFields (body : RequestUpdate.t) (request : Maintenance.t)
  : Maintenance.t :=
  let request := assignTruthy (RequestUpdate.status body)
                   Maintenance.set_status request in
  let request := assign (RequestUpdate.assignedTo body)
                   (fun v => Maintenance.set_assignedTo (Some v))
                   request in
  let request := assignTruthy (RequestUpdate.priority body)
                   Maintenance.set_priority request in
  let request := assign (RequestUpdate.estimatedCost body)
                   (fun v => Maintenance.set_estimatedCost (Some v))
                   request in
  let request := assign (RequestUpdate.actualCost body)
                   (fun v => Maintenance.set_actualCost (Some v))
                   request in
  assignTruthy (RequestUpdate.notes body)
    (fun v => Maintenance.set_notes (Some (String_trim env v))) request.

Definition updateRequest (user : User) (id : ObjectId)
    (body : RequestUpdate.t) : Store -> Response * Store :=
  tryCatch (
    request <- Maintenance_findById id ;;
    request <- orAnswer request
                 404 (Message "Maintenance request not found") ;;
    when_ (Js.includes restrictedStatuses (RequestUpdate.status body)
           && negb (Js.includes privilegedRoles (Some (role user))))
      403 (Message "Only admin/manager can update status") ;;
    let request := updateFields body request in
    request <-
      (if Js.strictEq (RequestUpdate.status body) "resolved" then
         let request := Maintenance.set_resolvedAt (Some now) request in
         releaseRoom request ;;
         ret request
       else ret request) ;;
    Maintenance_save request ;;
    populatedRequest <- Maintenance_findById (Maintenance._id request) ;;
    answer 200 (RequestJson populatedRequest))
  serverError.

End Handlers.
End MaintenanceController.

(* ================================================================== *)
(** ** The specification's own definitions *)

Module Spec.

(** Section 4.1: "Two half-open intervals [a1,a2) and [b1,b2) overlap iff
    a1 < b2 AND b1 < a2." *)
Definition overlaps (a1 a2 b1 b2 : Z) : bool := (a1 <? b2) && (b1 <? a2).

(** Section 4.1: "blockingReservations is the subset of reservations for
    roomId whose status is Confirmed or CheckedIn". *)
Definition blockingReservations (roomId : ObjectId)
    (all : list Reservation.t) : list Reservation.t :=
  filter (fun r =>
            N.eqb (Reservation.roomId r) roomId
            && ((Reservation.status r =? "confirmed")
                || (Reservation.status r =? "checked-in"))%string) all.

(** Section 4.1: "conflict iff existing.checkIn < new.checkOut AND
    existing.checkOut > new.checkIn". *)
Definition hasConflict (candidateStart candidateEnd : Z)
    (blocking : list Reservation.t) : bool :=
  existsb (fun existing =>
             (Reservation.checkInDate existing <? candidateEnd)
             && (Reservation.checkOutDate existing >? candidateStart))
          blocking.

(** Section 4.6: "nights = ceil((checkOut - checkIn) / 86400s)", times in
    milliseconds, the quotient taken in the rationals. *)
Definition nights (checkIn checkOut : Z) : Z :=
  Qceiling (inject_Z (checkOut - checkIn) / inject_Z 86400000)%Q.


End Spec.

(* ================================================================== *)
(** ** A concrete environment and inventory *)

Module Demo.

Definition digit (c : ascii) : option Z :=
  let n := Z.of_nat (nat_of_ascii c) in
  if (48 <=? n) && (n <=? 57) then Some (n - 48) else None.

Fixpoint number (acc : Z) (s : string) : option Z :=
  match s with
  | EmptyString => Some acc
  | String c s' =>
      match digit c with
      | Some d => number (10 * acc + d) s'
      | None => None
      end
  end.

(** Days from 1970-01-01 to the civil date [y-m-d]. *)
Definition daysFromCivil (y m d : Z) : Z :=
  let y := if m <=? 2 then y - 1 else y in
  let era := y / 400 in
  let yoe := y - era * 400 in
  let mp := (m + 9) mod 12 in
  let doy := (153 * mp + 2) / 5 + d - 1 in
  let doe := yoe * 365 + yoe / 4 - yoe / 100 + doy in
  era * 146097 + doe - 719468.

(** [new Date(s)] on the date-only form YYYY-MM-DD (midnight UTC); this
    instance answers Invalid Date on every other string. *)
Definition isoDate (s : string) : Js.Date :=
  if negb (Nat.eqb (String.length s) 10) then Js.InvalidDate else
  match number 0 (substring 0 4 s), substring 4 1 s,
        number 0 (substring 5 2 s), substring 7 1 s,
        number 0 (substring 8 2 s) with
  | Some y, "-"%string, Some m, "-"%string, Some d =>
      if (1 <=? m) && (m <=? 12) && (1 <=? d) && (d <=? 31)
      then Js.TimeValue (daysFromCivil y m d * 86400000)
      else Js.InvalidDate
  | _, _, _, _, _ => Js.InvalidDate
  end.

Fixpoint trimStart (s : string) : string :=
  match s with
  | String c s' => if Ascii.eqb c " "%char then trimStart s' else s
  | EmptyString => EmptyString
  end.

Fixpoint rev (acc s : string) : string :=
  match s with
  | String c s' => rev (String c acc) s'
  | EmptyString => acc
  end.

Definition trim (s : string) : string :=
  rev "" (trimStart (rev "" (trimStart s))).

Definition reservationStatuses : list string :=
  ["confirmed"; "checked-in"; "checked-out"; "cancelled"].

Definition env : Env :=
  mkEnv isoDate trim
    (fun r => existsb (String.eqb (Reservation.status r))
                reservationStatuses)
    (fun id => "LS" ++ Js.toString (Z.of_N id)).

Definition now : Z := 1709251200000.

Definition guest : User := mkUser 7%N "guest".
Definition otherGuest : User := mkUser 8%N "guest".
Definition receptionist : User := mkUser 2%N "receptionist".
Definition housekeeper : User := mkUser 3%N "housekeeping".
Definition manager : User := mkUser 1%N "manager".

Definition room101 (status : string) : Room.t := Room.mk 101%N status 2 100.

Definition inventory : Store := mkStore [room101 "available"] [] [] [].

Definition stay (checkIn checkOut : string) : CreateBody.t :=
  CreateBody.mk (Some 101%N) (Some checkIn) (Some checkOut) (Some 2)
    None None None.

(** Time values of 2024-03-05, -10, -12, -13, -14 and -15, midnight UTC. *)
Definition march05 : Z := 1709596800000.
Definition march10 : Z := 1710028800000.
Definition march12 : Z := 1710201600000.
Definition march13 : Z := 1710288000000.
Definition march14 : Z := 1710374400000.
Definition march15 : Z := 1710460800000.

(** A reservation of room 101 by the guest, as [createReservation]
    stores it. *)
Definition booked (id : ObjectId) (checkIn checkOut : Z) (status : string)
  : Reservation.t :=
  Reservation.mk id 7%N 101%N checkIn checkOut (Some 2) status
    (100 * ((checkOut - checkIn) / 86400000)) None "online"
    ("LS" ++ Js.toString (Z.of_N id)) now.

End Demo.

(* ================================================================== *)
(** ** Outcomes of the handlers *)

Import ReservationController.
Import HousekeepingController.

(** The document [Reservation.create] builds at line 125. *)
Definition createdDocument (env : Env) (now : Z) (user : User)
    (body : CreateBody.t) (roomId : ObjectId) (checkIn checkOut : Z)
    (room : Room.t) (st : Store) : Reservation.t :=
  let id := Db.freshId Reservation._id (reservations st) in
  Reservation.mk id (guestIdFor user body) roomId checkIn checkOut
    (CreateBody.numberOfGuests body) "confirmed"
    (totalAmount room checkIn checkOut) (CreateBody.specialRequests body)
    (Js.orElse (CreateBody.bookingSource body) "online")
    (Reservation_confirmationNumber env id) now.

(** The store after a successful creation: the new reservation is appended
    and the room is marked reserved. *)
Definition createdStore (doc : Reservation.t) (room : Room.t) (st : Store)
  : Store :=
  with_rooms (Db.replaceById Room._id (Room.set_status "reserved" room)
                (rooms st))
    (with_reservations (reservations st ++ [doc]) st).

(** Every check of [createReservation] up to the conflict query passes:
    the request names room [room], its dates read as [checkIn < checkOut]. *)
Definition admissible (env : Env) (body : CreateBody.t) (st : Store)
    (roomId : ObjectId) (checkIn checkOut : Z) (room : Room.t) : Prop :=
  CreateBody.roomId body = Some roomId
  /\ (exists s, Js.nonEmpty (CreateBody.checkInDate body) = Some s
                /\ Date_new env s = Js.TimeValue checkIn)
  /\ (exists s, Js.nonEmpty (CreateBody.checkOutDate body) = Some s
                /\ Date_new env s = Js.TimeValue checkOut)
  /\ checkIn < checkOut
  /\ Db.findById Room._id roomId (rooms st) = Some room.

(** The rooms after lines 120-127 have run for the saved task. *)
Definition roomsAfterSync (task : Housekeeping.t) (rs : list Room.t)
  : list Room.t :=
  if ((Housekeeping.status task =? "completed")
      && (Housekeeping.taskType task =? "cleaning"))%string
  then match Db.findById Room._id (Housekeeping.roomId task) rs with
       | Some room =>
           if (Room.status room =? "cleaning")%string
           then Db.replaceById Room._id (Room.set_status "available" room) rs
           else rs
       | None => rs
       end
  else rs.

(** The document [Maintenance.create] builds at line 72. *)
Definition createdRequest (env : Env) (now : Z) (user : User)
    (body : RequestBody.t) (roomId : ObjectId) (st : Store) : Maintenance.t :=
  Maintenance.mk (Db.freshId Maintenance._id (requests st)) roomId
    (user_id user) (RequestBody.issueType body)
    (option_map (String_trim env) (RequestBody.description body))
    "reported" (Js.orElse (RequestBody.priority body) "medium")
    None None None now None None.

(* ================================================================== *)
(** ** Scenarios on the concrete inventory *)

(** The inventory after the guest booked [2024-03-05, 2024-03-10). *)
Definition afterFirstStay : Store :=
  mkStore [Demo.room101 "reserved"]
    [Demo.booked 1%N Demo.march05 Demo.march10 "confirmed"] [] [].

(** The guest's reservation 1 of room 101, the guest being in the room. *)
Definition duringFirstStay : Store :=
  mkStore [Demo.room101 "occupied"]
    [Demo.booked 1%N Demo.march05 Demo.march10 "checked-in"] [] [].

(** The body [{ status: 'cancelled' }] of a reservation update. *)
Definition cancelBody : UpdateBody.t := UpdateBody.mk (Some "cancelled") None.

(** A cleaning task of room 101 assigned to the housekeeper. *)
Definition cleaning101 (status : string) : Housekeeping.t :=
  Housekeeping.mk 1%N 101%N (Some 3%N) "cleaning" status
    (Js.TimeValue Demo.march10) None None "medium"
    (Js.TimeValue Demo.march05) Demo.march05.

(** The body [{ status: 'completed' }] of a task update. *)
Definition completeBody : TaskBody.t :=
  TaskBody.mk None None None (Some "completed") None None None None None.

(** The pending task once the housekeeper completed it. *)
Definition completed101 : Housekeeping.t :=
  Housekeeping.set_updatedAt Demo.now
    (Housekeeping.set_completedDate (Some (Js.TimeValue Demo.now))
       (Housekeeping.set_status "completed" (cleaning101 "pending"))).

(** Room 101 with its cleaning task still pending. *)
Definition withCleaningTask (roomStatus : string) : Store :=
  mkStore [Demo.room101 roomStatus] [] [cleaning101 "pending"] [].


(** A maintenance request for room 101. *)
Definition leak (priority : option string) : RequestBody.t :=
  RequestBody.mk (Some 101%N) (Some "plumbing") (Some "Leak under the sink")
    priority.

(** Room 101 with a guest in it. *)
Definition occupiedRoom : Store :=
  mkStore [Demo.room101 "occupied"] [] [] [].

(** An urgent leak in room 101 reported by the guest (user 7). *)
Definition urgentLeak : Maintenance.t :=
  Maintenance.mk 1%N 101%N 7%N (Some "plumbing") (Some "Leak under the sink")
    "reported" "urgent" None None None Demo.now None None.

(** Room 101 in maintenance because of that request. *)
Definition underMaintenance : Store :=
  mkStore [Demo.room101 "maintenance"] [] [] [urgentLeak].



(* ================================================================== *)
(** ** The other handlers of the three controllers *)

From Stdlib Require Import Permutation.

(** [doc.deleteOne()]: the document with this [_id] leaves the collection. *)
Fixpoint deleteById {A : Type} (id_of : A -> ObjectId) (id : ObjectId)
    (c : list A) : list A :=
  match c with
  | [] => []
  | x :: c' =>
      if N.eqb (id_of x) id then c' else x :: deleteById id_of id c'
  end.

(** [query.path = v]: an equality condition of a filter, absent when the
    key was not set. *)
Definition holds {V : Type} (eqb : V -> V -> bool) (cond : option V) (v : V)
  : bool :=
  match cond with
  | Some c => eqb v c
  | None => true
  end.

(** The same against a path that may be unset in the document. *)
Definition holdsOpt {V : Type} (eqb : V -> V -> bool) (cond : option V)
    (v : option V) : bool :=
  match cond, v with
  | Some c, Some x => eqb x c
  | Some _, None => false
  | None, _ => true
  end.

(** The answer of a listing handler: [res.json({ success: true, count,
    items })], or the 500 answer of its [catch]. *)
Inductive Listing (A : Type) : Type :=
| Listed (count : nat) (items : list A)
| ListFailed (error : string).
Arguments Listed {A} count items.
Arguments ListFailed {A} error.

Module ReservationQuery.
(** [req.query] of GET /api/reservations *)
Record t : Type := mk {
  status : option string;
  guestId : option ObjectId;
  roomId : option ObjectId;
  checkInDate : option string;
  checkOutDate : option string
}.
End ReservationQuery.

Module ReservationFilter.
(** The [query] object [getReservations] passes to [Reservation.find]. *)
Record t : Type := mk {
  status : option string;
  guestId : option ObjectId;
  roomId : option ObjectId;
  checkInDate_gte : option Js.Date;
  checkOutDate_lte : option Js.Date
}.

Definition set_guestId (v : option ObjectId) (q : t) : t :=
  mk (status q) v (roomId q) (checkInDate_gte q) (checkOutDate_lte q).

(** A date condition with an invalid date cannot be cast. *)
Definition castable (d : option Js.Date) : bool :=
  match d with
  | Some Js.InvalidDate => false
  | _ => true
  end.

Definition matches (q : t) (r : Reservation.t) : bool :=
  holds String.eqb (status q) (Reservation.status r)
  && holds N.eqb (guestId q) (Reservation.guestId r)
  && holds N.eqb (roomId q) (Reservation.roomId r)
  && match checkInDate_gte q with
     | Some (Js.TimeValue t) => Reservation.checkInDate r >=? t
     | _ => true
     end
  && match checkOutDate_lte q with
     | Some (Js.TimeValue t) => Reservation.checkOutDate r <=? t
     | _ => true
     end.
End ReservationFilter.

Module TaskQuery.
(** [req.query] of GET /api/housekeeping, and the [query] object built
    from it. *)
Record t : Type := mk {
  status : option string;
  taskType : option string;
  assignedTo : option ObjectId;
  roomId : option ObjectId;
  priority : option string
}.

Definition set_assignedTo (v : option ObjectId) (q : t) : t :=
  mk (status q) (taskType q) v (roomId q) (priority q).

Definition matches (q : t) (d : Housekeeping.t) : bool :=
  holds String.eqb (status q) (Housekeeping.status d)
  && holds String.eqb (taskType q) (Housekeeping.taskType d)
  && holdsOpt N.eqb (assignedTo q) (Housekeeping.assignedTo d)
  && holds N.eqb (roomId q) (Housekeeping.roomId d)
  && holds String.eqb (priority q) (Housekeeping.priority d).
End TaskQuery.

Module RequestQuery.
(** [req.query] of GET /api/maintenance, and the [query] object built
    from it. *)
Record t : Type := mk {
  status : option string;
  issueType : option string;
  roomId : option ObjectId;
  priority : option string;
  reportedBy : option ObjectId
}.

Definition set_reportedBy (v : option ObjectId) (q : t) : t :=
  mk (status q) (issueType q) (roomId q) (priority q) v.

Definition matches (q : t) (d : Maintenance.t) : bool :=
  holds String.eqb (status q) (Maintenance.status d)
  && holdsOpt String.eqb (issueType q) (Maintenance.issueType d)
  && holds N.eqb (roomId q) (Maintenance.roomId d)
  && holds String.eqb (priority q) (Maintenance.priority d)
  && holds N.eqb (reportedBy q) (Maintenance.reportedBy d).
End RequestQuery.

(** [getReservations], [getReservation] of
    controllers/reservationController.js. *)
Module ReservationReads.
Section Handlers.
Variable env : Env.
(** The ids of the User collection, for [populate('guestId')]. *)
Variable users : list ObjectId.
(** [.sort({ createdAt: -1 })]; [createdAt] belongs to the Reservation
    model that is not part of the sources. *)
Variable sortByCreatedAt : list Reservation.t -> list Reservation.t.

(** Lines 12-24: the filter built from the query string; a guest's
    [guestId] is overwritten with their own id. *)
Definition buildQuery (user : User) (q : ReservationQuery.t)
  : ReservationFilter.t :=
  let query :=
    ReservationFilter.mk
      (Js.nonEmpty (ReservationQuery.status q))
      (ReservationQuery.guestId q)
      (ReservationQuery.roomId q)
      (option_map (Date_new env) (Js.nonEmpty (ReservationQuery.checkInDate q)))
      (option_map (Date_new env)
         (Js.nonEmpty (ReservationQuery.checkOutDate q))) in
  if (role user =? "guest")%string
  then ReservationFilter.set_guestId (Some (user_id user)) query
  else query.

Definition getReservations (user : User) (q : ReservationQuery.t)
    (st : Store) : Listing Reservation.t :=
  let query := buildQuery user q in
  if ReservationFilter.castable (ReservationFilter.checkInDate_gte query)
     && ReservationFilter.castable (ReservationFilter.checkOutDate_lte query)
  then
    let reservations :=
      sortByCreatedAt
        (filter (ReservationFilter.matches query) (reservations st)) in
    Listed (List.length reservations) reservations
  else ListFailed "Cast to date failed".

(** [reservation.guestId._id] after [populate('guestId')]: a [TypeError]
    when the user no longer exists. *)
Definition populatedGuestId (r : Reservation.t) : M ObjectId :=
  if existsb (N.eqb (Reservation.guestId r)) users
  then ret (Reservation.guestId r)
  else throw "Cannot read properties of null (reading '_id')".

Definition getReservation (user : User) (id : ObjectId)
  : Store -> Response * Store :=
  tryCatch (
    reservation <-
      (fun st => (Value (Db.findById Reservation._id id (reservations st)),
                  st)) ;;
    reservation <- orAnswer reservation
                     404 (Message "Reservation not found") ;;
    (if (role user =? "guest")%string then
       guestId <- populatedGuestId reservation ;;
       when_ (negb (N.eqb guestId (user_id user)))
         403 (Message "Not authorized")
     else ret tt) ;;
    answer 200 (ReservationJson (Some reservation)))
  serverError.

End Handlers.
End ReservationReads.

(** [getTasks], [getTask], [createTask], [deleteTask] of
    controllers/housekeepingController.js. *)
Module HousekeepingTasks.
Section Handlers.
Variable env : Env.
Variable now : Z.
(** [.sort({ scheduledDate: 1 })] *)
Variable sortByScheduledDate : list Housekeeping.t -> list Housekeeping.t.

(** Lines 9-21: housekeeping staff only see their own tasks. *)
Definition buildQuery (user : User) (q : TaskQuery.t) : TaskQuery.t :=
  let query :=
    TaskQuery.mk (Js.nonEmpty (TaskQuery.status q))
      (Js.nonEmpty (TaskQuery.taskType q)) (TaskQuery.assignedTo q)
      (TaskQuery.roomId q) (Js.nonEmpty (TaskQuery.priority q)) in
  if (role user =? "housekeeping")%string
  then TaskQuery.set_assignedTo (Some (user_id user)) query
  else query.

Definition getTasks (user : User) (q : TaskQuery.t) (st : Store)
  : Listing Housekeeping.t :=
  let tasks :=
    sortByScheduledDate
      (filter (TaskQuery.matches (buildQuery user q)) (tasks st)) in
  Listed (List.length tasks) tasks.

Definition getTask (id : ObjectId) : Store -> Response * Store :=
  tryCatch (
    task <- HousekeepingController.Housekeeping_findById id ;;
    task <- orAnswer task 404 (Message "Task not found") ;;
    answer 200 (TaskJson (Some task)))
  serverError.

(** [Housekeeping.create({ roomId, taskType, scheduledDate, priority,
    notes, assignedTo })] with the defaults of the schema; a missing
    [taskType] fails the [required] validator. *)
Definition Housekeeping_create (roomId : ObjectId) (taskType : option string)
    (scheduledDate : Js.Date) (priority : string) (notes : option string)
    (assignedTo : option ObjectId) : M Housekeeping.t :=
  fun st =>
    match taskType with
    | Some taskType =>
        let doc :=
          Housekeeping.mk (Db.freshId Housekeeping._id (tasks st)) roomId
            assignedTo taskType "pending" scheduledDate None
            (option_map (String_trim env) notes) priority
            (Js.TimeValue now) now in
        if Housekeeping.validate doc
        then (Value doc, with_tasks (tasks st ++ [doc]) st)
        else (Thrown "Housekeeping validation failed", st)
    | None => (Thrown "Housekeeping validation failed", st)
    end.

(** [new Date(v)] for a value that is [undefined] or a string. *)
Definition newDate (v : option string) : Js.Date :=
  match v with
  | Some s => Date_new env s
  | None => Js.InvalidDate
  end.

Definition createTask (body : TaskBody.t) : Store -> Response * Store :=
  tryCatch (
    (* [Room.findById(undefined)] resolves to [null] *)
    roomId <- orAnswer (TaskBody.roomId body) 404 (Message "Room not found") ;;
    room <- Room_findById roomId ;;
    room <- orAnswer room 404 (Message "Room not found") ;;
    task <-
      Housekeeping_create roomId (TaskBody.taskType body)
        (newDate (TaskBody.scheduledDate body))
        (Js.orElse (TaskBody.priority body) "medium")
        (TaskBody.notes body) (TaskBody.assignedTo body) ;;
    populatedTask <-
      HousekeepingController.Housekeeping_findById (Housekeeping._id task) ;;
    answer 201 (TaskJson populatedTask))
  serverError.

(** [task.deleteOne()] *)
Definition Housekeeping_deleteOne (t : Housekeeping.t) : M unit :=
  fun st =>
    (Value tt,
     with_tasks (deleteById Housekeeping._id (Housekeeping._id t) (tasks st))
       st).

Definition deleteTask (id : ObjectId) : Store -> Response * Store :=
  tryCatch (
    task <- HousekeepingController.Housekeeping_findById id ;;
    task <- orAnswer task 404 (Message "Task not found") ;;
    Housekeeping_deleteOne task ;;
    answer 200 (Message "Task deleted successfully"))
  serverError.

End Handlers.
End HousekeepingTasks.

(** [getRequests], [getRequest], [deleteRequest] of
    controllers/maintenanceController.js. *)
Module MaintenanceRequests.
Section Handlers.
(** The ids of the User collection, for [populate('reportedBy')]. *)
Variable users : list ObjectId.
(** [.sort({ reportedAt: -1 })] *)
Variable sortByReportedAt : list Maintenance.t -> list Maintenance.t.

(** Lines 9-21: guests only see their own maintenance requests. *)
Definition buildQuery (user : User) (q : RequestQuery.t) : RequestQuery.t :=
  let query :=
    RequestQuery.mk (Js.nonEmpty (RequestQuery.status q))
      (Js.nonEmpty (RequestQuery.issueType q)) (RequestQuery.roomId q)
      (Js.nonEmpty (RequestQuery.priority q)) (RequestQuery.reportedBy q) in
  if (role user =? "guest")%string
  then RequestQuery.set_reportedBy (Some (user_id user)) query
  else query.

Definition getRequests (user : User) (q : RequestQuery.t) (st : Store)
  : Listing Maintenance.t :=
  let requests :=
    sortByReportedAt
      (filter (RequestQuery.matches (buildQuery user q)) (requests st)) in
  Listed (List.length requests) requests.

(** [request.reportedBy._id] after [populate('reportedBy')]. *)
Definition populatedReportedBy (r : Maintenance.t) : M ObjectId :=
  if existsb (N.eqb (Maintenance.reportedBy r)) users
  then ret (Maintenance.reportedBy r)
  else throw "Cannot read properties of null (reading '_id')".

Definition Maintenance_findById (id : ObjectId) : M (option Maintenance.t) :=
  fun st => (Value (Db.findById Maintenance._id id (requests st)), st).

Definition getRequest (user : User) (id : ObjectId)
  : Store -> Response * Store :=
  tryCatch (
    request <- Maintenance_findById id ;;
    request <- orAnswer request
                 404 (Message "Maintenance request not found") ;;
    (if (role user =? "guest")%string then
       reportedBy <- populatedReportedBy request ;;
       when_ (negb (N.eqb reportedBy (user_id user)))
         403 (Message "Not authorized")
     else ret tt) ;;
    answer 200 (RequestJson (Some request)))
  serverError.

(** [request.deleteOne()] *)
Definition Maintenance_deleteOne (r : Maintenance.t) : M unit :=
  fun st =>
    (Value tt,
     with_requests
       (deleteById Maintenance._id (Maintenance._id r) (requests st)) st).

Definition deleteRequest (user : User) (id : ObjectId)
  : Store -> Response * Store :=
  tryCatch (
    when_ (negb (Js.includes ["admin"; "manager"] (Some (role user))))
      403 (Message "Not authorized") ;;
    request <- Maintenance_findById id ;;
    request <- orAnswer request
                 404 (Message "Maintenance request not found") ;;
    Maintenance_deleteOne request ;;
    answer 200 (Message "Maintenance request deleted successfully"))
  serverError.

End Handlers.
End MaintenanceRequests.

(* ================================================================== *)
(** ** Invariants of the collections *)

(** Invariant I2 on a collection of reservations. *)
Definition chronological (rs : list Reservation.t) : Prop :=
  forall r, In r rs -> Reservation.checkInDate r < Reservation.checkOutDate r.

(** Two reservations may coexist: if they are of the same room and both
    blocking, their half-open intervals do not overlap. *)
Definition compatible (a b : Reservation.t) : Prop :=
  Reservation.roomId a = Reservation.roomId b ->
  blocking a = true -> blocking b = true ->
  Spec.overlaps (Reservation.checkInDate a) (Reservation.checkOutDate a)
    (Reservation.checkInDate b) (Reservation.checkOutDate b) = false.

(** Invariant I1 (P1): no room is booked twice for the same night. *)
Definition noDoubleBooking (rs : list Reservation.t) : Prop :=
  ForallOrdPairs compatible rs.

(** The [_id]s of a collection are pairwise distinct. *)
Definition uniqueIds {A : Type} (id_of : A -> ObjectId) (c : list A) : Prop :=
  NoDup (map id_of c).

(* ================================================================== *)
(** ** Outcomes of the lifecycle handlers *)

(** The reservation as [checkIn] (line 228) and [checkOut] (line 275) save
    it. *)
Definition moved (now : Z) (status : string) (r : Reservation.t)
  : Reservation.t :=
  Reservation.set_updatedAt now (Reservation.set_status status r).

(** The store once document [r] has been saved. *)
Definition savedReservation (r : Reservation.t) (st : Store) : Store :=
  with_reservations (Db.replaceById Reservation._id r (reservations st)) st.

(** The store once room [room] has been saved with status [status]. *)
Definition savedRoom (status : string) (room : Room.t) (st : Store) : Store :=
  with_rooms (Db.replaceById Room._id (Room.set_status status room) (rooms st))
    st.

(** What the housekeeping branch of [applyBody] yields. *)
Definition housekeeperUpdate (env : Env) (now : Z) (body : TaskBody.t)
    (task : Housekeeping.t) : Housekeeping.t :=
  let task := assignTruthy (TaskBody.status body) Housekeeping.set_status
                task in
  let task := assignTruthy (TaskBody.notes body)
                (fun v => Housekeeping.set_notes (Some (String_trim env v)))
                task in
  if Js.strictEq (TaskBody.status body) "completed"
  then Housekeeping.set_completedDate (Some (Js.TimeValue now)) task
  else task.


(** A second housekeeper, and a request of the first one to start the
    cleaning task that also tries to move it to another room and change its
    type. *)
Definition otherHousekeeper : User := mkUser 4%N "housekeeping".

Definition startElsewhere : TaskBody.t :=
  TaskBody.mk (Some 999%N) (Some 4%N) (Some "inspection") (Some "in-progress")
    None None (Some " started ") (Some "urgent") None.


(** The document [Housekeeping.create] builds at line 65 of
    housekeepingController.js. *)
Definition createdTask (env : Env) (now : Z) (body : TaskBody.t)
    (roomId : ObjectId) (taskType : string) (st : Store) : Housekeeping.t :=
  Housekeeping.mk (Db.freshId Housekeeping._id (tasks st)) roomId
    (TaskBody.assignedTo body) taskType "pending"
    (HousekeepingTasks.newDate env (TaskBody.scheduledDate body)) None
    (option_map (String_trim env) (TaskBody.notes body))
    (Js.orElse (TaskBody.priority body) "medium") (Js.TimeValue now) now.

(** A request to clean room 101 on 2024-03-10, and the same without a
    date. *)
Definition cleanRoom101 (scheduledDate : option string) : TaskBody.t :=
  TaskBody.mk (Some 101%N) (Some 3%N) (Some "cleaning") None scheduledDate
    None None None None.


(** An inspection of room 101 assigned to the second housekeeper, and the
    store with both tasks. *)
Definition inspection101 : Housekeeping.t :=
  Housekeeping.mk 2%N 101%N (Some 4%N) "inspection" "pending"
    (Js.TimeValue Demo.march12) None None "low"
    (Js.TimeValue Demo.march05) Demo.march05.

Definition twoTasks : Store :=
  mkStore [Demo.room101 "cleaning"] [] [cleaning101 "pending"; inspection101]
    [].

(** A listing that keeps the natural order. *)
Definition unsorted {A : Type} (l : list A) : list A := l.

(** A second request, reported by the other guest (user 8), and the store
    with both requests; a second reservation, of the other guest, and the
    store with both reservations. *)
Definition brokenLamp : Maintenance.t :=
  Maintenance.mk 2%N 101%N 8%N (Some "electrical") (Some "Broken lamp")
    "reported" "low" None None None Demo.now None None.

Definition twoRequests : Store :=
  mkStore [Demo.room101 "maintenance"] [] [] [urgentLeak; brokenLamp].

Definition twoBookings : Store :=
  mkStore [Demo.room101 "reserved"]
    [Demo.booked 1%N Demo.march05 Demo.march10 "confirmed";
     Reservation.mk 2%N 8%N 101%N Demo.march10 Demo.march13 (Some 1)
       "confirmed" 300 None "online" "LS2" Demo.now] [] [].


(** The rooms after lines 124-129 of maintenanceController.js have run for
    the resolved request. *)
Definition roomsAfterRelease (request : Maintenance.t) (rs : list Room.t)
  : list Room.t :=
  match Db.findById Room._id (Maintenance.roomId request) rs with
  | Some room =>
      if (Room.status room =? "maintenance")%string
      then Db.replaceById Room._id (Room.set_status "available" room) rs
      else rs
  | None => rs
  end.

(** The request as [updateRequest] saves it when the body resolves it. *)
Definition resolvedRequest (env : Env) (now : Z) (body : RequestUpdate.t)
    (r : Maintenance.t) : Maintenance.t :=
  Maintenance.set_resolvedAt (Some now)
    (MaintenanceController.updateFields env body r).

(** The bodies [{ status: 'resolved', actualCost: 40 }] and
    [{ status: 'resolved', actualCost: -5 }]. *)
Definition resolveFor (cost : Z) : RequestUpdate.t :=
  RequestUpdate.mk (Some "resolved") None None None (Some cost) None.


(** Every collection of the store has pairwise distinct [_id]s, as the
    unique index on [_id] guarantees. *)
Definition wellKeyed (st : Store) : Prop :=
  uniqueIds Room._id (rooms st)
  /\ uniqueIds Reservation._id (reservations st)
  /\ uniqueIds Housekeeping._id (tasks st)
  /\ uniqueIds Maintenance._id (requests st).

(** The [_id]s of the four collections, in natural order. *)
Definition keys (st : Store)
  : list ObjectId * list ObjectId * list ObjectId * list ObjectId :=
  (map Room._id (rooms st), map Reservation._id (reservations st),
   map Housekeeping._id (tasks st), map Maintenance._id (requests st)).


(** The body [{ status: 'confirmed' }] of a reservation update. *)
Definition confirmBody : UpdateBody.t := UpdateBody.mk (Some "confirmed") None.

(** The guest's stay [2024-03-05, 2024-03-10) in room 101, and a cancelled
    booking of the same room for [2024-03-05, 2024-03-12). *)
Definition withCancelledBooking : Store :=
  mkStore [Demo.room101 "reserved"]
    [Demo.booked 1%N Demo.march05 Demo.march10 "confirmed";
     Reservation.mk 2%N 8%N 101%N Demo.march05 Demo.march12 (Some 1)
       "cancelled" 700 None "online" "LS2" Demo.now] [] [].
(* ================================================================== *)
(** * Properties *)

(** ** Collections *)

Section CollectionFacts.
Context {A : Type} (id_of : A -> ObjectId).

Lemma findById_id (id : ObjectId) (c : list A) (d : A) :
  Db.findById id_of id c = Some d -> id_of d = id.
Proof.
  unfold Db.findById. intros H.
  apply find_some in H. destruct H as [_ H].
  now apply N.eqb_eq.
Qed.

Lemma findById_In (id : ObjectId) (c : list A) (d : A) :
  Db.findById id_of id c = Some d -> In d c.
Proof.
  unfold Db.findById. intros H. now apply find_some in H.
Qed.

(** Reading back a document that was just saved. *)
Lemma findById_replaceById (c : list A) (d0 d : A) :
  Db.findById id_of (id_of d) c = Some d0 ->
  Db.findById id_of (id_of d) (Db.replaceById id_of d c) = Some d.
Proof.
  unfold Db.findById, Db.replaceById.
  induction c as [|x c IH]; simpl; [discriminate|].
  destruct (N.eqb (id_of x) (id_of d)) eqn:E.
  - intros _. now rewrite N.eqb_refl.
  - rewrite E. exact IH.
Qed.

(** Saving a document leaves the documents with another id in place. *)
Lemma findById_replaceById_other (id : ObjectId) (c : list A) (d : A) :
  id <> id_of d ->
  Db.findById id_of id (Db.replaceById id_of d c) = Db.findById id_of id c.
Proof.
  unfold Db.findById, Db.replaceById. intros Hne.
  induction c as [|x c IH]; simpl; [reflexivity|].
  destruct (N.eqb (id_of x) (id_of d)) eqn:E.
  - apply N.eqb_eq in E.
    replace (N.eqb (id_of d) id) with false
      by (symmetry; apply N.eqb_neq; congruence).
    replace (N.eqb (id_of x) id) with false
      by (symmetry; apply N.eqb_neq; congruence).
    exact IH.
  - destruct (N.eqb (id_of x) id); [reflexivity | exact IH].
Qed.

Lemma freshId_above (c : list A) (x : A) :
  In x c -> (id_of x < Db.freshId id_of c)%N.
Proof.
  unfold Db.freshId.
  induction c as [|y c IH]; simpl; [tauto|].
  intros [-> | Hin].
  - lia.
  - specialize (IH Hin). lia.
Qed.

(** The id given to a new document is not in use, so reading it back
    yields the new document. *)
Lemma findById_created (c : list A) (d : A) :
  id_of d = Db.freshId id_of c ->
  Db.findById id_of (id_of d) (c ++ [d]) = Some d.
Proof.
  intros Hid. unfold Db.findById.
  assert (Hold : find (fun x => N.eqb (id_of x) (id_of d)) c = None).
  { destruct (find _ c) as [x|] eqn:F; [|reflexivity].
    apply find_some in F. destruct F as [Hin Heq].
    apply N.eqb_eq in Heq. apply freshId_above in Hin. lia. }
  revert Hold. clear Hid.
  induction c as [|y c IH]; simpl.
  - intros _. now rewrite N.eqb_refl.
  - destruct (N.eqb (id_of y) (id_of d)); [discriminate | exact IH].
Qed.

Lemma isSome_findOne (q : A -> bool) (c : list A) :
  isSome (Db.findOne q c) = existsb q c.
Proof.
  unfold Db.findOne.
  induction c as [|x c IH]; simpl; [reflexivity|].
  destruct (q x); [reflexivity | exact IH].
Qed.

Lemma existsb_filter (p q : A -> bool) (c : list A) :
  existsb q (filter p c) = existsb (fun x => p x && q x) c.
Proof.
  induction c as [|x c IH]; simpl; [reflexivity|].
  destruct (p x); simpl; now rewrite IH.
Qed.

Lemma existsb_ext_in (p q : A -> bool) (c : list A) :
  (forall x, In x c -> p x = q x) -> existsb p c = existsb q c.
Proof.
  induction c as [|x c IH]; simpl; [reflexivity|].
  intros H. rewrite (H x) by now left.
  rewrite IH; [reflexivity|]. intros y Hy. apply H. now right.
Qed.
End CollectionFacts.

(** ** Booleans of the queries as propositions *)

Ltac bool_to_prop :=
  repeat rewrite ?andb_true_iff, ?orb_true_iff, ?andb_false_iff,
    ?orb_false_iff, ?negb_true_iff, ?negb_false_iff, ?Z.ltb_lt, ?Z.leb_le,
    ?Z.gtb_lt, ?Z.geb_le, ?Z.ltb_ge, ?Z.leb_gt, ?N.eqb_eq, ?N.eqb_neq,
    ?String.eqb_eq, ?String.eqb_neq in *.

(** The three clauses of the query are the half-open overlap test on
    well-formed intervals. *)
Lemma dateClauses_overlap (checkIn checkOut : Z) (r : Reservation.t) :
  Reservation.checkInDate r < Reservation.checkOutDate r ->
  checkIn < checkOut ->
  dateClauses checkIn checkOut r
  = Spec.overlaps (Reservation.checkInDate r) (Reservation.checkOutDate r)
      checkIn checkOut.
Proof.
  intros Hr Hc. unfold dateClauses, Spec.overlaps.
  destruct (Reservation.checkInDate r <? checkOut) eqn:E1;
  destruct (Reservation.checkInDate r >=? checkIn) eqn:E2;
  destruct (Reservation.checkOutDate r >? checkIn) eqn:E3;
  destruct (Reservation.checkOutDate r <=? checkOut) eqn:E4;
  destruct (Reservation.checkInDate r <=? checkIn) eqn:E5;
  destruct (Reservation.checkOutDate r >=? checkOut) eqn:E6;
  destruct (checkIn <? Reservation.checkOutDate r) eqn:E7;
  try reflexivity; exfalso;
  rewrite ?Z.geb_leb, ?Z.gtb_ltb in *;
  rewrite ?Z.ltb_lt, ?Z.leb_le, ?Z.ltb_ge, ?Z.leb_gt in *; lia.
Qed.

Lemma blocking_spec (r : Reservation.t) :
  blocking r
  = ((Reservation.status r =? "confirmed")
     || (Reservation.status r =? "checked-in"))%string.
Proof.
  unfold blocking. simpl. now rewrite orb_false_r.
Qed.

Lemma In_blockingReservations (roomId : ObjectId) (all : list Reservation.t)
    (r : Reservation.t) :
  In r (Spec.blockingReservations roomId all) <->
  In r all /\ Reservation.roomId r = roomId /\ blocking r = true.
Proof.
  unfold Spec.blockingReservations. rewrite filter_In, blocking_spec.
  rewrite andb_true_iff, N.eqb_eq. tauto.
Qed.


(** [nights] is the least number of whole days covering the stay. *)
Lemma nights_least (checkIn checkOut : Z) :
  (nights checkIn checkOut - 1) * 86400000 < checkOut - checkIn
  <= nights checkIn checkOut * 86400000.
Proof.
  unfold nights, Js.ceilDiv. change (1000 * 60 * 60 * 24) with 86400000.
  pose proof (Z.div_mod (- (checkOut - checkIn)) 86400000 ltac:(lia)) as E.
  pose proof (Z.mod_pos_bound (- (checkOut - checkIn)) 86400000 ltac:(lia)).
  lia.
Qed.

(** ** Reservation creation, as a relation between request and outcome *)

Ltac run_handler H :=
  unfold tryCatch, bind, orAnswer, when_, answer, ret, throw, serverError in H.

Ltac stop H := inversion H; subst; simpl in *; discriminate.

Lemma getTime_TimeValue (d : Js.Date) (ms : Z) :
  Js.getTime d = Some ms -> d = Js.TimeValue ms.
Proof. destruct d; simpl; congruence. Qed.

(** A 201 answer is produced only along the path on which every check
    passed, and then the outcome is the created document and store. *)
Lemma createReservation_201 (env : Env) (now : Z) (user : User)
    (body : CreateBody.t) (st : Store) (resp : Response) (st' : Store) :
  createReservation env now user body st = (resp, st') ->
  code resp = 201 ->
  exists roomId checkIn checkOut room,
    let doc := createdDocument env now user body roomId checkIn checkOut
                 room st in
    admissible env body st roomId checkIn checkOut room
    /\ Js.gt (CreateBody.numberOfGuests body) (Room.maxOccupancy room) = false
    /\ Db.findOne (conflictQuery roomId checkIn checkOut) (reservations st)
       = None
    /\ Reservation_validate env doc = true
    /\ resp = mkResponse 201 (ReservationJson (Some doc))
    /\ st' = createdStore doc room st.
Proof.
  intros H C. unfold createReservation in H. run_handler H.
  unfold Room_findById, Reservation_findOne, Reservation_create, Room_save,
    Reservation_findById in H.
  destruct (CreateBody.roomId body) as [roomId|] eqn:E1; [| stop H].
  destruct (Js.nonEmpty (CreateBody.checkInDate body)) as [s1|] eqn:E2;
    [| stop H].
  destruct (Js.nonEmpty (CreateBody.checkOutDate body)) as [s2|] eqn:E3;
    [| stop H].
  destruct (Js.getTime (Date_new env s1)) as [ci|] eqn:E4; [| stop H].
  destruct (Js.getTime (Date_new env s2)) as [co|] eqn:E5; [| stop H].
  destruct (co <=? ci) eqn:E6; [stop H |].
  destruct (Db.findById Room._id roomId (rooms st)) as [room|] eqn:E7;
    [| stop H].
  destruct (Js.gt (CreateBody.numberOfGuests body) (Room.maxOccupancy room))
    eqn:E8; [stop H |].
  destruct (Db.findOne (conflictQuery roomId ci co) (reservations st))
    as [c|] eqn:E9; [stop H |].
  cbn [isSome] in H.
  fold (createdDocument env now user body roomId ci co room st) in H.
  destruct (Reservation_validate env
              (createdDocument env now user body roomId ci co room st))
    eqn:E10; [| stop H].
  exists roomId, ci, co, room. cbv zeta.
  apply getTime_TimeValue in E4, E5. apply Z.leb_gt in E6.
  pose proof (findById_created Reservation._id (reservations st)
                (createdDocument env now user body roomId ci co room st)
                eq_refl) as F.
  cbn [with_rooms with_reservations reservations] in H.
  rewrite F in H. inversion H; subst resp st'.
  unfold admissible, createdStore. repeat split; eauto.
Qed.

(** What [createReservation] answers to a request that reaches the
    occupancy check. *)
Lemma createReservation_admissible (env : Env) (now : Z) (user : User)
    (body : CreateBody.t) (st : Store) (roomId : ObjectId)
    (checkIn checkOut : Z) (room : Room.t) :
  let doc := createdDocument env now user body roomId checkIn checkOut
               room st in
  admissible env body st roomId checkIn checkOut room ->
  createReservation env now user body st
  = if Js.gt (CreateBody.numberOfGuests body) (Room.maxOccupancy room)
    then (mkResponse 400 (Message (occupancyMessage room)), st)
    else
      match Db.findOne (conflictQuery roomId checkIn checkOut)
              (reservations st) with
      | Some _ =>
          (mkResponse 400
             (Message "Room is not available for the selected dates"), st)
      | None =>
          if Reservation_validate env doc
          then (mkResponse 201 (ReservationJson (Some doc)),
                createdStore doc room st)
          else (mkResponse 500
                  (ServerError "Reservation validation failed"
                     "Reservation validation failed"), st)
      end.
Proof.
  intros doc (E1 & (s1 & E2 & E4) & (s2 & E3 & E5) & Hlt & E7).
  unfold createReservation, tryCatch, bind, orAnswer, when_, answer, ret,
    Room_findById, Reservation_findOne, Reservation_create, Room_save,
    Reservation_findById.
  rewrite E1, E2, E3, E4, E5. cbn [Js.getTime].
  replace (checkOut <=? checkIn) with false by (symmetry; now apply Z.leb_gt).
  rewrite E7.
  destruct (Js.gt _ _); [reflexivity|].
  destruct (Db.findOne _ _); [reflexivity|]. cbn [isSome].
  fold (createdDocument env now user body roomId checkIn checkOut room st).
  fold doc. destruct (Reservation_validate env doc); [|reflexivity].
  cbn [with_rooms with_reservations reservations].
  rewrite (findById_created Reservation._id) by reflexivity.
  reflexivity.
Qed.

(** The occupancy answer is given only when the guard of line 99 fired. *)
Lemma createReservation_occupancy (env : Env) (now : Z) (user : User)
    (body : CreateBody.t) (st : Store) (resp : Response) (st' : Store)
    (room' : Room.t) :
  createReservation env now user body st = (resp, st') ->
  resp = mkResponse 400 (Message (occupancyMessage room')) ->
  exists roomId room,
    CreateBody.roomId body = Some roomId
    /\ Db.findById Room._id roomId (rooms st) = Some room
    /\ Js.gt (CreateBody.numberOfGuests body) (Room.maxOccupancy room) = true.
Proof.
  intros H C. unfold createReservation in H. run_handler H.
  unfold Room_findById, Reservation_findOne, Reservation_create, Room_save,
    Reservation_findById in H.
  unfold occupancyMessage in C.
  destruct (CreateBody.roomId body) as [roomId|] eqn:E1; [| stop H].
  destruct (Js.nonEmpty (CreateBody.checkInDate body)) as [s1|] eqn:E2;
    [| stop H].
  destruct (Js.nonEmpty (CreateBody.checkOutDate body)) as [s2|] eqn:E3;
    [| stop H].
  destruct (Js.getTime (Date_new env s1)) as [ci|] eqn:E4; [| stop H].
  destruct (Js.getTime (Date_new env s2)) as [co|] eqn:E5; [| stop H].
  destruct (co <=? ci) eqn:E6; [stop H |].
  destruct (Db.findById Room._id roomId (rooms st)) as [room|] eqn:E7;
    [| stop H].
  destruct (Js.gt (CreateBody.numberOfGuests body) (Room.maxOccupancy room))
    eqn:E8; [now exists roomId, room |].
  destruct (Db.findOne (conflictQuery roomId ci co) (reservations st))
    as [c|] eqn:E9; [stop H |].
  cbn [isSome] in H.
  destruct (Reservation_validate env _); stop H.
Qed.

(** What the handler answers when the query finds a conflict, on the
    specification's terms. *)
Lemma createReservation_conflict_iff (env : Env) (now : Z) (user : User)
    (body : CreateBody.t) (st : Store) (roomId : ObjectId)
    (checkIn checkOut : Z) (room : Room.t) :
  admissible env body st roomId checkIn checkOut room ->
  Js.gt (CreateBody.numberOfGuests body) (Room.maxOccupancy room) = false ->
  (json (fst (createReservation env now user body st))
   = Message "Room is not available for the selected dates"
   <-> isSome (Db.findOne (conflictQuery roomId checkIn checkOut)
                 (reservations st)) = true).
Proof.
  intros Hadm Hocc.
  rewrite (createReservation_admissible env now user body st roomId checkIn
             checkOut room Hadm), Hocc.
  destruct (Db.findOne _ _); cbn [isSome].
  - simpl. tauto.
  - destruct (Reservation_validate env _); simpl; split; discriminate.
Qed.

(** ** The conflict detector *)

(** C1: the three-clause disjunction of the conflict query reports a
    conflict exactly when the half-open overlap rule holds.  For every
    candidate interval with [checkIn < checkOut] and every collection of
    well-formed reservations: each blocking reservation of the room matches
    the query iff [existing.checkInDate < checkOut] and
    [existing.checkOutDate > checkIn], and the query finds a document iff
    the specification's [hasConflict] holds of the room's blocking
    reservations. *)
Theorem C1_conflict_query_is_half_open_overlap :
  forall (roomId : ObjectId) (checkIn checkOut : Z)
         (all : list Reservation.t),
    checkIn < checkOut ->
    (forall r, In r all ->
               Reservation.checkInDate r < Reservation.checkOutDate r) ->
    (forall existing,
        In existing (Spec.blockingReservations roomId all) ->
        (conflictQuery roomId checkIn checkOut existing = true
         <-> Reservation.checkInDate existing < checkOut
             /\ Reservation.checkOutDate existing > checkIn))
    /\ isSome (Db.findOne (conflictQuery roomId checkIn checkOut) all)
       = Spec.hasConflict checkIn checkOut
           (Spec.blockingReservations roomId all).
Proof.
  intros roomId checkIn checkOut all Hc Hwf. split.
  - intros existing Hin.
    apply In_blockingReservations in Hin. destruct Hin as (Hin & Hroom & Hb).
    unfold conflictQuery.
    rewrite Hb, (dateClauses_overlap _ _ _ (Hwf _ Hin) Hc), Hroom, N.eqb_refl.
    unfold Spec.overlaps. simpl. bool_to_prop. lia.
  - rewrite isSome_findOne. unfold Spec.hasConflict, Spec.blockingReservations.
    rewrite existsb_filter. apply existsb_ext_in. intros r Hin.
    unfold conflictQuery.
    rewrite (dateClauses_overlap _ _ _ (Hwf _ Hin) Hc), blocking_spec.
    unfold Spec.overlaps. rewrite Z.gtb_ltb. reflexivity.
Qed.

(** The overlapping request of P3, [2024-03-12, 2024-03-14) against a
    confirmed stay [2024-03-10, 2024-03-15), is found in conflict. *)
Lemma C1_witness :
  Demo.march12 < Demo.march14
  /\ isSome (Db.findOne (conflictQuery 101%N Demo.march12 Demo.march14)
               [Demo.booked 1%N Demo.march10 Demo.march15 "confirmed"])
     = Spec.hasConflict Demo.march12 Demo.march14
         (Spec.blockingReservations 101%N
            [Demo.booked 1%N Demo.march10 Demo.march15 "confirmed"])
  /\ Spec.hasConflict Demo.march12 Demo.march14
       (Spec.blockingReservations 101%N
          [Demo.booked 1%N Demo.march10 Demo.march15 "confirmed"]) = true.
Proof.
  split; [reflexivity|]. split; [|reflexivity].
  apply (C1_conflict_query_is_half_open_overlap 101%N Demo.march12
           Demo.march14
           [Demo.booked 1%N Demo.march10 Demo.march15 "confirmed"]).
  - reflexivity.
  - intros r [<- | []]. reflexivity.
Defined.

(** C5: back-to-back stays do not conflict.  A well-formed reservation whose
    check-out equals the candidate's check-in, or whose check-in equals the
    candidate's check-out, does not match the conflict query; and when every
    blocking reservation of the room is back-to-back with the candidate in
    this way, [createReservation] does not answer with the overlap
    rejection. *)
Theorem C5_back_to_back_stays_do_not_conflict :
  (forall (roomId : ObjectId) (checkIn checkOut : Z)
          (existing : Reservation.t),
      Reservation.checkInDate existing < Reservation.checkOutDate existing ->
      checkIn < checkOut ->
      Reservation.checkOutDate existing = checkIn
      \/ Reservation.checkInDate existing = checkOut ->
      conflictQuery roomId checkIn checkOut existing = false)
  /\ (forall (env : Env) (now : Z) (user : User) (body : CreateBody.t)
             (st : Store) (roomId : ObjectId) (checkIn checkOut : Z)
             (room : Room.t),
         admissible env body st roomId checkIn checkOut room ->
         (forall existing,
             In existing
                (Spec.blockingReservations roomId (reservations st)) ->
             Reservation.checkInDate existing
             < Reservation.checkOutDate existing
             /\ (Reservation.checkOutDate existing = checkIn
                 \/ Reservation.checkInDate existing = checkOut)) ->
         Db.findOne (conflictQuery roomId checkIn checkOut)
           (reservations st) = None
         /\ json (fst (createReservation env now user body st))
            <> Message "Room is not available for the selected dates").
Proof.
  assert (Hdoc : forall roomId checkIn checkOut existing,
             Reservation.checkInDate existing
             < Reservation.checkOutDate existing ->
             checkIn < checkOut ->
             Reservation.checkOutDate existing = checkIn
             \/ Reservation.checkInDate existing = checkOut ->
             conflictQuery roomId checkIn checkOut existing = false).
  { intros roomId checkIn checkOut existing Hwf Hc Hb2b.
    unfold conflictQuery. rewrite (dateClauses_overlap _ _ _ Hwf Hc).
    replace (Spec.overlaps _ _ _ _) with false; [apply andb_false_r|].
    symmetry. unfold Spec.overlaps. bool_to_prop. lia. }
  split; [exact Hdoc|].
  intros env now user body st roomId checkIn checkOut room Hadm Hall.
  assert (Hnone : Db.findOne (conflictQuery roomId checkIn checkOut)
                    (reservations st) = None).
  { destruct (Db.findOne _ _) as [c|] eqn:F; [|reflexivity]. exfalso.
    unfold Db.findOne in F. apply find_some in F. destruct F as [Hin Hq].
    assert (Hb : In c (Spec.blockingReservations roomId (reservations st))).
    { apply In_blockingReservations. unfold conflictQuery in Hq.
      bool_to_prop. tauto. }
    destruct (Hall c Hb) as [Hwf Hb2b].
    destruct Hadm as (_ & _ & _ & Hc & _).
    rewrite (Hdoc roomId checkIn checkOut c Hwf Hc Hb2b) in Hq.
    discriminate. }
  split; [exact Hnone|].
  rewrite (createReservation_admissible env now user body st roomId checkIn
             checkOut room Hadm), Hnone.
  destruct (Js.gt _ _); [simpl; unfold occupancyMessage; discriminate|].
  destruct (Reservation_validate env _); simpl; discriminate.
Qed.

Lemma demo_admissible (st : Store) (checkIn checkOut : string) (ci co : Z)
    (status : string) :
  rooms st = [Demo.room101 status] ->
  Demo.isoDate checkIn = Js.TimeValue ci ->
  Demo.isoDate checkOut = Js.TimeValue co ->
  ci < co ->
  checkIn <> "" -> checkOut <> "" ->
  admissible Demo.env (Demo.stay checkIn checkOut) st 101%N ci co
    (Demo.room101 status).
Proof.
  intros Hrooms Hin Hout Hlt Hne1 Hne2. unfold admissible.
  split; [reflexivity|].
  split; [exists checkIn|split; [exists checkOut|split; [exact Hlt|]]].
  - split; [|exact Hin]. simpl.
    destruct (String.eqb_spec checkIn ""); [contradiction|reflexivity].
  - split; [|exact Hout]. simpl.
    destruct (String.eqb_spec checkOut ""); [contradiction|reflexivity].
  - rewrite Hrooms. reflexivity.
Defined.

(** P2: after a stay that checks out on 2024-03-10, a stay of the same room
    that checks in on 2024-03-10 does not match the query and is not
    rejected for overlap. *)
Lemma C5_witness :
  let existing := Demo.booked 1%N Demo.march05 Demo.march10 "confirmed" in
  (Reservation.checkInDate existing < Reservation.checkOutDate existing
   /\ Demo.march10 < Demo.march13
   /\ Reservation.checkOutDate existing = Demo.march10)
  /\ conflictQuery 101%N Demo.march10 Demo.march13 existing = false
  /\ Db.findOne (conflictQuery 101%N Demo.march10 Demo.march13)
       (reservations afterFirstStay) = None
  /\ json (fst (createReservation Demo.env Demo.now Demo.guest
                  (Demo.stay "2024-03-10" "2024-03-13") afterFirstStay))
     <> Message "Room is not available for the selected dates".
Proof.
  intros existing.
  split; [repeat split|]. split.
  - apply (proj1 C5_back_to_back_stays_do_not_conflict 101%N Demo.march10
             Demo.march13 existing);
      [reflexivity | reflexivity | left; reflexivity].
  - apply (proj2 C5_back_to_back_stays_do_not_conflict Demo.env Demo.now
             Demo.guest (Demo.stay "2024-03-10" "2024-03-13") afterFirstStay
             101%N Demo.march10 Demo.march13 (Demo.room101 "reserved")).
    + apply demo_admissible; try reflexivity; discriminate.
    + intros e [<- | []]. split; [reflexivity | left; reflexivity].
Defined.

(** ** Billing *)



(** ** Who a reservation is for *)

(** C9: a guest always books for themselves.  For a caller with role guest,
    the answer and the store after [createReservation] do not depend on the
    [guestId] of the request body, and a created reservation carries the
    caller's own id. *)
Theorem C9_guest_books_for_self :
  forall (env : Env) (now : Z) (user : User) (body : CreateBody.t)
         (st : Store),
    role user = "guest" ->
    (forall g1 g2 : option ObjectId,
        createReservation env now user (CreateBody.set_guestId g1 body) st
        = createReservation env now user (CreateBody.set_guestId g2 body) st)
    /\ (forall (r : Reservation.t) (st' : Store),
           createReservation env now user body st
           = (mkResponse 201 (ReservationJson (Some r)), st') ->
           Reservation.guestId r = user_id user).
Proof.
  intros env now user body st Hrole.
  assert (Hg : forall b, guestIdFor user b = user_id user).
  { intros b. unfold guestIdFor. now rewrite Hrole. }
  split.
  - intros g1 g2. unfold createReservation. rewrite !Hg. reflexivity.
  - intros r st' H.
    destruct (createReservation_201 env now user body st _ st' H eq_refl)
      as (roomId & ci & co & room & _ & _ & _ & _ & Hresp & _).
    injection Hresp as ->. apply Hg.
Qed.

(** The guest (id 7) asks for a reservation in the name of user 8, or of
    nobody: the outcome is the same, and the reservation is their own. *)
Lemma C9_witness :
  let body := CreateBody.set_guestId (Some 8%N)
                (Demo.stay "2024-03-10" "2024-03-13") in
  let r := createdDocument Demo.env Demo.now Demo.guest body 101%N
             Demo.march10 Demo.march13 (Demo.room101 "available")
             Demo.inventory in
  let st' := createdStore r (Demo.room101 "available") Demo.inventory in
  (role Demo.guest = "guest"
   /\ createReservation Demo.env Demo.now Demo.guest body Demo.inventory
      = (mkResponse 201 (ReservationJson (Some r)), st'))
  /\ createReservation Demo.env Demo.now Demo.guest
       (CreateBody.set_guestId (Some 8%N) body) Demo.inventory
     = createReservation Demo.env Demo.now Demo.guest
         (CreateBody.set_guestId None body) Demo.inventory
  /\ Reservation.guestId r = user_id Demo.guest.
Proof.
  intros body r st'.
  split; [split; reflexivity|].
  destruct (C9_guest_books_for_self Demo.env Demo.now Demo.guest body
              Demo.inventory eq_refl) as [Hsame Hown].
  split.
  - apply Hsame.
  - apply (Hown r st'). reflexivity.
Defined.

(** ** Occupancy *)

(** C10: the occupancy limit is enforced only when [numberOfGuests] is
    supplied.  When the request carries no [numberOfGuests], the guard of
    line 99 is false for every room, [createReservation] never gives the
    occupancy answer, and a request that passes the other checks (and whose
    document the Reservation schema accepts) is answered 201 with a stored
    reservation that has no [numberOfGuests]. *)
Theorem C10_occupancy_guard_skipped_when_absent :
  forall (env : Env) (now : Z) (user : User) (body : CreateBody.t)
         (st : Store),
    CreateBody.numberOfGuests body = None ->
    (forall room,
        Js.gt (CreateBody.numberOfGuests body) (Room.maxOccupancy room)
        = false)
    /\ (forall room,
           fst (createReservation env now user body st)
           <> mkResponse 400 (Message (occupancyMessage room)))
    /\ (forall roomId checkIn checkOut room,
           admissible env body st roomId checkIn checkOut room ->
           Db.findOne (conflictQuery roomId checkIn checkOut)
             (reservations st) = None ->
           Reservation_validate env
             (createdDocument env now user body roomId checkIn checkOut
                room st) = true ->
           exists r st',
             createReservation env now user body st
             = (mkResponse 201 (ReservationJson (Some r)), st')
             /\ Reservation.numberOfGuests r = None
             /\ In r (reservations st')).
Proof.
  intros env now user body st Hnone.
  assert (Hgt : forall room,
             Js.gt (CreateBody.numberOfGuests body) (Room.maxOccupancy room)
             = false).
  { intros room. now rewrite Hnone. }
  split; [exact Hgt|]. split.
  - intros room' Heq.
    destruct (createReservation env now user body st) as [resp st'] eqn:H.
    destruct (createReservation_occupancy env now user body st resp st'
                room' H Heq) as (roomId & room & _ & _ & Hfire).
    rewrite Hgt in Hfire. discriminate.
  - intros roomId checkIn checkOut room Hadm Hfree Hvalid.
    eexists. eexists.
    rewrite (createReservation_admissible env now user body st roomId
               checkIn checkOut room Hadm), Hgt, Hfree, Hvalid.
    split; [reflexivity|].
    split; [exact Hnone|].
    cbn [createdStore with_rooms with_reservations reservations].
    apply in_or_app. right. now left.
Qed.

(** A booking of room 101 (at most 2 guests) without [numberOfGuests]. *)
Lemma C10_witness :
  let body := CreateBody.mk (Some 101%N) (Some "2024-03-10")
                (Some "2024-03-13") None None None None in
  let room := Demo.room101 "available" in
  (CreateBody.numberOfGuests body = None
   /\ admissible Demo.env body Demo.inventory 101%N Demo.march10
        Demo.march13 room
   /\ Db.findOne (conflictQuery 101%N Demo.march10 Demo.march13)
        (reservations Demo.inventory) = None
   /\ Reservation_validate Demo.env
        (createdDocument Demo.env Demo.now Demo.guest body 101%N
           Demo.march10 Demo.march13 room Demo.inventory) = true)
  /\ Js.gt (CreateBody.numberOfGuests body) (Room.maxOccupancy room) = false
  /\ (forall room',
         fst (createReservation Demo.env Demo.now Demo.guest body
                Demo.inventory)
         <> mkResponse 400 (Message (occupancyMessage room')))
  /\ (exists r st',
         createReservation Demo.env Demo.now Demo.guest body Demo.inventory
         = (mkResponse 201 (ReservationJson (Some r)), st')
         /\ Reservation.numberOfGuests r = None
         /\ In r (reservations st')).
Proof.
  intros body room.
  assert (Hadm : admissible Demo.env body Demo.inventory 101%N Demo.march10
                   Demo.march13 room).
  { unfold admissible. split; [reflexivity|].
    split; [exists "2024-03-10"; split; reflexivity|].
    split; [exists "2024-03-13"; split; reflexivity|].
    split; reflexivity. }
  split; [split; [reflexivity | split; [exact Hadm | split; reflexivity]]|].
  destruct (C10_occupancy_guard_skipped_when_absent Demo.env Demo.now
              Demo.guest body Demo.inventory eq_refl)
    as (Hguard & Hnever & Hcreated).
  split; [apply Hguard|]. split; [exact Hnever|].
  apply (Hcreated 101%N Demo.march10 Demo.march13 room Hadm);
    reflexivity.
Defined.

(** ** The reservation lifecycle *)

(** C6: check-out of a reservation that is not checked-in is refused and
    changes nothing.  For every stored reservation whose status is not
    ["checked-in"], [checkOut] answers 400 "Only checked-in reservations can
    be checked out" and returns the store as it was, so neither the
    reservation's status nor any room's status is modified. *)
Theorem C6_checkOut_requires_checked_in :
  forall (env : Env) (now : Z) (id : ObjectId) (st : Store)
         (r : Reservation.t),
    Db.findById Reservation._id id (reservations st) = Some r ->
    Reservation.status r <> "checked-in" ->
    checkOut env now id st
    = (mkResponse 400
         (Message "Only checked-in reservations can be checked out"), st)
    /\ Db.findById Reservation._id id
         (reservations (snd (checkOut env now id st))) = Some r
    /\ rooms (snd (checkOut env now id st)) = rooms st.
Proof.
  intros env now id st r Hfind Hstatus.
  assert (H : checkOut env now id st
              = (mkResponse 400
                   (Message "Only checked-in reservations can be checked out"),
                 st)).
  { unfold checkOut, tryCatch, bind, orAnswer, when_, answer, ret,
      Reservation_findById.
    rewrite Hfind.
    apply String.eqb_neq in Hstatus. rewrite Hstatus. reflexivity. }
  rewrite H. simpl. auto.
Qed.

(** P7: check-out of the still confirmed reservation 1 of room 101. *)
Lemma C6_witness :
  let r := Demo.booked 1%N Demo.march05 Demo.march10 "confirmed" in
  (Db.findById Reservation._id 1%N (reservations afterFirstStay) = Some r
   /\ Reservation.status r <> "checked-in")
  /\ checkOut Demo.env Demo.now 1%N afterFirstStay
     = (mkResponse 400
          (Message "Only checked-in reservations can be checked out"),
        afterFirstStay)
  /\ Db.findById Reservation._id 1%N
       (reservations (snd (checkOut Demo.env Demo.now 1%N afterFirstStay)))
     = Some r
  /\ rooms (snd (checkOut Demo.env Demo.now 1%N afterFirstStay))
     = rooms afterFirstStay.
Proof.
  intros r.
  split; [split; [reflexivity | discriminate]|].
  apply (C6_checkOut_requires_checked_in Demo.env Demo.now 1%N
           afterFirstStay r).
  - reflexivity.
  - discriminate.
Defined.

Lemma updateFields_id (body : UpdateBody.t) (r : Reservation.t) :
  Reservation._id (updateFields body r) = Reservation._id r.
Proof.
  unfold updateFields, assignTruthy.
  destruct (UpdateBody.status body) as [s|];
    destruct (UpdateBody.specialRequests body) as [q|];
    repeat match goal with
           | |- context [if ?c then _ else _] => destruct c
           end; reflexivity.
Qed.






(** ** Housekeeping and the room status *)

Lemma with_rooms_same (st : Store) : with_rooms (rooms st) st = st.
Proof. now destruct st. Qed.

Lemma assign_preserves {A D I : Type} (f : D -> I) (v : option A)
    (set : A -> D -> D) (d : D) :
  (forall a x, f (set a x) = f x) -> f (assign v set d) = f d.
Proof. intros H. destruct v; simpl; [apply H | reflexivity]. Qed.

Lemma assignTruthy_preserves {D I : Type} (f : D -> I) (v : option string)
    (set : string -> D -> D) (d : D) :
  (forall a x, f (set a x) = f x) -> f (assignTruthy v set d) = f d.
Proof.
  intros H. destruct v as [s|]; simpl; [|reflexivity].
  destruct (negb (s =? "")%string); [apply H | reflexivity].
Qed.

Lemma syncRoom_run (task : Housekeeping.t) (st : Store) :
  syncRoom task st
  = (Value tt, with_rooms (roomsAfterSync task (rooms st)) st).
Proof.
  unfold syncRoom, roomsAfterSync, bind, ret, Room_findById, Room_save.
  destruct ((Housekeeping.status task =? "completed")
            && (Housekeeping.taskType task =? "cleaning"))%string;
    [|now rewrite with_rooms_same].
  destruct (Db.findById Room._id (Housekeeping.roomId task) (rooms st))
    as [room|]; [|now rewrite with_rooms_same].
  destruct (Room.status room =? "cleaning")%string;
    [reflexivity | now rewrite with_rooms_same].
Qed.

(** [applyBody] either refuses the caller or yields the task with some
    paths reassigned, never its [_id]. *)
Lemma applyBody_cases (env : Env) (now : Z) (user : User) (body : TaskBody.t)
    (task : Housekeeping.t) (st : Store) :
  (exists task',
      applyBody env now user body task st = (Value task', st)
      /\ Housekeeping._id task' = Housekeeping._id task)
  \/ applyBody env now user body task st
     = (Answered
          (mkResponse 403 (Message "Not authorized to update this task")),
        st).
Proof.
  unfold applyBody, bind, when_, answer, ret.
  destruct (role user =? "housekeeping")%string.
  - destruct (match Housekeeping.assignedTo task with
              | Some a => negb (N.eqb a (user_id user))
              | None => false
              end); [now right|].
    left. eexists. split; [reflexivity|].
    destruct (Js.strictEq _ _); cbn [Housekeeping.set_completedDate
                                       Housekeeping._id];
      now rewrite !(assignTruthy_preserves Housekeeping._id).
  - left. eexists. split; [reflexivity|].
    destruct (_ && _); cbn [Housekeeping.set_completedDate Housekeeping._id];
      unfold assignAll;
      now rewrite !(assign_preserves Housekeeping._id).
Qed.

(** A 200 answer of [updateTask]: the task was found, the caller was let
    through, the updated task passed validation and was saved, and the rooms
    were synchronised with the saved task. *)
Lemma updateTask_200 (env : Env) (now : Z) (user : User) (id : ObjectId)
    (body : TaskBody.t) (st : Store) (resp : Response) (st' : Store) :
  updateTask env now user id body st = (resp, st') ->
  code resp = 200 ->
  exists task0 task,
    Db.findById Housekeeping._id id (tasks st) = Some task0
    /\ applyBody env now user body task0 st = (Value task, st)
    /\ Housekeeping.validate (Housekeeping.set_updatedAt now task) = true
    /\ resp = mkResponse 200
                (TaskJson (Some (Housekeeping.set_updatedAt now task)))
    /\ st' = with_rooms
               (roomsAfterSync (Housekeeping.set_updatedAt now task)
                  (rooms st))
               (with_tasks
                  (Db.replaceById Housekeeping._id
                     (Housekeeping.set_updatedAt now task) (tasks st)) st).
Proof.
  intros H C. unfold updateTask in H. run_handler H.
  unfold Housekeeping_findById, Housekeeping_save in H.
  destruct (Db.findById Housekeeping._id id (tasks st)) as [task0|] eqn:E1;
    [| stop H].
  destruct (applyBody_cases env now user body task0 st)
    as [(task & E2 & Hid) | E2]; rewrite E2 in H; [| stop H].
  destruct (Housekeeping.validate (Housekeeping.set_updatedAt now task))
    eqn:E3; [| stop H].
  rewrite syncRoom_run in H.
  cbn [with_rooms with_tasks tasks rooms] in H.
  rewrite (findById_replaceById Housekeeping._id (tasks st) task0) in H.
  - exists task0, task. inversion H; subst resp st'.
    repeat split; auto.
  - cbn [Housekeeping.set_updatedAt Housekeeping._id]. rewrite Hid.
    now rewrite (findById_id _ _ _ _ E1).
Qed.

(** C4: completing a cleaning task frees the room only if the room is being
    cleaned.  Whenever [updateTask] answers 200 with a task that is
    completed and of type cleaning, a room of that task whose status was
    ["cleaning"] is stored with status ["available"], and for every other
    status of that room (occupied, reserved, ...) the rooms are left as they
    were; the other rooms are never touched. *)
Theorem C4_cleaning_done_frees_only_a_cleaning_room :
  forall (env : Env) (now : Z) (user : User) (id : ObjectId)
         (body : TaskBody.t) (st st' : Store) (t : Housekeeping.t)
         (room : Room.t),
    updateTask env now user id body st
    = (mkResponse 200 (TaskJson (Some t)), st') ->
    Housekeeping.status t = "completed" ->
    Housekeeping.taskType t = "cleaning" ->
    Db.findById Room._id (Housekeeping.roomId t) (rooms st) = Some room ->
    (Room.status room = "cleaning" ->
     Db.findById Room._id (Housekeeping.roomId t) (rooms st')
     = Some (Room.set_status "available" room))
    /\ (Room.status room <> "cleaning" -> rooms st' = rooms st)
    /\ (forall other,
           other <> Housekeeping.roomId t ->
           Db.findById Room._id other (rooms st')
           = Db.findById Room._id other (rooms st)).
Proof.
  intros env now user id body st st' t room H Hdone Htype Hroom.
  destruct (updateTask_200 env now user id body st _ st' H eq_refl)
    as (task0 & task & _ & _ & _ & Hresp & Hst).
  injection Hresp as ->.
  assert (Hrooms : rooms st'
                   = if (Room.status room =? "cleaning")%string
                     then Db.replaceById Room._id
                            (Room.set_status "available" room) (rooms st)
                     else rooms st).
  { rewrite Hst. cbn [with_rooms with_tasks rooms].
    unfold roomsAfterSync. rewrite Hdone, Htype, Hroom. reflexivity. }
  assert (Hrid : Room._id room
                 = Housekeeping.roomId (Housekeeping.set_updatedAt now task))
    by exact (findById_id _ _ _ _ Hroom).
  split; [|split].
  - intros Hc. rewrite Hrooms, Hc. cbn [String.eqb Ascii.eqb Bool.eqb].
    change (Db.findById Room._id
              (Housekeeping.roomId (Housekeeping.set_updatedAt now task))
              (Db.replaceById Room._id (Room.set_status "available" room)
                 (rooms st))
            = Some (Room.set_status "available" room)).
    rewrite <- Hrid.
    apply (findById_replaceById Room._id (rooms st) room
             (Room.set_status "available" room)).
    cbn [Room.set_status Room._id]. now rewrite Hrid.
  - intros Hc. rewrite Hrooms. apply String.eqb_neq in Hc. now rewrite Hc.
  - intros other Hother. rewrite Hrooms.
    destruct (Room.status room =? "cleaning")%string; [|reflexivity].
    apply findById_replaceById_other.
    cbn [Room.set_status Room._id]. now rewrite Hrid.
Qed.

(** P4 and P5: the housekeeper completes the cleaning task of room 101, once
    while the room is being cleaned and once, late, while it is occupied
    again. *)
Lemma C4_witness :
  (updateTask Demo.env Demo.now Demo.housekeeper 1%N completeBody
     (withCleaningTask "cleaning")
   = (mkResponse 200 (TaskJson (Some completed101)),
      mkStore [Demo.room101 "available"] [] [completed101] [])
   /\ updateTask Demo.env Demo.now Demo.housekeeper 1%N completeBody
        (withCleaningTask "occupied")
      = (mkResponse 200 (TaskJson (Some completed101)),
         mkStore [Demo.room101 "occupied"] [] [completed101] []))
  /\ Db.findById Room._id 101%N [Demo.room101 "available"]
     = Some (Room.set_status "available" (Demo.room101 "cleaning"))
  /\ rooms (mkStore [Demo.room101 "occupied"] [] [completed101] [])
     = rooms (withCleaningTask "occupied").
Proof.
  split; [split; reflexivity|]. split.
  - apply (C4_cleaning_done_frees_only_a_cleaning_room Demo.env Demo.now
             Demo.housekeeper 1%N completeBody (withCleaningTask "cleaning")
             (mkStore [Demo.room101 "available"] [] [completed101] [])
             completed101 (Demo.room101 "cleaning"));
      reflexivity.
  - apply (C4_cleaning_done_frees_only_a_cleaning_room Demo.env Demo.now
             Demo.housekeeper 1%N completeBody (withCleaningTask "occupied")
             (mkStore [Demo.room101 "occupied"] [] [completed101] [])
             completed101 (Demo.room101 "occupied"));
      try reflexivity.
    discriminate.
Defined.

(** ** Maintenance requests *)

Lemma includes_In (l : list string) (s : string) :
  Js.includes l (Some s) = true <-> In s l.
Proof.
  unfold Js.includes. rewrite existsb_exists. split.
  - intros (x & Hin & Heq). simpl in Heq. apply String.eqb_eq in Heq.
    now subst.
  - intros Hin. exists s. split; [exact Hin | apply String.eqb_refl].
Qed.


Lemma strictEq_eq (v : option string) (s : string) :
  Js.strictEq v s = true <-> v = Some s.
Proof.
  destruct v as [x|]; simpl; [|split; discriminate].
  rewrite String.eqb_eq. split; congruence.
Qed.

(** [createRequest], one case per exit. *)
Lemma createRequest_run (env : Env) (now : Z) (user : User)
    (body : RequestBody.t) (st : Store) :
  MaintenanceController.createRequest env now user body st
  = match RequestBody.roomId body with
    | None => (mkResponse 404 (Message "Room not found"), st)
    | Some roomId =>
        match Db.findById Room._id roomId (rooms st) with
        | None => (mkResponse 404 (Message "Room not found"), st)
        | Some room =>
            let doc := createdRequest env now user body roomId st in
            if Maintenance.validate doc
            then (mkResponse 201 (RequestJson (Some doc)),
                  with_rooms
                    (if Js.strictEq (RequestBody.priority body) "urgent"
                     then Db.replaceById Room._id
                            (Room.set_status "maintenance" room) (rooms st)
                     else rooms st)
                    (with_requests (requests st ++ [doc]) st))
            else (mkResponse 500
                    (ServerError "Server error"
                       "Maintenance validation failed"), st)
        end
    end.
Proof.
  unfold MaintenanceController.createRequest, tryCatch, bind, orAnswer,
    answer, ret, Room_findById, Room_save, serverError,
    MaintenanceController.Maintenance_create,
    MaintenanceController.Maintenance_findById.
  destruct (RequestBody.roomId body) as [roomId|]; [|reflexivity].
  destruct (Db.findById Room._id roomId (rooms st)) as [room|];
    [|reflexivity].
  fold (createdRequest env now user body roomId st). cbv zeta.
  destruct (Maintenance.validate (createdRequest env now user body roomId st));
    [|reflexivity].
  destruct (Js.strictEq (RequestBody.priority body) "urgent");
    cbn [with_rooms with_requests requests rooms];
    rewrite (findById_created Maintenance._id) by reflexivity;
    reflexivity.
Qed.

(** C8: an urgent maintenance request puts the room in maintenance at
    creation.  Whenever [createRequest] answers 201, the request is stored
    as reported and unassigned; if the body's priority is ["urgent"] the
    room, whatever its status was, is stored with status ["maintenance"],
    and for every other priority (or none) the rooms are left as they were.
    An answer other than 201 leaves the whole store unchanged. *)
Theorem C8_urgent_request_sets_room_to_maintenance :
  forall (env : Env) (now : Z) (user : User) (body : RequestBody.t)
         (st st' : Store) (resp : Response),
    MaintenanceController.createRequest env now user body st = (resp, st') ->
    (code resp = 201 ->
     exists roomId room request,
       RequestBody.roomId body = Some roomId
       /\ Db.findById Room._id roomId (rooms st) = Some room
       /\ json resp = RequestJson (Some request)
       /\ In request (requests st')
       /\ Maintenance.status request = "reported"
       /\ Maintenance.assignedTo request = None
       /\ (RequestBody.priority body = Some "urgent" ->
           Db.findById Room._id roomId (rooms st')
           = Some (Room.set_status "maintenance" room)
           /\ Room.status (Room.set_status "maintenance" room)
              = "maintenance")
       /\ (RequestBody.priority body <> Some "urgent" ->
           rooms st' = rooms st))
    /\ (code resp <> 201 -> st' = st).
Proof.
  intros env now user body st st' resp H.
  rewrite createRequest_run in H.
  destruct (RequestBody.roomId body) as [roomId|] eqn:E1;
    [|inversion H; subst; split; [discriminate | reflexivity]].
  destruct (Db.findById Room._id roomId (rooms st)) as [room|] eqn:E2;
    [|inversion H; subst; split; [discriminate | reflexivity]].
  cbv zeta in H.
  destruct (Maintenance.validate (createdRequest env now user body roomId st));
    [|inversion H; subst; split; [discriminate | reflexivity]].
  inversion H; subst resp st'. clear H.
  split; [intros _ | intros C; now contradiction C].
  exists roomId, room, (createdRequest env now user body roomId st).
  cbn [with_rooms with_requests requests rooms json].
  split; [reflexivity|]. split; [exact E2|]. split; [reflexivity|].
  split; [apply in_or_app; right; now left|].
  split; [reflexivity|]. split; [reflexivity|]. split.
  - intros Hp. split; [|reflexivity].
    rewrite Hp. cbn [Js.strictEq]. rewrite String.eqb_refl.
    rewrite <- (findById_id _ _ _ _ E2) at 1.
    apply (findById_replaceById Room._id (rooms st) room
             (Room.set_status "maintenance" room)).
    cbn [Room.set_status Room._id]. now rewrite (findById_id _ _ _ _ E2).
  - intros Hp.
    destruct (Js.strictEq (RequestBody.priority body) "urgent") eqn:E;
      [|reflexivity].
    apply strictEq_eq in E. contradiction.
Qed.

(** The guest in the occupied room 101 reports a leak, once as urgent and
    once as low priority, and once for a room that does not exist. *)
Lemma C8_witness :
  let urgent := MaintenanceController.createRequest Demo.env Demo.now
                  Demo.guest (leak (Some "urgent")) occupiedRoom in
  let low := MaintenanceController.createRequest Demo.env Demo.now
               Demo.guest (leak (Some "low")) occupiedRoom in
  let nowhere := MaintenanceController.createRequest Demo.env Demo.now
                   Demo.guest
                   (RequestBody.mk (Some 102%N) (Some "plumbing")
                      (Some "Leak") (Some "urgent")) occupiedRoom in
  (code (fst urgent) = 201 /\ code (fst low) = 201
   /\ code (fst nowhere) <> 201)
  /\ (exists roomId room,
         Db.findById Room._id roomId (rooms occupiedRoom) = Some room
         /\ Db.findById Room._id roomId (rooms (snd urgent))
            = Some (Room.set_status "maintenance" room))
  /\ rooms (snd low) = rooms occupiedRoom
  /\ snd nowhere = occupiedRoom.
Proof.
  intros urgent low nowhere.
  split; [split; [reflexivity | split; [reflexivity | discriminate]]|].
  split; [|split].
  - destruct (proj1 (C8_urgent_request_sets_room_to_maintenance Demo.env
                       Demo.now Demo.guest (leak (Some "urgent"))
                       occupiedRoom (snd urgent) (fst urgent) eq_refl)
                eq_refl)
      as (roomId & room & request & _ & Hroom & _ & _ & _ & _ & Hurgent & _).
    exists roomId, room. split; [exact Hroom|].
    apply Hurgent. reflexivity.
  - destruct (proj1 (C8_urgent_request_sets_room_to_maintenance Demo.env
                       Demo.now Demo.guest (leak (Some "low"))
                       occupiedRoom (snd low) (fst low) eq_refl)
                eq_refl)
      as (roomId & room & request & _ & _ & _ & _ & _ & _ & _ & Hsame).
    apply Hsame. discriminate.
  - apply (proj2 (C8_urgent_request_sets_room_to_maintenance Demo.env
                    Demo.now Demo.guest
                    (RequestBody.mk (Some 102%N) (Some "plumbing")
                       (Some "Leak") (Some "urgent"))
                    occupiedRoom (snd nowhere) (fst nowhere) eq_refl)).
    discriminate.
Defined.

Lemma maintenance_updateFields_id (env : Env) (body : RequestUpdate.t)
    (r : Maintenance.t) :
  Maintenance._id (MaintenanceController.updateFields env body r)
  = Maintenance._id r.
Proof.
  unfold MaintenanceController.updateFields.
  now rewrite !(assignTruthy_preserves Maintenance._id),
    !(assign_preserves Maintenance._id),
    !(assignTruthy_preserves Maintenance._id),
    !(assign_preserves Maintenance._id),
    !(assignTruthy_preserves Maintenance._id).
Qed.





(** ** Invariant I2 and the status chain of P4 *)

(** Any answer of [createReservation] other than 201 leaves the store as it
    was. *)
Lemma createReservation_unchanged (env : Env) (now : Z) (user : User)
    (body : CreateBody.t) (st : Store) (resp : Response) (st' : Store) :
  createReservation env now user body st = (resp, st') ->
  code resp <> 201 ->
  st' = st.
Proof.
  intros H C. unfold createReservation in H. run_handler H.
  unfold Room_findById, Reservation_findOne, Reservation_create, Room_save,
    Reservation_findById in H.
  destruct (CreateBody.roomId body) as [roomId|]; [| now inversion H].
  destruct (Js.nonEmpty (CreateBody.checkInDate body)) as [s1|];
    [| now inversion H].
  destruct (Js.nonEmpty (CreateBody.checkOutDate body)) as [s2|];
    [| now inversion H].
  destruct (Js.getTime (Date_new env s1)) as [ci|]; [| now inversion H].
  destruct (Js.getTime (Date_new env s2)) as [co|]; [| now inversion H].
  destruct (co <=? ci); [now inversion H |].
  destruct (Db.findById Room._id roomId (rooms st)) as [room|];
    [| now inversion H].
  destruct (Js.gt (CreateBody.numberOfGuests body) (Room.maxOccupancy room));
    [now inversion H |].
  destruct (Db.findOne (conflictQuery roomId ci co) (reservations st));
    [now inversion H |].
  cbn [isSome] in H.
  destruct (Reservation_validate env _); [| now inversion H].
  inversion H; subst. exfalso. apply C. reflexivity.
Qed.

(** [createReservation] either leaves the store as it is or appends one
    reservation with [checkInDate < checkOutDate]: invariant I2 is kept, and
    the conflict query only ever sees well-formed intervals. *)
Lemma createReservation_keeps_I2 (env : Env) (now : Z) (user : User)
    (body : CreateBody.t) (st : Store) :
  (forall r, In r (reservations st) ->
             Reservation.checkInDate r < Reservation.checkOutDate r) ->
  forall r,
    In r (reservations (snd (createReservation env now user body st))) ->
    Reservation.checkInDate r < Reservation.checkOutDate r.
Proof.
  intros Hwf r.
  destruct (createReservation env now user body st) as [resp st'] eqn:H.
  destruct (Z.eq_dec (code resp) 201) as [C | C].
  - destruct (createReservation_201 env now user body st resp st' H C)
      as (roomId & ci & co & room & Hadm & _ & _ & _ & _ & ->).
    cbn [snd createdStore with_rooms with_reservations reservations].
    intros Hin. apply in_app_or in Hin. destruct Hin as [Hin | [<- | []]].
    + now apply Hwf.
    + destruct Hadm as (_ & _ & _ & Hlt & _). exact Hlt.
  - rewrite (createReservation_unchanged env now user body st resp st' H C).
    apply Hwf.
Qed.

(** P4: booking room 101 marks it reserved, check-in occupied, check-out
    cleaning, and completing its cleaning task available again. *)
Lemma status_chain_P4 :
  let booked := snd (createReservation Demo.env Demo.now Demo.guest
                       (Demo.stay "2024-03-05" "2024-03-10")
                       Demo.inventory) in
  let arrived := snd (checkIn Demo.env Demo.now 1%N booked) in
  let left := snd (checkOut Demo.env Demo.now 1%N arrived) in
  let cleaned := snd (updateTask Demo.env Demo.now Demo.housekeeper 1%N
                        completeBody
                        (with_tasks [cleaning101 "pending"] left)) in
  booked = afterFirstStay
  /\ map Room.status (rooms Demo.inventory) = ["available"]
  /\ map Room.status (rooms booked) = ["reserved"]
  /\ map Room.status (rooms arrived) = ["occupied"]
  /\ map Room.status (rooms left) = ["cleaning"]
  /\ map Room.status (rooms cleaned) = ["available"].
Proof. repeat split. Qed.

(** P8: a guest who tries to cancel another guest's reservation is
    refused. *)
Lemma ownership_guard_P8 :
  updateReservation Demo.env Demo.now Demo.otherGuest 1%N cancelBody
    afterFirstStay
  = (mkResponse 403 (Message "Not authorized"), afterFirstStay).
Proof. reflexivity. Qed.

(** The manager resolves the urgent leak: the request is stamped and room
    101 goes from maintenance back to available; the same request resolved
    while a guest occupies the room leaves the room occupied. *)
Lemma issue_resolved_releases_room :
  let resolve := RequestUpdate.mk (Some "resolved") None None None (Some 40)
                   None in
  let resolved := Maintenance.set_actualCost (Some 40)
                    (Maintenance.set_resolvedAt (Some Demo.now)
                       (Maintenance.set_status "resolved" urgentLeak)) in
  MaintenanceController.updateRequest Demo.env Demo.now Demo.manager 1%N
    resolve underMaintenance
  = (mkResponse 200 (RequestJson (Some resolved)),
     mkStore [Demo.room101 "available"] [] [] [resolved])
  /\ MaintenanceController.updateRequest Demo.env Demo.now Demo.manager 1%N
       resolve (with_rooms [Demo.room101 "occupied"] underMaintenance)
     = (mkResponse 200 (RequestJson (Some resolved)),
        mkStore [Demo.room101 "occupied"] [] [] [resolved]).
Proof. split; reflexivity. Qed.

(** The receptionist, too, can cancel the checked-in reservation, and may
    set any other status: [updateReservation] has no transition table. *)
Lemma staff_update_sets_any_status :
  map Reservation.status
    (reservations
       (snd (updateReservation Demo.env Demo.now Demo.receptionist 1%N
               cancelBody duringFirstStay))) = ["cancelled"]
  /\ map Reservation.status
       (reservations
          (snd (updateReservation Demo.env Demo.now Demo.receptionist 1%N
                  (UpdateBody.mk (Some "confirmed") None) duringFirstStay)))
     = ["confirmed"].
Proof. split; reflexivity. Qed.

(* ================================================================== *)
(** * Further properties of the controllers *)

(** ** Reservation creation *)

Lemma ForallOrdPairs_snoc {A : Type} (R : A -> A -> Prop) (l : list A)
    (d : A) :
  ForallOrdPairs R l -> Forall (fun x => R x d) l ->
  ForallOrdPairs R (l ++ [d]).
Proof.
  induction 1 as [|a l Ha Hl IH]; simpl; intros Hd.
  - constructor; constructor.
  - inversion Hd; subst. constructor.
    + apply Forall_app. split; [exact Ha | now constructor].
    + now apply IH.
Qed.

(** X1: [createReservation] keeps the bookings free of double booking.  If
    the stored reservations are chronological (I2) and no two blocking
    reservations of a room overlap (I1), the same holds of the reservations
    after any call of [createReservation], whatever it answers. *)
Theorem X1_createReservation_keeps_no_double_booking :
  forall (env : Env) (now : Z) (user : User) (body : CreateBody.t)
         (st : Store),
    chronological (reservations st) ->
    noDoubleBooking (reservations st) ->
    chronological
      (reservations (snd (createReservation env now user body st)))
    /\ noDoubleBooking
         (reservations (snd (createReservation env now user body st))).
Proof.
  intros env now user body st Hwf Hfree.
  split; [exact (createReservation_keeps_I2 env now user body st Hwf)|].
  destruct (createReservation env now user body st) as [resp st'] eqn:H.
  destruct (Z.eq_dec (code resp) 201) as [C | C];
    [|now rewrite (createReservation_unchanged _ _ _ _ _ _ _ H C)].
  destruct (createReservation_201 env now user body st resp st' H C)
    as (roomId & ci & co & room & Hadm & _ & Hnone & _ & _ & ->).
  cbn [snd createdStore with_rooms with_reservations reservations].
  apply ForallOrdPairs_snoc; [exact Hfree|].
  apply Forall_forall. intros x Hin Hroom Hbx _.
  cbn [createdDocument Reservation.roomId Reservation.checkInDate
         Reservation.checkOutDate] in *.
  destruct Hadm as (_ & _ & _ & Hlt & _).
  rewrite <- (dateClauses_overlap ci co x (Hwf x Hin) Hlt).
  pose proof (find_none _ _ Hnone x Hin) as Hq.
  unfold conflictQuery in Hq. rewrite Hroom, N.eqb_refl, Hbx in Hq.
  exact Hq.
Qed.

(** The back-to-back booking of P2 on top of the first stay. *)
Lemma X1_witness :
  let st' := snd (createReservation Demo.env Demo.now Demo.guest
                    (Demo.stay "2024-03-10" "2024-03-13") afterFirstStay) in
  (chronological (reservations afterFirstStay)
   /\ noDoubleBooking (reservations afterFirstStay))
  /\ List.length (reservations st') = 2%nat
  /\ chronological (reservations st')
  /\ noDoubleBooking (reservations st').
Proof.
  intros st'.
  assert (Hwf : chronological (reservations afterFirstStay)).
  { intros r [<- | []]. reflexivity. }
  assert (Hfree : noDoubleBooking (reservations afterFirstStay)).
  { constructor; constructor. }
  split; [split; assumption|]. split; [reflexivity|].
  apply (X1_createReservation_keeps_no_double_booking Demo.env Demo.now
           Demo.guest (Demo.stay "2024-03-10" "2024-03-13") afterFirstStay
           Hwf Hfree).
Defined.

(** X2: [createReservation] is all or nothing.  An answer other than 201
    leaves the store as it was.  A 201 answer appends exactly the answered
    reservation, under an [_id] no stored reservation has, marks its room
    reserved whatever the room's status was, and leaves every other
    reservation, every other room, the tasks and the requests in place. *)
Theorem X2_createReservation_all_or_nothing :
  forall (env : Env) (now : Z) (user : User) (body : CreateBody.t)
         (st st' : Store) (resp : Response),
    createReservation env now user body st = (resp, st') ->
    (code resp <> 201 -> st' = st)
    /\ (code resp = 201 ->
        exists r room,
          json resp = ReservationJson (Some r)
          /\ reservations st' = (reservations st ++ [r])%list
          /\ (forall x, In x (reservations st) ->
                        Reservation._id x <> Reservation._id r)
          /\ Db.findById Room._id (Reservation.roomId r) (rooms st)
             = Some room
          /\ Db.findById Room._id (Reservation.roomId r) (rooms st')
             = Some (Room.set_status "reserved" room)
          /\ (forall other, other <> Reservation.roomId r ->
                            Db.findById Room._id other (rooms st')
                            = Db.findById Room._id other (rooms st))
          /\ tasks st' = tasks st
          /\ requests st' = requests st).
Proof.
  intros env now user body st st' resp H. split.
  - exact (createReservation_unchanged env now user body st resp st' H).
  - intros C.
    destruct (createReservation_201 env now user body st resp st' H C)
      as (roomId & ci & co & room & Hadm & _ & _ & _ & -> & ->).
    destruct Hadm as (_ & _ & _ & _ & Hroom).
    pose proof (findById_id _ _ _ _ Hroom) as Hrid.
    exists (createdDocument env now user body roomId ci co room st), room.
    cbn [json createdStore with_rooms with_reservations reservations rooms
           tasks requests createdDocument Reservation.roomId Reservation._id].
    split; [reflexivity|]. split; [reflexivity|]. split.
    { intros x Hin Heq.
      pose proof (freshId_above Reservation._id (reservations st) x Hin).
      rewrite Heq in *. lia. }
    split; [exact Hroom|]. split.
    { rewrite <- Hrid at 1.
      apply (findById_replaceById Room._id (rooms st) room
               (Room.set_status "reserved" room)).
      cbn [Room.set_status Room._id]. now rewrite Hrid. }
    split; [|split; reflexivity].
    intros other Hother. apply findById_replaceById_other.
    cbn [Room.set_status Room._id]. now rewrite Hrid.
Qed.

(** A booking of the occupied room 101 for later, and a refused one. *)
Lemma X2_witness :
  let ok := createReservation Demo.env Demo.now Demo.guest
              (Demo.stay "2024-03-10" "2024-03-13") occupiedRoom in
  let ko := createReservation Demo.env Demo.now Demo.guest
              (Demo.stay "2024-03-13" "2024-03-10") occupiedRoom in
  (code (fst ok) = 201 /\ code (fst ko) <> 201)
  /\ snd ko = occupiedRoom
  /\ (exists r room,
         json (fst ok) = ReservationJson (Some r)
         /\ reservations (snd ok) = (reservations occupiedRoom ++ [r])%list
         /\ Db.findById Room._id (Reservation.roomId r) (rooms occupiedRoom)
            = Some room
         /\ Room.status room = "occupied"
         /\ Db.findById Room._id (Reservation.roomId r) (rooms (snd ok))
            = Some (Room.set_status "reserved" room)).
Proof.
  intros ok ko.
  split; [split; [reflexivity | discriminate]|]. split.
  - apply (proj1 (X2_createReservation_all_or_nothing Demo.env Demo.now
                    Demo.guest (Demo.stay "2024-03-13" "2024-03-10")
                    occupiedRoom (snd ko) (fst ko) eq_refl)).
    discriminate.
  - destruct (proj2 (X2_createReservation_all_or_nothing Demo.env Demo.now
                       Demo.guest (Demo.stay "2024-03-10" "2024-03-13")
                       occupiedRoom (snd ok) (fst ok) eq_refl) eq_refl)
      as (r & room & Hjson & Hres & _ & Hroom & Hroom' & _).
    exists r, room. split; [exact Hjson|]. split; [exact Hres|].
    split; [exact Hroom|]. split; [|exact Hroom'].
    injection Hjson as <-. cbn in Hroom. injection Hroom as <-.
    reflexivity.
Defined.

(** X3: what every created reservation satisfies.  A reservation answered
    with 201 is confirmed, checks out after it checks in (I2) and so spans
    at least one night, has no more guests than its room accommodates when
    the number of guests was supplied (I4), and costs at least one night's
    price when the price is not negative. *)
Theorem X3_created_reservation_is_well_formed :
  forall (env : Env) (now : Z) (user : User) (body : CreateBody.t)
         (st st' : Store) (r : Reservation.t),
    createReservation env now user body st
    = (mkResponse 201 (ReservationJson (Some r)), st') ->
    Reservation.status r = "confirmed"
    /\ Reservation.checkInDate r < Reservation.checkOutDate r
    /\ 1 <= nights (Reservation.checkInDate r) (Reservation.checkOutDate r)
    /\ exists room,
         Db.findById Room._id (Reservation.roomId r) (rooms st) = Some room
         /\ (forall n, Reservation.numberOfGuests r = Some n ->
                       n <= Room.maxOccupancy room)
         /\ (0 <= Room.pricePerNight room ->
             Room.pricePerNight room <= Reservation.totalAmount r).
Proof.
  intros env now user body st st' r H.
  destruct (createReservation_201 env now user body st _ st' H eq_refl)
    as (roomId & ci & co & room & Hadm & Hocc & _ & _ & Hresp & _).
  injection Hresp as ->.
  destruct Hadm as (_ & _ & _ & Hlt & Hroom).
  cbn [createdDocument Reservation.status Reservation.checkInDate
         Reservation.checkOutDate Reservation.roomId
         Reservation.numberOfGuests Reservation.totalAmount].
  assert (Hn : 1 <= nights ci co).
  { pose proof (nights_least ci co). lia. }
  split; [reflexivity|]. split; [exact Hlt|]. split; [exact Hn|].
  exists room. split; [exact Hroom|]. split.
  - intros n Hsome. rewrite Hsome in Hocc. simpl in Hocc.
    rewrite Z.gtb_ltb in Hocc. apply Z.ltb_ge in Hocc. exact Hocc.
  - intros Hprice. unfold totalAmount. nia.
Qed.

Lemma X3_witness :
  let body := Demo.stay "2024-03-10" "2024-03-13" in
  let room := Demo.room101 "available" in
  let r := createdDocument Demo.env Demo.now Demo.guest body 101%N
             Demo.march10 Demo.march13 room Demo.inventory in
  createReservation Demo.env Demo.now Demo.guest body Demo.inventory
  = (mkResponse 201 (ReservationJson (Some r)),
     createdStore r room Demo.inventory)
  /\ (Reservation.status r = "confirmed"
      /\ Reservation.checkInDate r < Reservation.checkOutDate r
      /\ 1 <= nights (Reservation.checkInDate r)
                (Reservation.checkOutDate r)
      /\ exists room',
           Db.findById Room._id (Reservation.roomId r)
             (rooms Demo.inventory) = Some room'
           /\ (forall n, Reservation.numberOfGuests r = Some n ->
                         n <= Room.maxOccupancy room')
           /\ (0 <= Room.pricePerNight room' ->
               Room.pricePerNight room' <= Reservation.totalAmount r)).
Proof.
  intros body room r. split; [reflexivity|].
  apply (X3_created_reservation_is_well_formed Demo.env Demo.now Demo.guest
           body Demo.inventory (createdStore r room Demo.inventory) r).
  reflexivity.
Defined.

(** X4: staff book on behalf of a guest.  For a caller whose role is not
    guest, a created reservation belongs to the [guestId] of the request
    body when one is supplied and to the caller otherwise; its booking
    source is the one supplied, or ["online"] when none (or the empty
    string) is. *)
Theorem X4_staff_book_for_any_guest :
  forall (env : Env) (now : Z) (user : User) (body : CreateBody.t)
         (st st' : Store) (r : Reservation.t),
    role user <> "guest" ->
    createReservation env now user body st
    = (mkResponse 201 (ReservationJson (Some r)), st') ->
    (forall g, CreateBody.guestId body = Some g -> Reservation.guestId r = g)
    /\ (CreateBody.guestId body = None ->
        Reservation.guestId r = user_id user)
    /\ (forall s, CreateBody.bookingSource body = Some s -> s <> "" ->
                  Reservation.bookingSource r = s)
    /\ (CreateBody.bookingSource body = None
        \/ CreateBody.bookingSource body = Some "" ->
        Reservation.bookingSource r = "online").
Proof.
  intros env now user body st st' r Hrole H.
  destruct (createReservation_201 env now user body st _ st' H eq_refl)
    as (roomId & ci & co & room & _ & _ & _ & _ & Hresp & _).
  injection Hresp as ->.
  cbn [createdDocument Reservation.guestId Reservation.bookingSource].
  unfold guestIdFor. apply String.eqb_neq in Hrole. rewrite Hrole.
  split; [|split; [|split]].
  - intros g Hg. now rewrite Hg.
  - intros Hg. now rewrite Hg.
  - intros s Hs Hne. rewrite Hs. simpl.
    apply String.eqb_neq in Hne. now rewrite Hne.
  - intros [Hs | Hs]; rewrite Hs; reflexivity.
Qed.

(** The receptionist books room 101 for the guest (user 7) at the desk. *)
Lemma X4_witness :
  let body := CreateBody.mk (Some 101%N) (Some "2024-03-10")
                (Some "2024-03-13") (Some 1) None (Some "walk-in")
                (Some 7%N) in
  let r := createdDocument Demo.env Demo.now Demo.receptionist body 101%N
             Demo.march10 Demo.march13 (Demo.room101 "available")
             Demo.inventory in
  (role Demo.receptionist <> "guest"
   /\ createReservation Demo.env Demo.now Demo.receptionist body
        Demo.inventory
      = (mkResponse 201 (ReservationJson (Some r)),
         createdStore r (Demo.room101 "available") Demo.inventory))
  /\ Reservation.guestId r = 7%N
  /\ Reservation.bookingSource r = "walk-in".
Proof.
  intros body r.
  assert (Hrole : role Demo.receptionist <> "guest") by discriminate.
  split; [split; [exact Hrole | reflexivity]|].
  destruct (X4_staff_book_for_any_guest Demo.env Demo.now Demo.receptionist
              body Demo.inventory
              (createdStore r (Demo.room101 "available") Demo.inventory) r
              Hrole eq_refl) as (Hg & _ & Hs & _).
  split.
  - apply Hg. reflexivity.
  - apply Hs; [reflexivity | discriminate].
Defined.

(** X5: an overlapping request is refused and changes nothing.  When the
    request passes the input, room and occupancy checks and some stored
    blocking reservation of the room, itself chronological, overlaps the
    requested interval (it checks in before the requested check-out and
    checks out after the requested check-in), [createReservation] answers
    400 "Room is not available for the selected dates" and leaves the store
    as it was. *)
Theorem X5_overlapping_request_is_refused :
  forall (env : Env) (now : Z) (user : User) (body : CreateBody.t)
         (st : Store) (roomId : ObjectId) (checkIn checkOut : Z)
         (room : Room.t) (existing : Reservation.t),
    admissible env body st roomId checkIn checkOut room ->
    Js.gt (CreateBody.numberOfGuests body) (Room.maxOccupancy room) = false ->
    In existing (reservations st) ->
    Reservation.roomId existing = roomId ->
    Reservation.status existing = "confirmed"
    \/ Reservation.status existing = "checked-in" ->
    Reservation.checkInDate existing < Reservation.checkOutDate existing ->
    Reservation.checkInDate existing < checkOut ->
    checkIn < Reservation.checkOutDate existing ->
    createReservation env now user body st
    = (mkResponse 400
         (Message "Room is not available for the selected dates"), st).
Proof.
  intros env now user body st roomId checkIn checkOut room existing Hadm Hocc
    Hin Hroom Hstatus Hwf Hbefore Hafter.
  rewrite (createReservation_admissible env now user body st roomId checkIn
             checkOut room Hadm), Hocc.
  assert (Hq : conflictQuery roomId checkIn checkOut existing = true).
  { unfold conflictQuery.
    destruct Hadm as (_ & _ & _ & Hlt & _).
    rewrite (dateClauses_overlap _ _ _ Hwf Hlt), Hroom, N.eqb_refl,
      blocking_spec.
    unfold Spec.overlaps.
    apply Z.ltb_lt in Hbefore, Hafter. rewrite Hbefore, Hafter.
    destruct Hstatus as [-> | ->]; reflexivity. }
  destruct (Db.findOne (conflictQuery roomId checkIn checkOut)
              (reservations st)) as [c|] eqn:F; [reflexivity|].
  unfold Db.findOne in F. rewrite (find_none _ _ F existing Hin) in Hq.
  discriminate.
Qed.

(** P3: with [2024-03-10, 2024-03-15) confirmed, the request
    [2024-03-12, 2024-03-14) is refused. *)
Lemma X5_witness :
  let existing := Demo.booked 1%N Demo.march10 Demo.march15 "confirmed" in
  let st := mkStore [Demo.room101 "reserved"] [existing] [] [] in
  createReservation Demo.env Demo.now Demo.otherGuest
    (Demo.stay "2024-03-12" "2024-03-14") st
  = (mkResponse 400
       (Message "Room is not available for the selected dates"), st).
Proof.
  intros existing st.
  apply (X5_overlapping_request_is_refused Demo.env Demo.now Demo.otherGuest
           (Demo.stay "2024-03-12" "2024-03-14") st 101%N Demo.march12
           Demo.march14 (Demo.room101 "reserved") existing).
  - apply demo_admissible; try reflexivity; discriminate.
  - reflexivity.
  - now left.
  - reflexivity.
  - now left.
  - reflexivity.
  - reflexivity.
  - reflexivity.
Defined.

(** ** The reservation lifecycle, continued *)

Lemma findById_moved (now : Z) (status : string) (id : ObjectId)
    (rs : list Reservation.t) (r : Reservation.t) :
  Db.findById Reservation._id id rs = Some r ->
  Db.findById Reservation._id id
    (Db.replaceById Reservation._id (moved now status r) rs)
  = Some (moved now status r).
Proof.
  intros Hfind.
  pose proof (findById_id _ _ _ _ Hfind) as Hid.
  rewrite <- Hid at 1.
  change (Reservation._id r) with (Reservation._id (moved now status r)).
  apply findById_replaceById with (d0 := r).
  change (Reservation._id (moved now status r)) with (Reservation._id r).
  now rewrite Hid.
Qed.

(** [checkIn] and [checkOut] on a stored reservation, one case per exit. *)
Lemma checkIn_run (env : Env) (now : Z) (id : ObjectId) (st : Store)
    (r : Reservation.t) :
  Db.findById Reservation._id id (reservations st) = Some r ->
  checkIn env now id st
  = if negb (Reservation.status r =? "confirmed")%string
    then (mkResponse 400
            (Message "Only confirmed reservations can be checked in"), st)
    else
      let r' := moved now "checked-in" r in
      if Reservation_validate env r'
      then match Db.findById Room._id (Reservation.roomId r) (rooms st) with
           | Some room =>
               (mkResponse 200 (ReservationJson (Some r')),
                savedRoom "occupied" room (savedReservation r' st))
           | None =>
               (mkResponse 500
                  (ServerError "Server error"
                     "Cannot read properties of null (reading '_id')"),
                savedReservation r' st)
           end
      else (mkResponse 500
              (ServerError "Server error" "Reservation validation failed"),
            st).
Proof.
  intros Hfind.
  unfold checkIn, populatedRoom, tryCatch, bind, orAnswer, when_, answer, ret,
    throw, Reservation_findById, Reservation_save, Room_findById, Room_save,
    serverError.
  rewrite Hfind.
  destruct (negb (Reservation.status r =? "confirmed")%string);
    [reflexivity|].
  fold (moved now "checked-in" r). cbv zeta.
  destruct (Reservation_validate env (moved now "checked-in" r));
    [|reflexivity].
  cbn [with_reservations rooms reservations moved Reservation.set_updatedAt
         Reservation.set_status Reservation.roomId Reservation._id].
  destruct (Db.findById Room._id (Reservation.roomId r) (rooms st))
    as [room|]; [|reflexivity].
  cbn [with_rooms with_reservations rooms reservations].
  rewrite (findById_id _ _ _ _ Hfind).
  rewrite (findById_moved now "checked-in" id _ r Hfind).
  reflexivity.
Qed.

Lemma checkOut_run (env : Env) (now : Z) (id : ObjectId) (st : Store)
    (r : Reservation.t) :
  Db.findById Reservation._id id (reservations st) = Some r ->
  checkOut env now id st
  = if negb (Reservation.status r =? "checked-in")%string
    then (mkResponse 400
            (Message "Only checked-in reservations can be checked out"), st)
    else
      let r' := moved now "checked-out" r in
      if Reservation_validate env r'
      then match Db.findById Room._id (Reservation.roomId r) (rooms st) with
           | Some room =>
               (mkResponse 200 (ReservationJson (Some r')),
                savedRoom "cleaning" room (savedReservation r' st))
           | None =>
               (mkResponse 500
                  (ServerError "Server error"
                     "Cannot read properties of null (reading '_id')"),
                savedReservation r' st)
           end
      else (mkResponse 500
              (ServerError "Server error" "Reservation validation failed"),
            st).
Proof.
  intros Hfind.
  unfold checkOut, populatedRoom, tryCatch, bind, orAnswer, when_, answer,
    ret, throw, Reservation_findById, Reservation_save, Room_findById,
    Room_save, serverError.
  rewrite Hfind.
  destruct (negb (Reservation.status r =? "checked-in")%string);
    [reflexivity|].
  fold (moved now "checked-out" r). cbv zeta.
  destruct (Reservation_validate env (moved now "checked-out" r));
    [|reflexivity].
  cbn [with_reservations rooms reservations moved Reservation.set_updatedAt
         Reservation.set_status Reservation.roomId Reservation._id].
  destruct (Db.findById Room._id (Reservation.roomId r) (rooms st))
    as [room|]; [|reflexivity].
  cbn [with_rooms with_reservations rooms reservations].
  rewrite (findById_id _ _ _ _ Hfind).
  rewrite (findById_moved now "checked-out" id _ r Hfind).
  reflexivity.
Qed.

(** What a lifecycle step leaves in the store. *)
Lemma moved_store (now : Z) (status roomStatus : string) (id : ObjectId)
    (st : Store) (r : Reservation.t) (room : Room.t) :
  Db.findById Reservation._id id (reservations st) = Some r ->
  Db.findById Room._id (Reservation.roomId r) (rooms st) = Some room ->
  let st' := savedRoom roomStatus room
               (savedReservation (moved now status r) st) in
  Db.findById Reservation._id id (reservations st')
  = Some (moved now status r)
  /\ (forall other, other <> id ->
                    Db.findById Reservation._id other (reservations st')
                    = Db.findById Reservation._id other (reservations st))
  /\ Db.findById Room._id (Reservation.roomId r) (rooms st')
     = Some (Room.set_status roomStatus room)
  /\ (forall other, other <> Reservation.roomId r ->
                    Db.findById Room._id other (rooms st')
                    = Db.findById Room._id other (rooms st))
  /\ tasks st' = tasks st
  /\ requests st' = requests st.
Proof.
  intros Hfind Hroom st'. unfold st', savedRoom, savedReservation.
  cbn [with_rooms with_reservations rooms reservations tasks requests].
  pose proof (findById_id _ _ _ _ Hfind) as Hid.
  pose proof (findById_id _ _ _ _ Hroom) as Hrid.
  split; [now apply findById_moved|]. split.
  { intros other Hother. apply findById_replaceById_other.
    change (Reservation._id (moved now status r)) with (Reservation._id r).
    now rewrite Hid. }
  split.
  { rewrite <- Hrid at 1.
    apply (findById_replaceById Room._id (rooms st) room
             (Room.set_status roomStatus room)).
    cbn [Room.set_status Room._id]. now rewrite Hrid. }
  split; [|split; reflexivity].
  intros other Hother. apply findById_replaceById_other.
  cbn [Room.set_status Room._id]. now rewrite Hrid.
Qed.

(** X6: check-in.  A stored reservation that is not confirmed is refused
    with 400 and nothing changes.  A confirmed one (whose room exists and
    whose updated document the schema accepts) is answered 200: it is
    stored as checked-in with [updatedAt] set to now, its room is stored
    as occupied whatever its status was, and every other reservation and
    room, the tasks and the requests are left in place. *)
Theorem X6_checkIn_moves_confirmed_to_checked_in :
  forall (env : Env) (now : Z) (id : ObjectId) (st : Store)
         (r : Reservation.t),
    Db.findById Reservation._id id (reservations st) = Some r ->
    (Reservation.status r <> "confirmed" ->
     checkIn env now id st
     = (mkResponse 400
          (Message "Only confirmed reservations can be checked in"), st))
    /\ (forall room,
           Reservation.status r = "confirmed" ->
           Reservation_validate env (moved now "checked-in" r) = true ->
           Db.findById Room._id (Reservation.roomId r) (rooms st)
           = Some room ->
           let st' := snd (checkIn env now id st) in
           fst (checkIn env now id st)
           = mkResponse 200
               (ReservationJson (Some (moved now "checked-in" r)))
           /\ Reservation.status (moved now "checked-in" r) = "checked-in"
           /\ Reservation.updatedAt (moved now "checked-in" r) = now
           /\ Db.findById Reservation._id id (reservations st')
              = Some (moved now "checked-in" r)
           /\ (forall other, other <> id ->
                  Db.findById Reservation._id other (reservations st')
                  = Db.findById Reservation._id other (reservations st))
           /\ Db.findById Room._id (Reservation.roomId r) (rooms st')
              = Some (Room.set_status "occupied" room)
           /\ (forall other, other <> Reservation.roomId r ->
                  Db.findById Room._id other (rooms st')
                  = Db.findById Room._id other (rooms st))
           /\ tasks st' = tasks st
           /\ requests st' = requests st).
Proof.
  intros env now id st r Hfind. split.
  - intros Hstatus. rewrite (checkIn_run env now id st r Hfind).
    apply String.eqb_neq in Hstatus. now rewrite Hstatus.
  - intros room Hstatus Hvalid Hroom st'. unfold st'.
    rewrite (checkIn_run env now id st r Hfind), Hstatus.
    cbn [String.eqb Ascii.eqb Bool.eqb negb]. cbv zeta.
    rewrite Hvalid, Hroom. cbn [fst snd].
    split; [reflexivity|]. split; [reflexivity|]. split; [reflexivity|].
    exact (moved_store now "checked-in" "occupied" id st r room Hfind Hroom).
Qed.

(** The guest arrives for the first stay; a second check-in is refused. *)
Lemma X6_witness :
  let r := Demo.booked 1%N Demo.march05 Demo.march10 "confirmed" in
  let room := Demo.room101 "reserved" in
  let st' := snd (checkIn Demo.env Demo.now 1%N afterFirstStay) in
  (Db.findById Reservation._id 1%N (reservations afterFirstStay) = Some r
   /\ Reservation.status r = "confirmed"
   /\ Reservation_validate Demo.env (moved Demo.now "checked-in" r) = true
   /\ Db.findById Room._id (Reservation.roomId r) (rooms afterFirstStay)
      = Some room
   /\ Db.findById Reservation._id 1%N (reservations st')
      = Some (moved Demo.now "checked-in" r)
   /\ Reservation.status (moved Demo.now "checked-in" r) <> "confirmed")
  /\ Db.findById Room._id 101%N (rooms st')
     = Some (Room.set_status "occupied" room)
  /\ checkIn Demo.env Demo.now 1%N st'
     = (mkResponse 400
          (Message "Only confirmed reservations can be checked in"), st').
Proof.
  intros r room st'.
  split; [repeat split; try reflexivity; discriminate|]. split.
  - destruct (proj2 (X6_checkIn_moves_confirmed_to_checked_in Demo.env
                       Demo.now 1%N afterFirstStay r eq_refl)
                room eq_refl eq_refl eq_refl)
      as (_ & _ & _ & _ & _ & Hroom & _).
    exact Hroom.
  - apply (proj1 (X6_checkIn_moves_confirmed_to_checked_in Demo.env
                    Demo.now 1%N st' (moved Demo.now "checked-in" r)
                    eq_refl)).
    discriminate.
Defined.

(** X7: check-out.  A checked-in reservation (whose room exists and whose
    updated document the schema accepts) is answered 200: it is stored as
    checked-out with [updatedAt] set to now, its room is stored as cleaning
    whatever its status was, and every other reservation and room, the
    tasks and the requests are left in place. *)
Theorem X7_checkOut_moves_checked_in_to_checked_out :
  forall (env : Env) (now : Z) (id : ObjectId) (st : Store)
         (r : Reservation.t) (room : Room.t),
    Db.findById Reservation._id id (reservations st) = Some r ->
    Reservation.status r = "checked-in" ->
    Reservation_validate env (moved now "checked-out" r) = true ->
    Db.findById Room._id (Reservation.roomId r) (rooms st) = Some room ->
    let st' := snd (checkOut env now id st) in
    fst (checkOut env now id st)
    = mkResponse 200 (ReservationJson (Some (moved now "checked-out" r)))
    /\ Reservation.status (moved now "checked-out" r) = "checked-out"
    /\ Reservation.updatedAt (moved now "checked-out" r) = now
    /\ Db.findById Reservation._id id (reservations st')
       = Some (moved now "checked-out" r)
    /\ (forall other, other <> id ->
           Db.findById Reservation._id other (reservations st')
           = Db.findById Reservation._id other (reservations st))
    /\ Db.findById Room._id (Reservation.roomId r) (rooms st')
       = Some (Room.set_status "cleaning" room)
    /\ (forall other, other <> Reservation.roomId r ->
           Db.findById Room._id other (rooms st')
           = Db.findById Room._id other (rooms st))
    /\ tasks st' = tasks st
    /\ requests st' = requests st.
Proof.
  intros env now id st r room Hfind Hstatus Hvalid Hroom st'. unfold st'.
  rewrite (checkOut_run env now id st r Hfind), Hstatus.
  cbn [String.eqb Ascii.eqb Bool.eqb negb]. cbv zeta.
  rewrite Hvalid, Hroom. cbn [fst snd].
  split; [reflexivity|]. split; [reflexivity|]. split; [reflexivity|].
  exact (moved_store now "checked-out" "cleaning" id st r room Hfind Hroom).
Qed.

(** The guest of the first stay leaves room 101. *)
Lemma X7_witness :
  let r := Demo.booked 1%N Demo.march05 Demo.march10 "checked-in" in
  let room := Demo.room101 "occupied" in
  let st' := snd (checkOut Demo.env Demo.now 1%N duringFirstStay) in
  (Db.findById Reservation._id 1%N (reservations duringFirstStay) = Some r
   /\ Reservation.status r = "checked-in"
   /\ Reservation_validate Demo.env (moved Demo.now "checked-out" r) = true
   /\ Db.findById Room._id (Reservation.roomId r) (rooms duringFirstStay)
      = Some room)
  /\ Db.findById Reservation._id 1%N (reservations st')
     = Some (moved Demo.now "checked-out" r)
  /\ Db.findById Room._id 101%N (rooms st')
     = Some (Room.set_status "cleaning" room).
Proof.
  intros r room st'.
  split; [repeat split; reflexivity|].
  destruct (X7_checkOut_moves_checked_in_to_checked_out Demo.env Demo.now
              1%N duringFirstStay r room eq_refl eq_refl eq_refl eq_refl)
    as (_ & _ & _ & Hres & _ & Hroom & _).
  split; [exact Hres | exact Hroom].
Defined.

(** X8: the lifecycle runs one way.  Checking a confirmed reservation in
    and then out (its room existing, the schema accepting both updates)
    leaves it checked-out and its room cleaning; from there neither
    [checkIn] nor [checkOut] succeeds any more: both answer 400 and change
    nothing. *)
Theorem X8_lifecycle_runs_one_way :
  forall (env : Env) (now1 now2 : Z) (id : ObjectId) (st : Store)
         (r : Reservation.t) (room : Room.t),
    Db.findById Reservation._id id (reservations st) = Some r ->
    Reservation.status r = "confirmed" ->
    Db.findById Room._id (Reservation.roomId r) (rooms st) = Some room ->
    Reservation_validate env (moved now1 "checked-in" r) = true ->
    Reservation_validate env
      (moved now2 "checked-out" (moved now1 "checked-in" r)) = true ->
    let st1 := snd (checkIn env now1 id st) in
    let st2 := snd (checkOut env now2 id st1) in
    code (fst (checkIn env now1 id st)) = 200
    /\ code (fst (checkOut env now2 id st1)) = 200
    /\ option_map Reservation.status
         (Db.findById Reservation._id id (reservations st2))
       = Some "checked-out"
    /\ option_map Room.status
         (Db.findById Room._id (Reservation.roomId r) (rooms st2))
       = Some "cleaning"
    /\ (forall now3,
           checkIn env now3 id st2
           = (mkResponse 400
                (Message "Only confirmed reservations can be checked in"),
              st2)
           /\ checkOut env now3 id st2
              = (mkResponse 400
                   (Message
                      "Only checked-in reservations can be checked out"),
                 st2)).
Proof.
  intros env now1 now2 id st r room Hfind Hstatus Hroom Hv1 Hv2 st1 st2.
  assert (E1 : checkIn env now1 id st
               = (mkResponse 200
                    (ReservationJson (Some (moved now1 "checked-in" r))),
                  savedRoom "occupied" room
                    (savedReservation (moved now1 "checked-in" r) st))).
  { rewrite (checkIn_run env now1 id st r Hfind), Hstatus.
    cbn [String.eqb Ascii.eqb Bool.eqb negb]. cbv zeta.
    now rewrite Hv1, Hroom. }
  assert (Hst1 : savedRoom "occupied" room
                   (savedReservation (moved now1 "checked-in" r) st) = st1)
    by (unfold st1; now rewrite E1).
  pose proof (moved_store now1 "checked-in" "occupied" id st r room Hfind
                Hroom) as Hm1.
  cbv zeta in Hm1. rewrite Hst1 in Hm1.
  destruct Hm1 as (Hf1 & _ & Hroom1 & _).
  assert (E2 : checkOut env now2 id st1
               = (mkResponse 200
                    (ReservationJson
                       (Some (moved now2 "checked-out"
                                (moved now1 "checked-in" r)))),
                  savedRoom "cleaning" (Room.set_status "occupied" room)
                    (savedReservation
                       (moved now2 "checked-out" (moved now1 "checked-in" r))
                       st1))).
  { rewrite (checkOut_run env now2 id st1 _ Hf1).
    change (Reservation.status (moved now1 "checked-in" r))
      with "checked-in".
    cbn [String.eqb Ascii.eqb Bool.eqb negb]. cbv zeta.
    rewrite Hv2.
    change (Reservation.roomId (moved now1 "checked-in" r))
      with (Reservation.roomId r).
    now rewrite Hroom1. }
  assert (Hst2 : savedRoom "cleaning" (Room.set_status "occupied" room)
                   (savedReservation
                      (moved now2 "checked-out" (moved now1 "checked-in" r))
                      st1) = st2)
    by (unfold st2; now rewrite E2).
  pose proof (moved_store now2 "checked-out" "cleaning" id st1
                (moved now1 "checked-in" r) (Room.set_status "occupied" room)
                Hf1 Hroom1) as Hm2.
  cbv zeta in Hm2. rewrite Hst2 in Hm2.
  destruct Hm2 as (Hf2 & _ & Hroom2 & _).
  change (Reservation.roomId (moved now1 "checked-in" r))
    with (Reservation.roomId r) in Hroom2.
  split; [now rewrite E1|]. split; [now rewrite E2|].
  split; [now rewrite Hf2|]. split; [now rewrite Hroom2|].
  intros now3. split.
  - now rewrite (checkIn_run env now3 id st2 _ Hf2).
  - now rewrite (checkOut_run env now3 id st2 _ Hf2).
Qed.

(** The whole first stay, from the booking to the departure. *)
Lemma X8_witness :
  let r := Demo.booked 1%N Demo.march05 Demo.march10 "confirmed" in
  let st1 := snd (checkIn Demo.env Demo.march05 1%N afterFirstStay) in
  let st2 := snd (checkOut Demo.env Demo.march10 1%N st1) in
  (Db.findById Reservation._id 1%N (reservations afterFirstStay) = Some r
   /\ Reservation.status r = "confirmed"
   /\ Db.findById Room._id (Reservation.roomId r) (rooms afterFirstStay)
      = Some (Demo.room101 "reserved"))
  /\ option_map Reservation.status
       (Db.findById Reservation._id 1%N (reservations st2))
     = Some "checked-out"
  /\ option_map Room.status (Db.findById Room._id 101%N (rooms st2))
     = Some "cleaning"
  /\ checkOut Demo.env Demo.now 1%N st2
     = (mkResponse 400
          (Message "Only checked-in reservations can be checked out"), st2).
Proof.
  intros r st1 st2.
  split; [repeat split; reflexivity|].
  destruct (X8_lifecycle_runs_one_way Demo.env Demo.march05 Demo.march10 1%N
              afterFirstStay r (Demo.room101 "reserved") eq_refl eq_refl
              eq_refl eq_refl eq_refl)
    as (_ & _ & Hres & Hroom & Hend).
  split; [exact Hres|]. split; [exact Hroom|].
  exact (proj2 (Hend Demo.now)).
Defined.

(** X9: a lifecycle step is not rolled back.  When the room of the
    reservation no longer exists, [checkIn] of a confirmed reservation and
    [checkOut] of a checked-in one answer 500, yet the reservation has
    already been saved with its new status: the write made before the
    failure stays. *)
Theorem X9_lifecycle_step_is_not_rolled_back :
  forall (env : Env) (now : Z) (id : ObjectId) (st : Store)
         (r : Reservation.t),
    Db.findById Reservation._id id (reservations st) = Some r ->
    Db.findById Room._id (Reservation.roomId r) (rooms st) = None ->
    (Reservation.status r = "confirmed" ->
     Reservation_validate env (moved now "checked-in" r) = true ->
     code (fst (checkIn env now id st)) = 500
     /\ option_map Reservation.status
          (Db.findById Reservation._id id
             (reservations (snd (checkIn env now id st))))
        = Some "checked-in")
    /\ (Reservation.status r = "checked-in" ->
        Reservation_validate env (moved now "checked-out" r) = true ->
        code (fst (checkOut env now id st)) = 500
        /\ option_map Reservation.status
             (Db.findById Reservation._id id
                (reservations (snd (checkOut env now id st))))
           = Some "checked-out").
Proof.
  intros env now id st r Hfind Hroom. split; intros Hstatus Hvalid.
  - rewrite (checkIn_run env now id st r Hfind), Hstatus.
    cbn [String.eqb Ascii.eqb Bool.eqb negb]. cbv zeta.
    rewrite Hvalid, Hroom. cbn [fst snd code]. split; [reflexivity|].
    unfold savedReservation. cbn [with_reservations reservations].
    now rewrite (findById_moved now "checked-in" id _ r Hfind).
  - rewrite (checkOut_run env now id st r Hfind), Hstatus.
    cbn [String.eqb Ascii.eqb Bool.eqb negb]. cbv zeta.
    rewrite Hvalid, Hroom. cbn [fst snd code]. split; [reflexivity|].
    unfold savedReservation. cbn [with_reservations reservations].
    now rewrite (findById_moved now "checked-out" id _ r Hfind).
Qed.

(** The first stay after room 101 was removed from the inventory. *)
Lemma X9_witness :
  let roomless (st : Store) := with_rooms [] st in
  (Db.findById Room._id 101%N (rooms (roomless afterFirstStay)) = None
   /\ Db.findById Room._id 101%N (rooms (roomless duringFirstStay)) = None)
  /\ (code (fst (checkIn Demo.env Demo.now 1%N (roomless afterFirstStay)))
      = 500
      /\ option_map Reservation.status
           (Db.findById Reservation._id 1%N
              (reservations
                 (snd (checkIn Demo.env Demo.now 1%N
                         (roomless afterFirstStay)))))
         = Some "checked-in")
  /\ (code (fst (checkOut Demo.env Demo.now 1%N (roomless duringFirstStay)))
      = 500
      /\ option_map Reservation.status
           (Db.findById Reservation._id 1%N
              (reservations
                 (snd (checkOut Demo.env Demo.now 1%N
                         (roomless duringFirstStay)))))
         = Some "checked-out").
Proof.
  intros roomless. split; [split; reflexivity|]. split.
  - apply (proj1 (X9_lifecycle_step_is_not_rolled_back Demo.env Demo.now 1%N
                    (roomless afterFirstStay)
                    (Demo.booked 1%N Demo.march05 Demo.march10 "confirmed")
                    eq_refl eq_refl)); reflexivity.
  - apply (proj2 (X9_lifecycle_step_is_not_rolled_back Demo.env Demo.now 1%N
                    (roomless duringFirstStay)
                    (Demo.booked 1%N Demo.march05 Demo.march10 "checked-in")
                    eq_refl eq_refl)); reflexivity.
Defined.

(** ** Updating a reservation *)

(** The guard of lines 318-327 lets the request through or answers 403; it
    never touches the store. *)
Lemma guestGuard_cases (user : User) (body : UpdateBody.t)
    (r : Reservation.t) (st : Store) :
  guestGuard user body r st = (Value tt, st)
  \/ exists m,
       guestGuard user body r st
       = (Answered (mkResponse 403 (Message m)), st).
Proof.
  unfold guestGuard, bind, when_, answer, ret.
  destruct (role user =? "guest")%string; [|now left].
  destruct (negb (N.eqb (Reservation.guestId r) (user_id user)));
    [right; now eexists|].
  destruct (Js.truthy (UpdateBody.status body)
            && negb (Js.strictEq (UpdateBody.status body) "cancelled"));
    [right; now eexists | now left].
Qed.

(** [updateReservation] on a stored reservation either changes nothing or
    saves the updated document. *)
Lemma updateReservation_cases (env : Env) (now : Z) (user : User)
    (id : ObjectId) (body : UpdateBody.t) (st : Store) (r : Reservation.t) :
  Db.findById Reservation._id id (reservations st) = Some r ->
  let r' := Reservation.set_updatedAt now (updateFields body r) in
  (code (fst (updateReservation env now user id body st)) <> 200
   /\ snd (updateReservation env now user id body st) = st)
  \/ (guestGuard user body r st = (Value tt, st)
      /\ Reservation_validate env r' = true
      /\ updateReservation env now user id body st
         = (mkResponse 200 (ReservationJson (Some r')),
            savedReservation r' st)).
Proof.
  intros Hfind r'.
  unfold updateReservation, tryCatch, bind, orAnswer, answer, ret,
    Reservation_findById, Reservation_save, serverError.
  rewrite Hfind. fold r'.
  destruct (guestGuard_cases user body r st) as [E | [m E]]; rewrite E.
  - destruct (Reservation_validate env r') eqn:V.
    + right. split; [reflexivity|]. split; [reflexivity|].
      cbn [with_reservations reservations].
      assert (Hid : Reservation._id r' = id).
      { unfold r'. cbn [Reservation.set_updatedAt Reservation._id].
        rewrite updateFields_id. exact (findById_id _ _ _ _ Hfind). }
      rewrite (findById_replaceById Reservation._id (reservations st) r r')
        by now rewrite Hid.
      reflexivity.
    + left. split; [discriminate | reflexivity].
  - left. split; [discriminate | reflexivity].
Qed.

(** X11: an update of a reservation changes only its status, special
    requests and [updatedAt].  Whatever the caller, the body and the answer
    of [updateReservation], the stored reservation keeps its guest, room,
    dates, number of guests, total amount, booking source and confirmation
    number; the other reservations, the rooms (so a cancellation does not
    release the room), the tasks and the requests are left as they were. *)
Theorem X11_updateReservation_frame :
  forall (env : Env) (now : Z) (user : User) (id : ObjectId)
         (body : UpdateBody.t) (st : Store) (r : Reservation.t),
    Db.findById Reservation._id id (reservations st) = Some r ->
    let st' := snd (updateReservation env now user id body st) in
    rooms st' = rooms st
    /\ tasks st' = tasks st
    /\ requests st' = requests st
    /\ (forall other, other <> id ->
           Db.findById Reservation._id other (reservations st')
           = Db.findById Reservation._id other (reservations st))
    /\ exists r',
         Db.findById Reservation._id id (reservations st') = Some r'
         /\ Reservation.guestId r' = Reservation.guestId r
         /\ Reservation.roomId r' = Reservation.roomId r
         /\ Reservation.checkInDate r' = Reservation.checkInDate r
         /\ Reservation.checkOutDate r' = Reservation.checkOutDate r
         /\ Reservation.numberOfGuests r' = Reservation.numberOfGuests r
         /\ Reservation.totalAmount r' = Reservation.totalAmount r
         /\ Reservation.bookingSource r' = Reservation.bookingSource r
         /\ Reservation.confirmationNumber r'
            = Reservation.confirmationNumber r.
Proof.
  intros env now user id body st r Hfind st'. unfold st'.
  destruct (updateReservation_cases env now user id body st r Hfind)
    as [[_ ->] | (_ & _ & ->)].
  - split; [reflexivity|]. split; [reflexivity|]. split; [reflexivity|].
    split; [reflexivity|].
    exists r. split; [exact Hfind|]. repeat split.
  - cbn [snd savedReservation with_reservations rooms tasks requests
           reservations].
    repeat (split; [reflexivity|]).
    assert (Hid : Reservation._id
                    (Reservation.set_updatedAt now (updateFields body r))
                  = id).
    { cbn [Reservation.set_updatedAt Reservation._id].
      rewrite updateFields_id. exact (findById_id _ _ _ _ Hfind). }
    split.
    { intros other Hother. apply findById_replaceById_other.
      now rewrite Hid. }
    exists (Reservation.set_updatedAt now (updateFields body r)). split.
    { rewrite <- Hid at 1.
      apply findById_replaceById with (d0 := r). now rewrite Hid. }
    cbn [Reservation.set_updatedAt Reservation.guestId Reservation.roomId
           Reservation.checkInDate Reservation.checkOutDate
           Reservation.numberOfGuests Reservation.totalAmount
           Reservation.bookingSource Reservation.confirmationNumber].
    unfold updateFields.
    split; [now rewrite !(assignTruthy_preserves Reservation.guestId)|].
    split; [now rewrite !(assignTruthy_preserves Reservation.roomId)|].
    split; [now rewrite !(assignTruthy_preserves Reservation.checkInDate)|].
    split; [now rewrite !(assignTruthy_preserves Reservation.checkOutDate)|].
    split;
      [now rewrite !(assignTruthy_preserves Reservation.numberOfGuests)|].
    split; [now rewrite !(assignTruthy_preserves Reservation.totalAmount)|].
    split; [now rewrite !(assignTruthy_preserves Reservation.bookingSource)|].
    now rewrite !(assignTruthy_preserves Reservation.confirmationNumber).
Qed.

(** The guest cancels the booking of the first stay: room 101 stays
    reserved and the amount stays 500. *)
Lemma X11_witness :
  let r := Demo.booked 1%N Demo.march05 Demo.march10 "confirmed" in
  let st' := snd (updateReservation Demo.env Demo.now Demo.guest 1%N
                    cancelBody afterFirstStay) in
  Db.findById Reservation._id 1%N (reservations afterFirstStay) = Some r
  /\ option_map Reservation.status
       (Db.findById Reservation._id 1%N (reservations st'))
     = Some "cancelled"
  /\ rooms st' = [Demo.room101 "reserved"]
  /\ exists r',
       Db.findById Reservation._id 1%N (reservations st') = Some r'
       /\ Reservation.totalAmount r' = 500.
Proof.
  intros r st'. split; [reflexivity|]. split; [reflexivity|].
  destruct (X11_updateReservation_frame Demo.env Demo.now Demo.guest 1%N
              cancelBody afterFirstStay r eq_refl)
    as (Hrooms & _ & _ & _ & r' & Hr' & _ & _ & _ & _ & _ & Hamount & _).
  split; [exact Hrooms|].
  exists r'. split; [exact Hr'|]. rewrite Hamount. reflexivity.
Defined.

(** X12: what a guest may do to a reservation.  A guest who does not own
    the reservation is answered 403 whatever the body; the guest who owns
    it is answered 403 for any non-empty status other than ["cancelled"];
    in both cases nothing changes.  Without a status, the owner may change
    the special requests: the update is answered 200 (the schema
    accepting it), the special requests are stored and the status is
    kept. *)
Theorem X12_guest_may_only_cancel_or_annotate :
  forall (env : Env) (now : Z) (user : User) (id : ObjectId)
         (body : UpdateBody.t) (st : Store) (r : Reservation.t),
    role user = "guest" ->
    Db.findById Reservation._id id (reservations st) = Some r ->
    (Reservation.guestId r <> user_id user ->
     updateReservation env now user id body st
     = (mkResponse 403 (Message "Not authorized"), st))
    /\ (forall s,
           Reservation.guestId r = user_id user ->
           UpdateBody.status body = Some s ->
           s <> "" -> s <> "cancelled" ->
           updateReservation env now user id body st
           = (mkResponse 403 (Message "Guests can only cancel reservations"),
              st))
    /\ (forall q,
           Reservation.guestId r = user_id user ->
           UpdateBody.status body = None ->
           UpdateBody.specialRequests body = Some q -> q <> "" ->
           Reservation_validate env
             (Reservation.set_updatedAt now
                (Reservation.set_specialRequests (Some q) r)) = true ->
           exists r',
             fst (updateReservation env now user id body st)
             = mkResponse 200 (ReservationJson (Some r'))
             /\ Db.findById Reservation._id id
                  (reservations
                     (snd (updateReservation env now user id body st)))
                = Some r'
             /\ Reservation.specialRequests r' = Some q
             /\ Reservation.status r' = Reservation.status r).
Proof.
  intros env now user id body st r Hrole Hfind.
  apply String.eqb_eq in Hrole.
  split; [|split].
  - intros Hother.
    unfold updateReservation, guestGuard, tryCatch, bind, orAnswer, when_,
      answer, ret, Reservation_findById.
    rewrite Hfind, Hrole. apply N.eqb_neq in Hother. now rewrite Hother.
  - intros s Hown Hs Hne Hnc.
    unfold updateReservation, guestGuard, tryCatch, bind, orAnswer, when_,
      answer, ret, Reservation_findById.
    rewrite Hfind, Hrole, Hown, N.eqb_refl, Hs. simpl.
    apply String.eqb_neq in Hne, Hnc. now rewrite Hne, Hnc.
  - intros q Hown Hs Hq Hne Hvalid.
    assert (Hfields : updateFields body r
                      = Reservation.set_specialRequests (Some q) r).
    { unfold updateFields, assignTruthy. rewrite Hs, Hq. simpl.
      apply String.eqb_neq in Hne. now rewrite Hne. }
    destruct (updateReservation_cases env now user id body st r Hfind)
      as [[Hcode _] | (_ & _ & E)].
    + exfalso. apply Hcode.
      unfold updateReservation, guestGuard, tryCatch, bind, orAnswer, when_,
        answer, ret, Reservation_findById, Reservation_save.
      rewrite Hfind, Hrole, Hown, N.eqb_refl, Hs, Hfields, Hvalid.
      reflexivity.
    + rewrite E, Hfields. cbn [fst snd].
      eexists. split; [reflexivity|].
      unfold savedReservation. cbn [with_reservations reservations].
      split; [|split; reflexivity].
      pose proof (findById_id _ _ _ _ Hfind) as Hid.
      rewrite <- Hid at 1.
      apply (findById_replaceById Reservation._id (reservations st) r
               (Reservation.set_updatedAt now
                  (Reservation.set_specialRequests (Some q) r))).
      cbn [Reservation.set_updatedAt Reservation.set_specialRequests
             Reservation._id].
      now rewrite Hid.
Qed.

(** The guests and the booking of the first stay. *)
Lemma X12_witness :
  let r := Demo.booked 1%N Demo.march05 Demo.march10 "confirmed" in
  (role Demo.guest = "guest" /\ role Demo.otherGuest = "guest"
   /\ Db.findById Reservation._id 1%N (reservations afterFirstStay) = Some r
   /\ Reservation.guestId r = user_id Demo.guest
   /\ Reservation.guestId r <> user_id Demo.otherGuest)
  /\ updateReservation Demo.env Demo.now Demo.otherGuest 1%N
       (UpdateBody.mk None (Some "late arrival")) afterFirstStay
     = (mkResponse 403 (Message "Not authorized"), afterFirstStay)
  /\ updateReservation Demo.env Demo.now Demo.guest 1%N
       (UpdateBody.mk (Some "checked-in") None) afterFirstStay
     = (mkResponse 403 (Message "Guests can only cancel reservations"),
        afterFirstStay)
  /\ exists r',
       Db.findById Reservation._id 1%N
         (reservations
            (snd (updateReservation Demo.env Demo.now Demo.guest 1%N
                    (UpdateBody.mk None (Some "late arrival"))
                    afterFirstStay)))
       = Some r'
       /\ Reservation.specialRequests r' = Some "late arrival"
       /\ Reservation.status r' = "confirmed".
Proof.
  intros r.
  split; [repeat split; try reflexivity; discriminate|].
  split; [|split].
  - apply (proj1 (X12_guest_may_only_cancel_or_annotate Demo.env Demo.now
                    Demo.otherGuest 1%N
                    (UpdateBody.mk None (Some "late arrival"))
                    afterFirstStay r eq_refl eq_refl)).
    discriminate.
  - destruct (X12_guest_may_only_cancel_or_annotate Demo.env Demo.now
                Demo.guest 1%N (UpdateBody.mk (Some "checked-in") None)
                afterFirstStay r eq_refl eq_refl) as (_ & Hstatus & _).
    apply (Hstatus "checked-in"); try reflexivity; discriminate.
  - destruct (X12_guest_may_only_cancel_or_annotate Demo.env Demo.now
                Demo.guest 1%N (UpdateBody.mk None (Some "late arrival"))
                afterFirstStay r eq_refl eq_refl) as (_ & _ & Hnote).
    destruct (Hnote "late arrival" eq_refl eq_refl eq_refl
                ltac:(discriminate) eq_refl)
      as (r' & _ & Hr' & Hq & Hs).
    exists r'. split; [exact Hr'|]. split; [exact Hq|].
    rewrite Hs. reflexivity.
Defined.

(** X10: [updateReservation] runs no conflict query.  When a reservation [a]
    of a room is confirmed or checked in and the staff set another
    reservation of that room with overlapping dates back to "confirmed",
    the handler answers 200 and the room is booked twice. *)
Theorem X10_reconfirming_skips_the_conflict_query :
  forall (env : Env) (now : Z) (user : User) (id : ObjectId) (st : Store)
         (a b : Reservation.t),
    role user <> "guest" ->
    Db.findById Reservation._id id (reservations st) = Some b ->
    In a (reservations st) ->
    Reservation._id a <> id ->
    Reservation.roomId a = Reservation.roomId b ->
    blocking a = true ->
    Spec.overlaps (Reservation.checkInDate a) (Reservation.checkOutDate a)
      (Reservation.checkInDate b) (Reservation.checkOutDate b) = true ->
    Reservation_validate env (moved now "confirmed" b) = true ->
    code (fst (updateReservation env now user id confirmBody st)) = 200
    /\ ~ noDoubleBooking
           (reservations (snd (updateReservation env now user id confirmBody
                                 st))).
Proof.
  intros env now user id st a b Hrole Hfind Ha Hne Hroom Hblock Hover Hval.
  assert (Hid : Reservation._id b = id) by exact (findById_id _ _ _ _ Hfind).
  assert (Hrun : updateReservation env now user id confirmBody st
                 = (mkResponse 200
                      (ReservationJson (Some (moved now "confirmed" b))),
                    savedReservation (moved now "confirmed" b) st)).
  { unfold updateReservation, guestGuard, tryCatch, bind, orAnswer, answer,
      ret, Reservation_findById, Reservation_save, serverError.
    rewrite Hfind.
    replace (role user =? "guest")%string with false
      by (symmetry; now apply String.eqb_neq).
    change (Reservation.set_updatedAt now (updateFields confirmBody b))
      with (moved now "confirmed" b).
    rewrite Hval. cbn [with_reservations reservations].
    rewrite (findById_replaceById Reservation._id (reservations st) b)
      by (cbn [moved Reservation._id Reservation.set_updatedAt
                 Reservation.set_status]; now rewrite Hid).
    reflexivity. }
  rewrite Hrun. cbn [fst snd code savedReservation with_reservations
                       reservations].
  split; [reflexivity|]. intros Hno.
  set (b' := moved now "confirmed" b) in *.
  assert (Ha' : In a (Db.replaceById Reservation._id b' (reservations st))).
  { unfold Db.replaceById. apply in_map_iff. exists a. split; [|exact Ha].
    replace (N.eqb (Reservation._id a) (Reservation._id b')) with false;
      [reflexivity|].
    symmetry. apply N.eqb_neq. unfold b'. simpl. congruence. }
  assert (Hb' : In b' (Db.replaceById Reservation._id b' (reservations st))).
  { unfold Db.replaceById. apply in_map_iff. exists b.
    split; [|exact (findById_In _ _ _ _ Hfind)].
    replace (N.eqb (Reservation._id b) (Reservation._id b')) with true;
      [reflexivity|].
    symmetry. apply N.eqb_eq. reflexivity. }
  destruct (ForallOrdPairs_In Hno a b' Ha' Hb') as [E | [C | C]].
  - apply Hne. rewrite E. exact Hid.
  - specialize (C Hroom Hblock eq_refl). simpl in C. congruence.
  - specialize (C (eq_sym Hroom) eq_refl Hblock). simpl in C.
    unfold Spec.overlaps in *. rewrite Bool.andb_comm in C. congruence.
Qed.

(** The receptionist confirms the cancelled booking of room 101 again. *)
Lemma X10_witness :
  let a := Demo.booked 1%N Demo.march05 Demo.march10 "confirmed" in
  (noDoubleBooking (reservations withCancelledBooking)
   /\ role Demo.receptionist <> "guest"
   /\ In a (reservations withCancelledBooking)
   /\ Reservation._id a <> 2%N)
  /\ code (fst (updateReservation Demo.env Demo.now Demo.receptionist 2%N
                  confirmBody withCancelledBooking)) = 200
  /\ ~ noDoubleBooking
         (reservations
            (snd (updateReservation Demo.env Demo.now Demo.receptionist 2%N
                    confirmBody withCancelledBooking))).
Proof.
  intros a. split.
  - split; [|split; [discriminate | split; [now left | discriminate]]].
    repeat constructor. intros _ _ C. discriminate C.
  - apply (X10_reconfirming_skips_the_conflict_query Demo.env Demo.now
             Demo.receptionist 2%N withCancelledBooking a
             (Reservation.mk 2%N 8%N 101%N Demo.march05 Demo.march12 (Some 1)
                "cancelled" 700 None "online" "LS2" Demo.now));
      try reflexivity; [discriminate | now left | discriminate].
Defined.

(** ** Housekeeping tasks *)

(** [updateTask] on a stored task, one case per exit. *)
Lemma updateTask_run (env : Env) (now : Z) (user : User) (id : ObjectId)
    (body : TaskBody.t) (st : Store) (task0 : Housekeeping.t) :
  Db.findById Housekeeping._id id (tasks st) = Some task0 ->
  updateTask env now user id body st
  = match applyBody env now user body task0 st with
    | (Value task, _) =>
        let task := Housekeeping.set_updatedAt now task in
        if Housekeeping.validate task
        then (mkResponse 200 (TaskJson (Some task)),
              with_rooms (roomsAfterSync task (rooms st))
                (with_tasks
                   (Db.replaceById Housekeeping._id task (tasks st)) st))
        else (mkResponse 500
                (ServerError "Server error" "Housekeeping validation failed"),
              st)
    | (Answered a, _) => (a, st)
    | (Thrown e, _) => (mkResponse 500 (ServerError "Server error" e), st)
    end.
Proof.
  intros Hfind.
  unfold updateTask, tryCatch, bind, orAnswer, answer, ret,
    Housekeeping_findById, Housekeeping_save, serverError.
  rewrite Hfind.
  destruct (applyBody_cases env now user body task0 st)
    as [(task & E & Hid) | E]; rewrite E; [|reflexivity].
  cbv zeta.
  destruct (Housekeeping.validate (Housekeeping.set_updatedAt now task));
    [|reflexivity].
  rewrite syncRoom_run. cbn [with_rooms with_tasks tasks rooms].
  rewrite (findById_replaceById Housekeeping._id (tasks st) task0);
    [reflexivity|].
  cbn [Housekeeping.set_updatedAt Housekeeping._id]. rewrite Hid.
  now rewrite (findById_id _ _ _ _ Hfind).
Qed.

Lemma applyBody_housekeeper (env : Env) (now : Z) (user : User)
    (body : TaskBody.t) (task : Housekeeping.t) (st : Store) :
  role user = "housekeeping" ->
  applyBody env now user body task st
  = match Housekeeping.assignedTo task with
    | Some a =>
        if N.eqb a (user_id user)
        then (Value (housekeeperUpdate env now body task), st)
        else (Answered
                (mkResponse 403
                   (Message "Not authorized to update this task")), st)
    | None => (Value (housekeeperUpdate env now body task), st)
    end.
Proof.
  intros Hrole. apply String.eqb_eq in Hrole.
  unfold applyBody, housekeeperUpdate, bind, when_, answer, ret.
  rewrite Hrole.
  destruct (Housekeeping.assignedTo task) as [a|]; [|reflexivity].
  destruct (N.eqb a (user_id user)); reflexivity.
Qed.

Lemma housekeeperUpdate_keeps {I : Type} (f : Housekeeping.t -> I)
    (env : Env) (now : Z) (body : TaskBody.t) (task : Housekeeping.t) :
  (forall v x, f (Housekeeping.set_status v x) = f x) ->
  (forall v x, f (Housekeeping.set_notes v x) = f x) ->
  (forall v x, f (Housekeeping.set_completedDate v x) = f x) ->
  f (housekeeperUpdate env now body task) = f task.
Proof.
  intros Hs Hn Hc. unfold housekeeperUpdate.
  destruct (Js.strictEq (TaskBody.status body) "completed");
    rewrite ?Hc, !(assignTruthy_preserves f); auto.
Qed.

(** X13: what housekeeping staff may change.  A housekeeper is refused
    (403, nothing changes) on a task assigned to somebody else.  When the
    update of a housekeeper is answered 200, the stored task has kept its
    room, assignee, task type, scheduled date, priority and creation date,
    whatever keys the body carried; only the status, the notes, the
    completion date and [updatedAt] (set to now) can differ. *)
Theorem X13_housekeeper_changes_status_and_notes_only :
  forall (env : Env) (now : Z) (user : User) (id : ObjectId)
         (body : TaskBody.t) (st : Store) (task0 : Housekeeping.t),
    role user = "housekeeping" ->
    Db.findById Housekeeping._id id (tasks st) = Some task0 ->
    (forall a, Housekeeping.assignedTo task0 = Some a -> a <> user_id user ->
               updateTask env now user id body st
               = (mkResponse 403
                    (Message "Not authorized to update this task"), st))
    /\ (forall t st',
           updateTask env now user id body st
           = (mkResponse 200 (TaskJson (Some t)), st') ->
           Db.findById Housekeeping._id id (tasks st') = Some t
           /\ Housekeeping.roomId t = Housekeeping.roomId task0
           /\ Housekeeping.assignedTo t = Housekeeping.assignedTo task0
           /\ Housekeeping.taskType t = Housekeeping.taskType task0
           /\ Housekeeping.scheduledDate t = Housekeeping.scheduledDate task0
           /\ Housekeeping.priority t = Housekeeping.priority task0
           /\ Housekeeping.createdAt t = Housekeeping.createdAt task0
           /\ Housekeeping.updatedAt t = now).
Proof.
  intros env now user id body st task0 Hrole Hfind.
  pose proof (updateTask_run env now user id body st task0 Hfind) as Hrun.
  rewrite (applyBody_housekeeper env now user body task0 st Hrole) in Hrun.
  split.
  - intros a Ha Hne. rewrite Hrun, Ha.
    apply N.eqb_neq in Hne. now rewrite Hne.
  - intros t st' H. rewrite Hrun in H.
    assert (Hok : (mkResponse 200
                     (TaskJson
                        (Some (Housekeeping.set_updatedAt now
                                 (housekeeperUpdate env now body task0)))),
                   with_rooms
                     (roomsAfterSync
                        (Housekeeping.set_updatedAt now
                           (housekeeperUpdate env now body task0))
                        (rooms st))
                     (with_tasks
                        (Db.replaceById Housekeeping._id
                           (Housekeeping.set_updatedAt now
                              (housekeeperUpdate env now body task0))
                           (tasks st)) st))
                  = (mkResponse 200 (TaskJson (Some t)), st')).
    { destruct (Housekeeping.assignedTo task0) as [a|];
        [destruct (N.eqb a (user_id user)); [|discriminate H]|];
        cbv zeta in H;
        destruct (Housekeeping.validate _); [exact H | discriminate H
                                            | exact H | discriminate H]. }
    injection Hok as <- <-.
    assert (Hid : Housekeeping._id
                    (Housekeeping.set_updatedAt now
                       (housekeeperUpdate env now body task0)) = id).
    { cbn [Housekeeping.set_updatedAt Housekeeping._id].
      rewrite (housekeeperUpdate_keeps Housekeeping._id) by reflexivity.
      exact (findById_id _ _ _ _ Hfind). }
    split.
    { cbn [with_rooms with_tasks tasks]. rewrite <- Hid at 1.
      apply findById_replaceById with (d0 := task0). now rewrite Hid. }
    cbn [Housekeeping.set_updatedAt
           Housekeeping.roomId Housekeeping.assignedTo Housekeeping.taskType
           Housekeeping.scheduledDate Housekeeping.priority
           Housekeeping.createdAt Housekeeping.updatedAt].
    repeat split; now apply housekeeperUpdate_keeps.
Qed.

Lemma X13_witness :
  let st := withCleaningTask "cleaning" in
  let t := Housekeeping.set_updatedAt Demo.now
             (housekeeperUpdate Demo.env Demo.now startElsewhere
                (cleaning101 "pending")) in
  (role Demo.housekeeper = "housekeeping"
   /\ role otherHousekeeper = "housekeeping"
   /\ Db.findById Housekeeping._id 1%N (tasks st)
      = Some (cleaning101 "pending")
   /\ Housekeeping.assignedTo (cleaning101 "pending") = Some 3%N
   /\ 3%N <> user_id otherHousekeeper)
  /\ updateTask Demo.env Demo.now otherHousekeeper 1%N startElsewhere st
     = (mkResponse 403 (Message "Not authorized to update this task"), st)
  /\ fst (updateTask Demo.env Demo.now Demo.housekeeper 1%N startElsewhere st)
     = mkResponse 200 (TaskJson (Some t))
  /\ Housekeeping.status t = "in-progress"
  /\ Housekeeping.notes t = Some "started"
  /\ Housekeeping.roomId t = 101%N
  /\ Housekeeping.taskType t = "cleaning"
  /\ Housekeeping.assignedTo t = Some 3%N.
Proof.
  intros st t.
  split; [repeat split; try reflexivity; discriminate|].
  split.
  - apply (proj1 (X13_housekeeper_changes_status_and_notes_only Demo.env
                    Demo.now otherHousekeeper 1%N startElsewhere st
                    (cleaning101 "pending") eq_refl eq_refl) 3%N eq_refl).
    discriminate.
  - split; [reflexivity|]. split; [reflexivity|]. split; [reflexivity|].
    destruct (proj2 (X13_housekeeper_changes_status_and_notes_only Demo.env
                       Demo.now Demo.housekeeper 1%N startElsewhere st
                       (cleaning101 "pending") eq_refl eq_refl)
                t (snd (updateTask Demo.env Demo.now Demo.housekeeper 1%N
                          startElsewhere st)) eq_refl)
      as (_ & Hroom & Hwho & Htype & _).
    split; [exact Hroom|]. split; [exact Htype | exact Hwho].
Defined.

Lemma assignAll_status (env : Env) (body : TaskBody.t)
    (task : Housekeeping.t) (s : string) :
  TaskBody.status body = Some s ->
  Housekeeping.status (assignAll env body task) = s.
Proof.
  intros Hs. unfold assignAll.
  rewrite !(assign_preserves Housekeeping.status) by reflexivity.
  now rewrite Hs.
Qed.


Lemma applyBody_staff (env : Env) (now : Z) (user : User)
    (body : TaskBody.t) (task : Housekeeping.t) (st : Store) :
  role user <> "housekeeping" ->
  applyBody env now user body task st
  = (Value
       (if Js.strictEq (TaskBody.status body) "completed"
           && negb (isSome (Housekeeping.completedDate
                              (assignAll env body task)))
        then Housekeeping.set_completedDate (Some (Js.TimeValue now))
               (assignAll env body task)
        else assignAll env body task), st).
Proof.
  intros Hrole. apply String.eqb_neq in Hrole.
  unfold applyBody, ret. now rewrite Hrole.
Qed.




(** X15: an update with an unknown status is rejected as a whole.  When
    the body of an update carries a status that is not one of pending,
    in-progress, completed, cancelled (and, for housekeeping staff, is not
    empty) and the caller is let through, [updateTask] answers 500 and
    neither the task nor any room is changed. *)
Theorem X15_unknown_task_status_is_rejected :
  forall (env : Env) (now : Z) (user : User) (id : ObjectId)
         (body : TaskBody.t) (st : Store) (task0 : Housekeeping.t)
         (s : string),
    Db.findById Housekeeping._id id (tasks st) = Some task0 ->
    TaskBody.status body = Some s ->
    ~ In s Housekeeping.statuses ->
    (role user = "housekeeping" ->
     s <> ""
     /\ (Housekeeping.assignedTo task0 = None
         \/ Housekeeping.assignedTo task0 = Some (user_id user))) ->
    updateTask env now user id body st
    = (mkResponse 500
         (ServerError "Server error" "Housekeeping validation failed"), st).
Proof.
  intros env now user id body st task0 s Hfind Hs Hbad Hhk.
  assert (Hnot : existsb (String.eqb s) Housekeeping.statuses = false).
  { destruct (existsb _ _) eqn:E; [|reflexivity].
    apply existsb_exists in E. destruct E as (x & Hin & Heq).
    apply String.eqb_eq in Heq. subst x. contradiction. }
  assert (Hinvalid : forall task,
             Housekeeping.status task = s ->
             Housekeeping.validate (Housekeeping.set_updatedAt now task)
             = false).
  { intros task Hst. unfold Housekeeping.validate.
    cbn [Housekeeping.set_updatedAt Housekeeping.status
           Housekeeping.taskType Housekeeping.priority
           Housekeeping.scheduledDate Housekeeping.completedDate
           Housekeeping.createdAt].
    rewrite Hst, Hnot.
    now rewrite andb_false_r. }
  rewrite (updateTask_run env now user id body st task0 Hfind).
  destruct (String.eqb_spec (role user) "housekeeping") as [Hrole | Hrole].
  - destruct (Hhk Hrole) as [Hne Hmine].
    rewrite (applyBody_housekeeper env now user body task0 st Hrole).
    assert (Hst : Housekeeping.status (housekeeperUpdate env now body task0)
                  = s).
    { apply String.eqb_neq in Hne.
      assert (Hset : assignTruthy (Some s) Housekeeping.set_status task0
                     = Housekeeping.set_status s task0).
      { unfold assignTruthy. cbn [Js.truthy]. now rewrite Hne. }
      unfold housekeeperUpdate. rewrite Hs, Hset.
      destruct (Js.strictEq (Some s) "completed");
        cbn [Housekeeping.set_completedDate Housekeeping.status];
        now rewrite (assignTruthy_preserves Housekeeping.status)
          by reflexivity. }
    destruct Hmine as [-> | ->]; [|rewrite N.eqb_refl];
      cbv zeta; now rewrite (Hinvalid _ Hst).
  - rewrite (applyBody_staff env now user body task0 st Hrole).
    cbv zeta. rewrite Hinvalid; [reflexivity|].
    destruct (_ && _);
      cbn [Housekeeping.set_completedDate Housekeeping.status];
      now apply assignAll_status.
Qed.

(** The housekeeper reports the task as ["done"]. *)
Lemma X15_witness :
  let body := TaskBody.mk None None None (Some "done") None None None None
                None in
  let st := withCleaningTask "cleaning" in
  (Db.findById Housekeeping._id 1%N (tasks st) = Some (cleaning101 "pending")
   /\ ~ In "done" Housekeeping.statuses)
  /\ updateTask Demo.env Demo.now Demo.housekeeper 1%N body st
     = (mkResponse 500
          (ServerError "Server error" "Housekeeping validation failed"), st).
Proof.
  intros body st.
  assert (Hbad : ~ In "done" Housekeeping.statuses).
  { simpl. intros [H | [H | [H | [H | []]]]]; discriminate H. }
  split; [split; [reflexivity | exact Hbad]|].
  apply (X15_unknown_task_status_is_rejected Demo.env Demo.now
           Demo.housekeeper 1%N body st (cleaning101 "pending") "done"
           eq_refl eq_refl Hbad).
  intros _. split; [discriminate | right; reflexivity].
Defined.

(** [createTask], one case per exit. *)
Lemma createTask_run (env : Env) (now : Z) (body : TaskBody.t) (st : Store) :
  HousekeepingTasks.createTask env now body st
  = match TaskBody.roomId body with
    | None => (mkResponse 404 (Message "Room not found"), st)
    | Some roomId =>
        match Db.findById Room._id roomId (rooms st) with
        | None => (mkResponse 404 (Message "Room not found"), st)
        | Some _ =>
            match TaskBody.taskType body with
            | Some taskType =>
                let doc := createdTask env now body roomId taskType st in
                if Housekeeping.validate doc
                then (mkResponse 201 (TaskJson (Some doc)),
                      with_tasks (tasks st ++ [doc]) st)
                else (mkResponse 500
                        (ServerError "Server error"
                           "Housekeeping validation failed"), st)
            | None =>
                (mkResponse 500
                   (ServerError "Server error"
                      "Housekeeping validation failed"), st)
            end
        end
    end.
Proof.
  unfold HousekeepingTasks.createTask, HousekeepingTasks.Housekeeping_create,
    tryCatch, bind, orAnswer, answer, ret, Room_findById,
    Housekeeping_findById, serverError.
  destruct (TaskBody.roomId body) as [roomId|]; [|reflexivity].
  destruct (Db.findById Room._id roomId (rooms st)); [|reflexivity].
  destruct (TaskBody.taskType body) as [taskType|]; [|reflexivity].
  fold (createdTask env now body roomId taskType st). cbv zeta.
  destruct (Housekeeping.validate (createdTask env now body roomId taskType st));
    [|reflexivity].
  cbn [with_tasks tasks].
  rewrite (findById_created Housekeeping._id) by reflexivity.
  reflexivity.
Qed.

Lemma existsb_eqb_In (s : string) (l : list string) :
  existsb (String.eqb s) l = true -> In s l.
Proof.
  intros H. apply existsb_exists in H. destruct H as (x & Hin & Heq).
  apply String.eqb_eq in Heq. now subst.
Qed.

(** X16: creating a housekeeping task.  An answer of [createTask] other
    than 201 leaves the store as it was.  A 201 answer appends exactly the
    answered task under an unused [_id]; the task is pending and not
    completed, is of one of the four known types, is scheduled at a valid
    date, and belongs to a room of the inventory; the rooms (the status of
    that room included), the reservations and the requests are left as
    they were. *)
Theorem X16_createTask_adds_a_pending_task :
  forall (env : Env) (now : Z) (body : TaskBody.t) (st st' : Store)
         (resp : Response),
    HousekeepingTasks.createTask env now body st = (resp, st') ->
    (code resp <> 201 -> st' = st)
    /\ (code resp = 201 ->
        exists t room,
          json resp = TaskJson (Some t)
          /\ tasks st' = (tasks st ++ [t])%list
          /\ (forall x, In x (tasks st) ->
                        Housekeeping._id x <> Housekeeping._id t)
          /\ Housekeeping.status t = "pending"
          /\ Housekeeping.completedDate t = None
          /\ In (Housekeeping.taskType t) Housekeeping.taskTypes
          /\ (exists ms, Housekeeping.scheduledDate t = Js.TimeValue ms)
          /\ TaskBody.roomId body = Some (Housekeeping.roomId t)
          /\ Db.findById Room._id (Housekeeping.roomId t) (rooms st)
             = Some room
          /\ rooms st' = rooms st
          /\ reservations st' = reservations st
          /\ requests st' = requests st).
Proof.
  intros env now body st st' resp H. rewrite createTask_run in H.
  destruct (TaskBody.roomId body) as [roomId|] eqn:E1;
    [|inversion H; subst; split; [reflexivity | discriminate]].
  destruct (Db.findById Room._id roomId (rooms st)) as [room|] eqn:E2;
    [|inversion H; subst; split; [reflexivity | discriminate]].
  destruct (TaskBody.taskType body) as [taskType|] eqn:E3;
    [|inversion H; subst; split; [reflexivity | discriminate]].
  cbv zeta in H.
  destruct (Housekeeping.validate (createdTask env now body roomId taskType st))
    eqn:V; [|inversion H; subst; split; [reflexivity | discriminate]].
  inversion H; subst resp st'. clear H.
  split; [intros C; now contradiction C | intros _].
  exists (createdTask env now body roomId taskType st), room.
  unfold Housekeeping.validate in V.
  repeat (apply andb_true_iff in V; destruct V as [V ?]).
  cbn [json with_tasks tasks rooms reservations requests createdTask
         Housekeeping.status Housekeeping.completedDate
         Housekeeping.taskType Housekeeping.scheduledDate
         Housekeeping.roomId Housekeeping._id] in *.
  split; [reflexivity|]. split; [reflexivity|]. split.
  { intros x Hin Heq.
    pose proof (freshId_above Housekeeping._id (tasks st) x Hin).
    rewrite Heq in *. lia. }
  split; [reflexivity|]. split; [reflexivity|].
  split; [now apply existsb_eqb_In|]. split.
  { destruct (HousekeepingTasks.newDate env (TaskBody.scheduledDate body))
      as [|ms]; [discriminate | now exists ms]. }
  repeat split. exact E2.
Qed.

(** A cleaning task for room 101; the same without a date is rejected. *)
Lemma X16_witness :
  let ok := HousekeepingTasks.createTask Demo.env Demo.now
              (cleanRoom101 (Some "2024-03-10")) occupiedRoom in
  let ko := HousekeepingTasks.createTask Demo.env Demo.now
              (cleanRoom101 None) occupiedRoom in
  (code (fst ok) = 201 /\ code (fst ko) <> 201)
  /\ snd ko = occupiedRoom
  /\ exists t,
       tasks (snd ok) = [t]
       /\ Housekeeping.status t = "pending"
       /\ rooms (snd ok) = rooms occupiedRoom.
Proof.
  intros ok ko.
  split; [split; [reflexivity | discriminate]|]. split.
  - apply (proj1 (X16_createTask_adds_a_pending_task Demo.env Demo.now
                    (cleanRoom101 None) occupiedRoom (snd ko) (fst ko)
                    eq_refl)).
    discriminate.
  - destruct (proj2 (X16_createTask_adds_a_pending_task Demo.env Demo.now
                       (cleanRoom101 (Some "2024-03-10")) occupiedRoom
                       (snd ok) (fst ok) eq_refl) eq_refl)
      as (t & room & _ & Htasks & _ & Hstatus & _ & _ & _ & _ & _ & Hrooms
          & _).
    exists t. split; [exact Htasks|]. split; [exact Hstatus | exact Hrooms].
Defined.

(** ** Deleting documents *)

Section DeleteFacts.
Context {A : Type} (id_of : A -> ObjectId).

Lemma findById_absent (id : ObjectId) (c : list A) :
  ~ In id (map id_of c) -> Db.findById id_of id c = None.
Proof.
  intros Hout. unfold Db.findById.
  destruct (find _ c) as [x|] eqn:F; [|reflexivity].
  apply find_some in F. destruct F as [Hin Heq]. apply N.eqb_eq in Heq.
  exfalso. apply Hout. rewrite <- Heq. now apply in_map.
Qed.

Lemma findById_deleteById_other (id other : ObjectId) (c : list A) :
  other <> id ->
  Db.findById id_of other (deleteById id_of id c) = Db.findById id_of other c.
Proof.
  intros Hne. unfold Db.findById.
  induction c as [|x c IH]; simpl; [reflexivity|].
  destruct (N.eqb (id_of x) id) eqn:E.
  - apply N.eqb_eq in E.
    replace (N.eqb (id_of x) other) with false
      by (symmetry; apply N.eqb_neq; congruence).
    reflexivity.
  - simpl. destruct (N.eqb (id_of x) other); [reflexivity | exact IH].
Qed.

(** With unique ids, a deleted document cannot be read back. *)
Lemma findById_deleteById (id : ObjectId) (c : list A) :
  uniqueIds id_of c ->
  Db.findById id_of id (deleteById id_of id c) = None.
Proof.
  unfold uniqueIds.
  induction c as [|x c IH]; simpl; intros Hu; [reflexivity|].
  inversion Hu as [|? ? Hout Hu']; subst.
  destruct (N.eqb (id_of x) id) eqn:E.
  - apply N.eqb_eq in E. subst id. now apply findById_absent.
  - unfold Db.findById in *. simpl. rewrite E. now apply IH.
Qed.

Lemma length_deleteById (id : ObjectId) (c : list A) (d : A) :
  Db.findById id_of id c = Some d ->
  S (List.length (deleteById id_of id c)) = List.length c.
Proof.
  unfold Db.findById.
  induction c as [|x c IH]; simpl; [discriminate|].
  destruct (N.eqb (id_of x) id); [reflexivity|].
  intros H. simpl. now rewrite IH.
Qed.

(** Deleting the document that was just created restores the collection. *)
Lemma deleteById_created (c : list A) (d : A) :
  id_of d = Db.freshId id_of c ->
  deleteById id_of (id_of d) (c ++ [d]) = c.
Proof.
  intros Hid.
  assert (Hold : forall x, In x c -> N.eqb (id_of x) (id_of d) = false).
  { intros x Hin. apply N.eqb_neq.
    pose proof (freshId_above id_of c x Hin). lia. }
  clear Hid. induction c as [|y c IH]; simpl.
  - now rewrite N.eqb_refl.
  - rewrite (Hold y) by now left.
    f_equal. apply IH. intros x Hin. apply Hold. now right.
Qed.
End DeleteFacts.

(** X17: deleting a housekeeping task.  [deleteTask] answers 404 and
    changes nothing when no task has the id.  Otherwise it answers 200 and
    removes one task: with unique ids the task can no longer be read; every
    other task can be read as before, and the rooms, the reservations and
    the requests are left as they were. *)
Theorem X17_deleteTask_removes_the_task :
  forall (id : ObjectId) (st : Store),
    (Db.findById Housekeeping._id id (tasks st) = None ->
     HousekeepingTasks.deleteTask id st
     = (mkResponse 404 (Message "Task not found"), st))
    /\ (forall t,
           Db.findById Housekeeping._id id (tasks st) = Some t ->
           let st' := snd (HousekeepingTasks.deleteTask id st) in
           fst (HousekeepingTasks.deleteTask id st)
           = mkResponse 200 (Message "Task deleted successfully")
           /\ S (List.length (tasks st')) = List.length (tasks st)
           /\ (uniqueIds Housekeeping._id (tasks st) ->
               Db.findById Housekeeping._id id (tasks st') = None)
           /\ (forall other, other <> id ->
                  Db.findById Housekeeping._id other (tasks st')
                  = Db.findById Housekeeping._id other (tasks st))
           /\ rooms st' = rooms st
           /\ reservations st' = reservations st
           /\ requests st' = requests st).
Proof.
  intros id st. split.
  - intros Hnone.
    unfold HousekeepingTasks.deleteTask, tryCatch, bind, orAnswer, answer,
      ret, Housekeeping_findById.
    now rewrite Hnone.
  - intros t Hfind st'.
    assert (E : HousekeepingTasks.deleteTask id st
                = (mkResponse 200 (Message "Task deleted successfully"),
                   with_tasks (deleteById Housekeeping._id id (tasks st))
                     st)).
    { unfold HousekeepingTasks.deleteTask,
        HousekeepingTasks.Housekeeping_deleteOne, tryCatch, bind, orAnswer,
        answer, ret, Housekeeping_findById.
      rewrite Hfind. now rewrite (findById_id _ _ _ _ Hfind). }
    unfold st'. rewrite E.
    cbn [fst snd with_tasks tasks rooms reservations requests].
    split; [reflexivity|].
    split; [exact (length_deleteById Housekeeping._id id (tasks st) t Hfind)|].
    split; [apply findById_deleteById|].
    split; [intros other Hother; now apply findById_deleteById_other|].
    repeat split.
Qed.

(** The cleaning task of room 101 is deleted while the room is being
    cleaned; a second deletion finds nothing. *)
Lemma X17_witness :
  let st := withCleaningTask "cleaning" in
  let st' := snd (HousekeepingTasks.deleteTask 1%N st) in
  (Db.findById Housekeeping._id 1%N (tasks st) = Some (cleaning101 "pending")
   /\ uniqueIds Housekeeping._id (tasks st)
   /\ Db.findById Housekeeping._id 1%N (tasks st') = None)
  /\ fst (HousekeepingTasks.deleteTask 1%N st)
     = mkResponse 200 (Message "Task deleted successfully")
  /\ rooms st' = [Demo.room101 "cleaning"]
  /\ HousekeepingTasks.deleteTask 1%N st'
     = (mkResponse 404 (Message "Task not found"), st').
Proof.
  intros st st'.
  assert (Hu : uniqueIds Housekeeping._id (tasks st)).
  { repeat constructor. intros []. }
  destruct (proj2 (X17_deleteTask_removes_the_task 1%N st)
              (cleaning101 "pending") eq_refl)
    as (Hresp & _ & Hgone & _ & Hrooms & _).
  split; [split; [reflexivity | split; [exact Hu | exact (Hgone Hu)]]|].
  split; [exact Hresp|]. split; [exact Hrooms|].
  apply (proj1 (X17_deleteTask_removes_the_task 1%N st')).
  exact (Hgone Hu).
Defined.

(** ** Listings *)

Lemma holds_N (cond : option ObjectId) (v : ObjectId) :
  holds N.eqb cond v = true <-> (forall c, cond = Some c -> v = c).
Proof.
  destruct cond as [c|]; simpl.
  - rewrite N.eqb_eq. split; [intros -> c' [= <-]; reflexivity | auto].
  - split; [discriminate | reflexivity].
Qed.

Lemma holdsOpt_N (c : ObjectId) (v : option ObjectId) :
  holdsOpt N.eqb (Some c) v = true <-> v = Some c.
Proof.
  destruct v as [x|]; simpl.
  - rewrite N.eqb_eq. split; congruence.
  - split; discriminate.
Qed.

Lemma nonEmpty_absent (v : option string) :
  v = None \/ v = Some "" -> Js.nonEmpty v = None.
Proof. intros [-> | ->]; reflexivity. Qed.

(** X18: housekeeping staff only see their own tasks.  The listing of
    [getTasks] counts its items and contains exactly the stored tasks that
    match the query built from the request.  For a caller with role
    housekeeping every listed task is assigned to the caller, whatever
    [assignedTo] the request asks for, and without other filters every
    task assigned to the caller is listed. *)
Theorem X18_getTasks_lists_own_tasks_to_housekeeping :
  forall (sort : list Housekeeping.t -> list Housekeeping.t) (user : User)
         (q : TaskQuery.t) (st : Store),
    (forall l, Permutation (sort l) l) ->
    exists items,
      HousekeepingTasks.getTasks sort user q st
      = Listed (List.length items) items
      /\ (forall t,
             In t items
             <-> In t (tasks st)
                 /\ TaskQuery.matches (HousekeepingTasks.buildQuery user q) t
                    = true)
      /\ (role user = "housekeeping" ->
          forall t, In t items ->
                    Housekeeping.assignedTo t = Some (user_id user))
      /\ (role user = "housekeeping" ->
          (TaskQuery.status q = None \/ TaskQuery.status q = Some "") ->
          (TaskQuery.taskType q = None \/ TaskQuery.taskType q = Some "") ->
          (TaskQuery.priority q = None \/ TaskQuery.priority q = Some "") ->
          TaskQuery.roomId q = None ->
          forall t, In t (tasks st) ->
                    Housekeeping.assignedTo t = Some (user_id user) ->
                    In t items).
Proof.
  intros sort user q st Hsort.
  set (query := HousekeepingTasks.buildQuery user q).
  exists (sort (filter (TaskQuery.matches query) (tasks st))).
  assert (Hin : forall t,
             In t (sort (filter (TaskQuery.matches query) (tasks st)))
             <-> In t (tasks st) /\ TaskQuery.matches query t = true).
  { intros t. rewrite <- filter_In. split; apply Permutation_in.
    - apply Hsort.
    - apply Permutation_sym, Hsort. }
  split; [reflexivity|]. split; [exact Hin|]. split.
  - intros Hrole t Ht. apply Hin in Ht. destruct Ht as [_ Hm].
    unfold query, HousekeepingTasks.buildQuery in Hm.
    apply String.eqb_eq in Hrole. rewrite Hrole in Hm.
    unfold TaskQuery.matches in Hm.
    cbn [TaskQuery.set_assignedTo TaskQuery.assignedTo] in Hm.
    repeat (apply andb_true_iff in Hm; destruct Hm as [Hm ?]).
    now apply holdsOpt_N.
  - intros Hrole Hs Ht Hp Hr t Hin' Hmine. apply Hin. split; [exact Hin'|].
    unfold query, HousekeepingTasks.buildQuery.
    apply String.eqb_eq in Hrole. rewrite Hrole.
    rewrite (nonEmpty_absent _ Hs), (nonEmpty_absent _ Ht),
      (nonEmpty_absent _ Hp), Hr.
    unfold TaskQuery.matches.
    cbn [TaskQuery.set_assignedTo TaskQuery.assignedTo TaskQuery.status
           TaskQuery.taskType TaskQuery.roomId TaskQuery.priority holds].
    rewrite Hmine. cbn [holdsOpt]. now rewrite N.eqb_refl.
Qed.

(** The first housekeeper asks for the tasks of the second one. *)
Lemma X18_witness :
  let q := TaskQuery.mk None None (Some 4%N) None None in
  (forall l : list Housekeeping.t, Permutation (unsorted l) l)
  /\ HousekeepingTasks.getTasks unsorted Demo.manager q twoTasks
     = Listed 1 [inspection101]
  /\ exists items,
       HousekeepingTasks.getTasks unsorted Demo.housekeeper q twoTasks
       = Listed (List.length items) items
       /\ In (cleaning101 "pending") items
       /\ forall t, In t items -> Housekeeping.assignedTo t = Some 3%N.
Proof.
  intros q.
  assert (Hsort : forall l : list Housekeeping.t, Permutation (unsorted l) l)
    by (intros l; apply Permutation_refl).
  split; [exact Hsort|]. split; [reflexivity|].
  destruct (X18_getTasks_lists_own_tasks_to_housekeeping unsorted
              Demo.housekeeper q twoTasks Hsort)
    as (items & Hlist & _ & Hown & Hall).
  exists items. split; [exact Hlist|]. split.
  - apply Hall; try reflexivity; try (now left).
  - apply Hown. reflexivity.
Defined.

(** X19: guests only see their own maintenance requests.  The listing of
    [getRequests] counts its items and contains exactly the stored requests
    that match the query built from the request.  For a caller with role
    guest every listed request was reported by the caller, whatever
    [reportedBy] the request asks for, and without other filters every
    request the caller reported is listed. *)
Theorem X19_getRequests_lists_own_requests_to_guests :
  forall (sort : list Maintenance.t -> list Maintenance.t) (user : User)
         (q : RequestQuery.t) (st : Store),
    (forall l, Permutation (sort l) l) ->
    exists items,
      MaintenanceRequests.getRequests sort user q st
      = Listed (List.length items) items
      /\ (forall r,
             In r items
             <-> In r (requests st)
                 /\ RequestQuery.matches
                      (MaintenanceRequests.buildQuery user q) r = true)
      /\ (role user = "guest" ->
          forall r, In r items -> Maintenance.reportedBy r = user_id user)
      /\ (role user = "guest" ->
          (RequestQuery.status q = None \/ RequestQuery.status q = Some "") ->
          (RequestQuery.issueType q = None
           \/ RequestQuery.issueType q = Some "") ->
          (RequestQuery.priority q = None
           \/ RequestQuery.priority q = Some "") ->
          RequestQuery.roomId q = None ->
          forall r, In r (requests st) ->
                    Maintenance.reportedBy r = user_id user ->
                    In r items).
Proof.
  intros sort user q st Hsort.
  set (query := MaintenanceRequests.buildQuery user q).
  exists (sort (filter (RequestQuery.matches query) (requests st))).
  assert (Hin : forall r,
             In r (sort (filter (RequestQuery.matches query) (requests st)))
             <-> In r (requests st) /\ RequestQuery.matches query r = true).
  { intros r. rewrite <- filter_In. split; apply Permutation_in.
    - apply Hsort.
    - apply Permutation_sym, Hsort. }
  split; [reflexivity|]. split; [exact Hin|]. split.
  - intros Hrole r Hr. apply Hin in Hr. destruct Hr as [_ Hm].
    unfold query, MaintenanceRequests.buildQuery in Hm.
    apply String.eqb_eq in Hrole. rewrite Hrole in Hm.
    unfold RequestQuery.matches in Hm.
    cbn [RequestQuery.set_reportedBy RequestQuery.reportedBy] in Hm.
    apply andb_true_iff in Hm. destruct Hm as [_ Hm].
    simpl in Hm. now apply N.eqb_eq.
  - intros Hrole Hs Ht Hp Hr r Hin' Hmine. apply Hin. split; [exact Hin'|].
    unfold query, MaintenanceRequests.buildQuery.
    apply String.eqb_eq in Hrole. rewrite Hrole.
    rewrite (nonEmpty_absent _ Hs), (nonEmpty_absent _ Ht),
      (nonEmpty_absent _ Hp), Hr.
    unfold RequestQuery.matches.
    cbn [RequestQuery.set_reportedBy RequestQuery.reportedBy
           RequestQuery.status RequestQuery.issueType RequestQuery.roomId
           RequestQuery.priority holds holdsOpt].
    rewrite Hmine. now rewrite N.eqb_refl.
Qed.

(** The guest (user 7) asks for the requests of user 8. *)
Lemma X19_witness :
  let q := RequestQuery.mk None None None None (Some 8%N) in
  (forall l : list Maintenance.t, Permutation (unsorted l) l)
  /\ MaintenanceRequests.getRequests unsorted Demo.manager q twoRequests
     = Listed 1 [brokenLamp]
  /\ exists items,
       MaintenanceRequests.getRequests unsorted Demo.guest q twoRequests
       = Listed (List.length items) items
       /\ In urgentLeak items
       /\ forall r, In r items -> Maintenance.reportedBy r = 7%N.
Proof.
  intros q.
  assert (Hsort : forall l : list Maintenance.t, Permutation (unsorted l) l)
    by (intros l; apply Permutation_refl).
  split; [exact Hsort|]. split; [reflexivity|].
  destruct (X19_getRequests_lists_own_requests_to_guests unsorted
              Demo.guest q twoRequests Hsort)
    as (items & Hlist & _ & Hown & Hall).
  exists items. split; [exact Hlist|]. split.
  - apply Hall; try reflexivity; try (now left).
  - apply Hown. reflexivity.
Defined.

(** X20: guests only see their own reservations.  [getReservations] fails
    (500) exactly when a date of the query string does not parse;
    otherwise its listing counts its items and contains exactly the stored
    reservations that match the query built from the request.  For a
    caller with role guest every listed reservation is the caller's own,
    whatever [guestId] the request asks for. *)
Theorem X20_getReservations_lists_own_reservations_to_guests :
  forall (env : Env)
         (sort : list Reservation.t -> list Reservation.t) (user : User)
         (q : ReservationQuery.t) (st : Store),
    (forall l, Permutation (sort l) l) ->
    let query := ReservationReads.buildQuery env user q in
    let unparsed (v : option string) :=
      exists s, Js.nonEmpty v = Some s /\ Date_new env s = Js.InvalidDate in
    ((unparsed (ReservationQuery.checkInDate q)
      \/ unparsed (ReservationQuery.checkOutDate q)) ->
     ReservationReads.getReservations env sort user q st
     = ListFailed "Cast to date failed")
    /\ (~ (unparsed (ReservationQuery.checkInDate q)
           \/ unparsed (ReservationQuery.checkOutDate q)) ->
        exists items,
          ReservationReads.getReservations env sort user q st
          = Listed (List.length items) items
          /\ (forall r,
                 In r items
                 <-> In r (reservations st)
                     /\ ReservationFilter.matches query r = true)
          /\ (role user = "guest" ->
              forall r, In r items -> Reservation.guestId r = user_id user)).
Proof.
  intros env sort user q st Hsort query unparsed.
  assert (Hdates :
            ReservationFilter.checkInDate_gte query
            = option_map (Date_new env)
                (Js.nonEmpty (ReservationQuery.checkInDate q))
            /\ ReservationFilter.checkOutDate_lte query
               = option_map (Date_new env)
                   (Js.nonEmpty (ReservationQuery.checkOutDate q))).
  { unfold query, ReservationReads.buildQuery.
    destruct (role user =? "guest")%string; split; reflexivity. }
  destruct Hdates as [Hci Hco].
  assert (Hcast : forall v,
             ReservationFilter.castable
               (option_map (Date_new env) (Js.nonEmpty v)) = false
             <-> unparsed v).
  { intros v. unfold unparsed.
    destruct (Js.nonEmpty v) as [s|]; simpl.
    - destruct (Date_new env s) eqn:E; split.
      + intros _. now exists s.
      + reflexivity.
      + discriminate.
      + intros (s' & [= <-] & E'). congruence.
    - split; [discriminate | intros (s & Hs & _); discriminate]. }
  unfold ReservationReads.getReservations. fold query. rewrite Hci, Hco.
  split.
  - intros [H | H]; apply Hcast in H; rewrite H;
      [reflexivity | now rewrite andb_false_r].
  - intros Hparsed.
    assert (Hok : ReservationFilter.castable
                    (option_map (Date_new env)
                       (Js.nonEmpty (ReservationQuery.checkInDate q)))
                  && ReservationFilter.castable
                       (option_map (Date_new env)
                          (Js.nonEmpty (ReservationQuery.checkOutDate q)))
                  = true).
    { apply andb_true_iff. split.
      - destruct (ReservationFilter.castable _) eqn:E; [reflexivity|].
        exfalso. apply Hparsed. left. now apply Hcast.
      - destruct (ReservationFilter.castable
                    (option_map (Date_new env)
                       (Js.nonEmpty (ReservationQuery.checkOutDate q))))
          eqn:E; [reflexivity|].
        exfalso. apply Hparsed. right. now apply Hcast. }
    rewrite Hok.
    exists (sort (filter (ReservationFilter.matches query) (reservations st))).
    assert (Hin : forall r,
               In r (sort (filter (ReservationFilter.matches query)
                             (reservations st)))
               <-> In r (reservations st)
                   /\ ReservationFilter.matches query r = true).
    { intros r. rewrite <- filter_In. split; apply Permutation_in.
      - apply Hsort.
      - apply Permutation_sym, Hsort. }
    split; [reflexivity|]. split; [exact Hin|].
    intros Hrole r Hr. apply Hin in Hr. destruct Hr as [_ Hm].
    unfold query, ReservationReads.buildQuery in Hm.
    apply String.eqb_eq in Hrole. rewrite Hrole in Hm.
    unfold ReservationFilter.matches in Hm.
    cbn [ReservationFilter.set_guestId ReservationFilter.guestId] in Hm.
    repeat (apply andb_true_iff in Hm; destruct Hm as [Hm ?]).
    match goal with
    | H : holds N.eqb (Some _) _ = true |- _ =>
        simpl in H; now apply N.eqb_eq in H
    end.
Qed.

(** The guest (user 7) asks for the reservations of user 8, and then for
    those from a date that does not parse. *)
Lemma X20_witness :
  let q := ReservationQuery.mk None (Some 8%N) None None None in
  let bad := ReservationQuery.mk None None None (Some "tomorrow") None in
  ((forall l : list Reservation.t, Permutation (unsorted l) l)
   /\ Demo.isoDate "tomorrow" = Js.InvalidDate)
  /\ ReservationReads.getReservations Demo.env unsorted Demo.guest bad
       twoBookings = ListFailed "Cast to date failed"
  /\ exists items,
       ReservationReads.getReservations Demo.env unsorted Demo.guest q
         twoBookings = Listed (List.length items) items
       /\ List.length items = 1%nat
       /\ forall r, In r items -> Reservation.guestId r = 7%N.
Proof.
  intros q bad.
  assert (Hsort : forall l : list Reservation.t, Permutation (unsorted l) l)
    by (intros l; apply Permutation_refl).
  split; [split; [exact Hsort | reflexivity]|]. split.
  - apply (proj1 (X20_getReservations_lists_own_reservations_to_guests
                    Demo.env unsorted Demo.guest bad twoBookings Hsort)).
    left. exists "tomorrow". split; reflexivity.
  - destruct (proj2 (X20_getReservations_lists_own_reservations_to_guests
                       Demo.env unsorted Demo.guest q twoBookings Hsort))
      as (items & Hlist & _ & Hown).
    + intros [(s & Hs & _) | (s & Hs & _)]; discriminate Hs.
    + exists items. split; [exact Hlist|]. split.
      * injection Hlist as <- _. reflexivity.
      * apply Hown. reflexivity.
Defined.

(** X21: a guest reads only what is theirs.  For a stored reservation,
    [getReservation] answers a guest 200 exactly when the reservation is
    the guest's own (and its guest still exists), and 403 when it belongs
    to another existing user; any other role is answered 200.  The same
    holds of [getRequest] and the reporter of a maintenance request.
    Neither handler changes the store. *)
Theorem X21_guest_reads_only_own_documents :
  forall (users : list ObjectId) (user : User) (id : ObjectId) (st : Store),
    (forall r,
        Db.findById Reservation._id id (reservations st) = Some r ->
        let reply := ReservationReads.getReservation users user id st in
        snd reply = st
        /\ (role user <> "guest" ->
            fst reply = mkResponse 200 (ReservationJson (Some r)))
        /\ (role user = "guest" ->
            (fst reply = mkResponse 200 (ReservationJson (Some r))
             <-> In (Reservation.guestId r) users
                 /\ Reservation.guestId r = user_id user)
            /\ (In (Reservation.guestId r) users ->
                Reservation.guestId r <> user_id user ->
                fst reply = mkResponse 403 (Message "Not authorized"))))
    /\ (forall r,
           Db.findById Maintenance._id id (requests st) = Some r ->
           let reply := MaintenanceRequests.getRequest users user id st in
           snd reply = st
           /\ (role user <> "guest" ->
               fst reply = mkResponse 200 (RequestJson (Some r)))
           /\ (role user = "guest" ->
               (fst reply = mkResponse 200 (RequestJson (Some r))
                <-> In (Maintenance.reportedBy r) users
                    /\ Maintenance.reportedBy r = user_id user)
               /\ (In (Maintenance.reportedBy r) users ->
                   Maintenance.reportedBy r <> user_id user ->
                   fst reply = mkResponse 403 (Message "Not authorized")))).
Proof.
  intros users user id st.
  assert (Hmem : forall x, existsb (N.eqb x) users = true <-> In x users).
  { intros x. rewrite existsb_exists. split.
    - intros (y & Hin & Heq). apply N.eqb_eq in Heq. now subst.
    - intros Hin. exists x. split; [exact Hin | apply N.eqb_refl]. }
  split; intros r Hfind reply; unfold reply.
  - unfold ReservationReads.getReservation,
      ReservationReads.populatedGuestId, tryCatch, bind, orAnswer, when_,
      answer, ret, throw, serverError.
    rewrite Hfind.
    destruct (String.eqb_spec (role user) "guest") as [Hrole | Hrole].
    + destruct (existsb (N.eqb (Reservation.guestId r)) users) eqn:E.
      * apply Hmem in E.
        destruct (N.eqb_spec (Reservation.guestId r) (user_id user))
          as [Hown | Hother]; cbn [negb fst snd].
        -- split; [reflexivity|]. split; [contradiction|]. intros _.
           split; [tauto | contradiction].
        -- split; [reflexivity|]. split; [contradiction|]. intros _.
           split; [|reflexivity].
           split; [discriminate | tauto].
      * cbn [fst snd]. split; [reflexivity|]. split; [contradiction|].
        intros _. split.
        -- split; [discriminate|]. intros [Hin _]. apply Hmem in Hin.
           congruence.
        -- intros Hin. apply Hmem in Hin. congruence.
    + cbn [fst snd]. split; [reflexivity|].
      split; [reflexivity | contradiction].
  - unfold MaintenanceRequests.getRequest,
      MaintenanceRequests.populatedReportedBy,
      MaintenanceRequests.Maintenance_findById, tryCatch, bind, orAnswer,
      when_, answer, ret, throw, serverError.
    rewrite Hfind.
    destruct (String.eqb_spec (role user) "guest") as [Hrole | Hrole].
    + destruct (existsb (N.eqb (Maintenance.reportedBy r)) users) eqn:E.
      * apply Hmem in E.
        destruct (N.eqb_spec (Maintenance.reportedBy r) (user_id user))
          as [Hown | Hother]; cbn [negb fst snd].
        -- split; [reflexivity|]. split; [contradiction|]. intros _.
           split; [tauto | contradiction].
        -- split; [reflexivity|]. split; [contradiction|]. intros _.
           split; [|reflexivity].
           split; [discriminate | tauto].
      * cbn [fst snd]. split; [reflexivity|]. split; [contradiction|].
        intros _. split.
        -- split; [discriminate|]. intros [Hin _]. apply Hmem in Hin.
           congruence.
        -- intros Hin. apply Hmem in Hin. congruence.
    + cbn [fst snd]. split; [reflexivity|].
      split; [reflexivity | contradiction].
Qed.

(** The two guests and the manager read the booking of the first stay and
    the urgent request, both of user 7. *)
Lemma X21_witness :
  let users := [1%N; 7%N; 8%N] in
  let r := Demo.booked 1%N Demo.march05 Demo.march10 "confirmed" in
  (Db.findById Reservation._id 1%N (reservations afterFirstStay) = Some r
   /\ Db.findById Maintenance._id 1%N (requests underMaintenance)
      = Some urgentLeak
   /\ In 7%N users)
  /\ fst (ReservationReads.getReservation users Demo.guest 1%N afterFirstStay)
     = mkResponse 200 (ReservationJson (Some r))
  /\ fst (ReservationReads.getReservation users Demo.otherGuest 1%N
            afterFirstStay)
     = mkResponse 403 (Message "Not authorized")
  /\ fst (MaintenanceRequests.getRequest users Demo.manager 1%N
            underMaintenance)
     = mkResponse 200 (RequestJson (Some urgentLeak))
  /\ fst (MaintenanceRequests.getRequest users Demo.otherGuest 1%N
            underMaintenance)
     = mkResponse 403 (Message "Not authorized").
Proof.
  intros users r.
  assert (Hin : In 7%N users) by (right; left; reflexivity).
  split; [repeat split; try reflexivity; exact Hin|].
  split; [|split; [|split]].
  - destruct (proj1 (X21_guest_reads_only_own_documents users Demo.guest
                       1%N afterFirstStay) r eq_refl)
      as (_ & _ & Hguest).
    apply (proj1 (Hguest eq_refl)). split; [exact Hin | reflexivity].
  - destruct (proj1 (X21_guest_reads_only_own_documents users
                       Demo.otherGuest 1%N afterFirstStay) r eq_refl)
      as (_ & _ & Hguest).
    apply (proj2 (Hguest eq_refl)); [exact Hin | discriminate].
  - destruct (proj2 (X21_guest_reads_only_own_documents users Demo.manager
                       1%N underMaintenance) urgentLeak eq_refl)
      as (_ & Hstaff & _).
    apply Hstaff. discriminate.
  - destruct (proj2 (X21_guest_reads_only_own_documents users
                       Demo.otherGuest 1%N underMaintenance) urgentLeak
                eq_refl)
      as (_ & _ & Hguest).
    apply (proj2 (Hguest eq_refl)); [exact Hin | discriminate].
Defined.

(** ** Maintenance requests, continued *)

Lemma releaseRoom_run (request : Maintenance.t) (st : Store) :
  MaintenanceController.releaseRoom request st
  = (Value tt, with_rooms (roomsAfterRelease request (rooms st)) st).
Proof.
  unfold MaintenanceController.releaseRoom, roomsAfterRelease, bind, ret,
    Room_findById, Room_save.
  destruct (Db.findById Room._id (Maintenance.roomId request) (rooms st))
    as [room|]; [|now rewrite with_rooms_same].
  destruct (Room.status room =? "maintenance")%string;
    [reflexivity | now rewrite with_rooms_same].
Qed.

Lemma privileged_includes (user : User) :
  role user = "admin" \/ role user = "manager" ->
  Js.includes MaintenanceController.privilegedRoles (Some (role user)) = true.
Proof. intros [-> | ->]; reflexivity. Qed.

(** [updateRequest] of a manager or admin on a stored request, for a body
    that resolves it: the room is released before the request is saved. *)
Lemma updateRequest_resolve_run (env : Env) (now : Z) (user : User)
    (id : ObjectId) (body : RequestUpdate.t) (st : Store)
    (r : Maintenance.t) :
  Db.findById Maintenance._id id (requests st) = Some r ->
  role user = "admin" \/ role user = "manager" ->
  RequestUpdate.status body = Some "resolved" ->
  let r' := resolvedRequest env now body r in
  let st1 := with_rooms (roomsAfterRelease r' (rooms st)) st in
  MaintenanceController.updateRequest env now user id body st
  = if Maintenance.validate r'
    then (mkResponse 200 (RequestJson (Some r')),
          with_requests (Db.replaceById Maintenance._id r' (requests st)) st1)
    else (mkResponse 500
            (ServerError "Server error" "Maintenance validation failed"),
          st1).
Proof.
  intros Hfind Hrole Hs r' st1.
  unfold MaintenanceController.updateRequest, tryCatch, bind, orAnswer,
    when_, answer, ret, serverError,
    MaintenanceController.Maintenance_findById,
    MaintenanceController.Maintenance_save.
  rewrite Hfind, (privileged_includes user Hrole), Hs.
  cbn [negb andb].
  replace (Js.includes MaintenanceController.restrictedStatuses
             (Some "resolved")) with true by reflexivity.
  cbn [andb]. change (Js.strictEq (Some "resolved") "resolved") with true.
  cbv beta iota. fold (resolvedRequest env now body r). fold r'.
  rewrite releaseRoom_run. fold st1.
  destruct (Maintenance.validate r'); [|reflexivity].
  unfold st1. cbn [with_requests with_rooms requests].
  rewrite (findById_replaceById Maintenance._id (requests st) r r').
  - reflexivity.
  - unfold r', resolvedRequest.
    cbn [Maintenance.set_resolvedAt Maintenance._id].
    rewrite maintenance_updateFields_id.
    now rewrite (findById_id _ _ _ _ Hfind).
Qed.

Lemma resolvedRequest_roomId (env : Env) (now : Z) (body : RequestUpdate.t)
    (r : Maintenance.t) :
  Maintenance.roomId (resolvedRequest env now body r) = Maintenance.roomId r.
Proof.
  unfold resolvedRequest, MaintenanceController.updateFields.
  cbn [Maintenance.set_resolvedAt Maintenance.roomId].
  now rewrite !(assignTruthy_preserves Maintenance.roomId),
    !(assign_preserves Maintenance.roomId),
    !(assignTruthy_preserves Maintenance.roomId),
    !(assign_preserves Maintenance.roomId),
    !(assignTruthy_preserves Maintenance.roomId).
Qed.

Lemma resolvedRequest_status (env : Env) (now : Z) (body : RequestUpdate.t)
    (r : Maintenance.t) :
  RequestUpdate.status body = Some "resolved" ->
  Maintenance.status (resolvedRequest env now body r) = "resolved".
Proof.
  intros Hs. unfold resolvedRequest, MaintenanceController.updateFields.
  cbn [Maintenance.set_resolvedAt Maintenance.status].
  rewrite (assignTruthy_preserves Maintenance.status),
    !(assign_preserves Maintenance.status),
    (assignTruthy_preserves Maintenance.status),
    (assign_preserves Maintenance.status) by reflexivity.
  now rewrite Hs.
Qed.

Lemma resolvedRequest_actualCost (env : Env) (now : Z)
    (body : RequestUpdate.t) (r : Maintenance.t) (c : Z) :
  RequestUpdate.actualCost body = Some c ->
  Maintenance.actualCost (resolvedRequest env now body r) = Some c.
Proof.
  intros Hc. unfold resolvedRequest, MaintenanceController.updateFields.
  cbn [Maintenance.set_resolvedAt Maintenance.actualCost].
  rewrite (assignTruthy_preserves Maintenance.actualCost) by reflexivity.
  now rewrite Hc.
Qed.

Lemma resolvedRequest_id (env : Env) (now : Z) (body : RequestUpdate.t)
    (r : Maintenance.t) :
  Maintenance._id (resolvedRequest env now body r) = Maintenance._id r.
Proof.
  unfold resolvedRequest. cbn [Maintenance.set_resolvedAt Maintenance._id].
  apply maintenance_updateFields_id.
Qed.

(** What releasing the room of a request does to the rooms. *)
Lemma roomsAfterRelease_room (request : Maintenance.t) (rs : list Room.t)
    (room : Room.t) :
  Db.findById Room._id (Maintenance.roomId request) rs = Some room ->
  (Room.status room = "maintenance" ->
   Db.findById Room._id (Maintenance.roomId request)
     (roomsAfterRelease request rs)
   = Some (Room.set_status "available" room))
  /\ (Room.status room <> "maintenance" -> roomsAfterRelease request rs = rs).
Proof.
  intros Hroom. unfold roomsAfterRelease. rewrite Hroom. split.
  - intros Hm. rewrite Hm. cbn [String.eqb Ascii.eqb Bool.eqb].
    pose proof (findById_id _ _ _ _ Hroom) as Hrid.
    rewrite <- Hrid at 1.
    apply (findById_replaceById Room._id rs room
             (Room.set_status "available" room)).
    cbn [Room.set_status Room._id]. now rewrite Hrid.
  - intros Hm. apply String.eqb_neq in Hm. now rewrite Hm.
Qed.

(** X22: resolving a request releases its room only from maintenance.
    When a manager or admin resolves a stored request and the schema
    accepts the update, the answer is 200, the request is stored as
    resolved with [resolvedAt] set to now, and its room is stored as
    available if its status was ["maintenance"]; for any other status of
    the room, or when the room no longer exists, the rooms are left as
    they were. *)
Theorem X22_resolving_releases_a_room_in_maintenance :
  forall (env : Env) (now : Z) (user : User) (id : ObjectId)
         (body : RequestUpdate.t) (st : Store) (r : Maintenance.t),
    Db.findById Maintenance._id id (requests st) = Some r ->
    role user = "admin" \/ role user = "manager" ->
    RequestUpdate.status body = Some "resolved" ->
    Maintenance.validate (resolvedRequest env now body r) = true ->
    let st' := snd (MaintenanceController.updateRequest env now user id body
                      st) in
    exists r',
      fst (MaintenanceController.updateRequest env now user id body st)
      = mkResponse 200 (RequestJson (Some r'))
      /\ Db.findById Maintenance._id id (requests st') = Some r'
      /\ Maintenance.status r' = "resolved"
      /\ Maintenance.resolvedAt r' = Some now
      /\ (forall room,
             Db.findById Room._id (Maintenance.roomId r) (rooms st)
             = Some room ->
             (Room.status room = "maintenance" ->
              Db.findById Room._id (Maintenance.roomId r) (rooms st')
              = Some (Room.set_status "available" room))
             /\ (Room.status room <> "maintenance" -> rooms st' = rooms st))
      /\ (Db.findById Room._id (Maintenance.roomId r) (rooms st) = None ->
          rooms st' = rooms st).
Proof.
  intros env now user id body st r Hfind Hrole Hs Hvalid st'. unfold st'.
  rewrite (updateRequest_resolve_run env now user id body st r Hfind Hrole
             Hs). cbv zeta. rewrite Hvalid.
  cbn [fst snd with_requests with_rooms requests rooms].
  exists (resolvedRequest env now body r).
  split; [reflexivity|]. split.
  { pose proof (findById_id _ _ _ _ Hfind) as Hid.
    rewrite <- Hid at 1. rewrite <- (resolvedRequest_id env now body r) at 1.
    apply findById_replaceById with (d0 := r).
    now rewrite resolvedRequest_id, Hid. }
  split; [now apply resolvedRequest_status|]. split; [reflexivity|].
  split.
  - intros room Hroom.
    rewrite <- (resolvedRequest_roomId env now body r) in Hroom |- *.
    exact (roomsAfterRelease_room _ _ _ Hroom).
  - intros Hnone. unfold roomsAfterRelease.
    now rewrite resolvedRequest_roomId, Hnone.
Qed.

(** The manager resolves the urgent leak, once with room 101 under
    maintenance and once with a guest in it. *)
Lemma X22_witness :
  let occupied := with_rooms [Demo.room101 "occupied"] underMaintenance in
  (Db.findById Maintenance._id 1%N (requests underMaintenance)
   = Some urgentLeak
   /\ (role Demo.manager = "admin" \/ role Demo.manager = "manager")
   /\ Maintenance.validate
        (resolvedRequest Demo.env Demo.now (resolveFor 40) urgentLeak)
      = true)
  /\ Db.findById Room._id 101%N
       (rooms (snd (MaintenanceController.updateRequest Demo.env Demo.now
                      Demo.manager 1%N (resolveFor 40) underMaintenance)))
     = Some (Room.set_status "available" (Demo.room101 "maintenance"))
  /\ rooms (snd (MaintenanceController.updateRequest Demo.env Demo.now
                   Demo.manager 1%N (resolveFor 40) occupied))
     = rooms occupied.
Proof.
  intros occupied.
  assert (Hrole : role Demo.manager = "admin" \/ role Demo.manager = "manager")
    by (right; reflexivity).
  split; [split; [reflexivity | split; [exact Hrole | reflexivity]]|].
  split.
  - destruct (X22_resolving_releases_a_room_in_maintenance Demo.env Demo.now
                Demo.manager 1%N (resolveFor 40) underMaintenance urgentLeak
                eq_refl Hrole eq_refl eq_refl)
      as (r' & _ & _ & _ & _ & Hroom & _).
    apply (proj1 (Hroom (Demo.room101 "maintenance") eq_refl)).
    reflexivity.
  - destruct (X22_resolving_releases_a_room_in_maintenance Demo.env Demo.now
                Demo.manager 1%N (resolveFor 40) occupied urgentLeak
                eq_refl Hrole eq_refl eq_refl)
      as (r' & _ & _ & _ & _ & Hroom & _).
    apply (proj2 (Hroom (Demo.room101 "occupied") eq_refl)).
    discriminate.
Defined.

(** X23: a rejected resolution still releases the room.  When a manager
    or admin resolves a stored request with a negative actual cost, the
    schema rejects the update: the answer is 500 and the request is left
    as it was, but its room, saved before the request, has already gone
    from maintenance to available. *)
Theorem X23_rejected_resolution_still_releases_the_room :
  forall (env : Env) (now : Z) (user : User) (id : ObjectId)
         (body : RequestUpdate.t) (st : Store) (r : Maintenance.t)
         (room : Room.t) (cost : Z),
    Db.findById Maintenance._id id (requests st) = Some r ->
    role user = "admin" \/ role user = "manager" ->
    RequestUpdate.status body = Some "resolved" ->
    RequestUpdate.actualCost body = Some cost -> cost < 0 ->
    Db.findById Room._id (Maintenance.roomId r) (rooms st) = Some room ->
    Room.status room = "maintenance" ->
    let st' := snd (MaintenanceController.updateRequest env now user id body
                      st) in
    fst (MaintenanceController.updateRequest env now user id body st)
    = mkResponse 500
        (ServerError "Server error" "Maintenance validation failed")
    /\ requests st' = requests st
    /\ Db.findById Room._id (Maintenance.roomId r) (rooms st')
       = Some (Room.set_status "available" room).
Proof.
  intros env now user id body st r room cost Hfind Hrole Hs Hcost Hneg Hroom
    Hm st'. unfold st'.
  assert (Hinvalid : Maintenance.validate (resolvedRequest env now body r)
                     = false).
  { unfold Maintenance.validate.
    rewrite (resolvedRequest_actualCost env now body r cost Hcost).
    simpl. apply Z.leb_gt in Hneg. rewrite Hneg. apply andb_false_r. }
  rewrite (updateRequest_resolve_run env now user id body st r Hfind Hrole
             Hs). cbv zeta. rewrite Hinvalid.
  cbn [fst snd with_rooms requests rooms].
  split; [reflexivity|]. split; [reflexivity|].
  rewrite <- (resolvedRequest_roomId env now body r) in Hroom |- *.
  exact (proj1 (roomsAfterRelease_room _ _ _ Hroom) Hm).
Qed.

(** The manager resolves the urgent leak at a cost of -5. *)
Lemma X23_witness :
  let st' := snd (MaintenanceController.updateRequest Demo.env Demo.now
                    Demo.manager 1%N (resolveFor (-5)) underMaintenance) in
  (Db.findById Maintenance._id 1%N (requests underMaintenance)
   = Some urgentLeak
   /\ (role Demo.manager = "admin" \/ role Demo.manager = "manager")
   /\ -5 < 0
   /\ Db.findById Room._id (Maintenance.roomId urgentLeak)
        (rooms underMaintenance) = Some (Demo.room101 "maintenance"))
  /\ code (fst (MaintenanceController.updateRequest Demo.env Demo.now
                  Demo.manager 1%N (resolveFor (-5)) underMaintenance))
     = 500
  /\ requests st' = [urgentLeak]
  /\ Db.findById Room._id 101%N (rooms st')
     = Some (Room.set_status "available" (Demo.room101 "maintenance")).
Proof.
  intros st'.
  assert (Hrole : role Demo.manager = "admin" \/ role Demo.manager = "manager")
    by (right; reflexivity).
  split; [repeat split; try reflexivity; exact Hrole|].
  destruct (X23_rejected_resolution_still_releases_the_room Demo.env Demo.now
              Demo.manager 1%N (resolveFor (-5)) underMaintenance urgentLeak
              (Demo.room101 "maintenance") (-5) eq_refl Hrole eq_refl eq_refl
              eq_refl eq_refl eq_refl)
    as (Hresp & Hreq & Hroom).
  split; [now rewrite Hresp|]. split; [exact Hreq | exact Hroom].
Defined.

(** X24: only managers and admins delete maintenance requests.  For any
    other role [deleteRequest] answers 403 and changes nothing, whether or
    not the request exists.  For a manager or admin it answers 404 when no
    request has the id, and otherwise 200: one request is removed (with
    unique ids it can no longer be read), every other request can be read
    as before, and the rooms are left as they were, so a room put in
    maintenance by the request stays in maintenance. *)
Theorem X24_deleteRequest_is_for_managers :
  forall (user : User) (id : ObjectId) (st : Store),
    (role user <> "admin" -> role user <> "manager" ->
     MaintenanceRequests.deleteRequest user id st
     = (mkResponse 403 (Message "Not authorized"), st))
    /\ (role user = "admin" \/ role user = "manager" ->
        Db.findById Maintenance._id id (requests st) = None ->
        MaintenanceRequests.deleteRequest user id st
        = (mkResponse 404 (Message "Maintenance request not found"), st))
    /\ (forall r,
           role user = "admin" \/ role user = "manager" ->
           Db.findById Maintenance._id id (requests st) = Some r ->
           let st' := snd (MaintenanceRequests.deleteRequest user id st) in
           fst (MaintenanceRequests.deleteRequest user id st)
           = mkResponse 200
               (Message "Maintenance request deleted successfully")
           /\ S (List.length (requests st')) = List.length (requests st)
           /\ (uniqueIds Maintenance._id (requests st) ->
               Db.findById Maintenance._id id (requests st') = None)
           /\ (forall other, other <> id ->
                  Db.findById Maintenance._id other (requests st')
                  = Db.findById Maintenance._id other (requests st))
           /\ rooms st' = rooms st
           /\ reservations st' = reservations st
           /\ tasks st' = tasks st).
Proof.
  intros user id st.
  assert (Hpriv : role user = "admin" \/ role user = "manager" ->
                  Js.includes ["admin"; "manager"] (Some (role user)) = true)
    by (intros [-> | ->]; reflexivity).
  split; [|split].
  - intros Hadmin Hmanager.
    assert (Hno : Js.includes ["admin"; "manager"] (Some (role user))
                  = false).
    { destruct (Js.includes _ _) eqn:E; [|reflexivity].
      apply includes_In in E. simpl in E.
      destruct E as [E | [E | []]]; congruence. }
    unfold MaintenanceRequests.deleteRequest, tryCatch, bind, when_, answer.
    now rewrite Hno.
  - intros Hrole Hnone.
    unfold MaintenanceRequests.deleteRequest,
      MaintenanceRequests.Maintenance_findById, tryCatch, bind, orAnswer,
      when_, answer, ret.
    rewrite (Hpriv Hrole). cbn [negb]. cbv beta iota. now rewrite Hnone.
  - intros r Hrole Hfind st'.
    assert (E : MaintenanceRequests.deleteRequest user id st
                = (mkResponse 200
                     (Message "Maintenance request deleted successfully"),
                   with_requests
                     (deleteById Maintenance._id id (requests st)) st)).
    { unfold MaintenanceRequests.deleteRequest,
        MaintenanceRequests.Maintenance_findById,
        MaintenanceRequests.Maintenance_deleteOne, tryCatch, bind, orAnswer,
        when_, answer, ret.
      rewrite (Hpriv Hrole). cbn [negb]. cbv beta iota. rewrite Hfind.
      now rewrite (findById_id _ _ _ _ Hfind). }
    unfold st'. rewrite E.
    cbn [fst snd with_requests requests rooms reservations tasks].
    split; [reflexivity|].
    split;
      [exact (length_deleteById Maintenance._id id (requests st) r Hfind)|].
    split; [apply findById_deleteById|].
    split; [intros other Hother; now apply findById_deleteById_other|].
    repeat split.
Qed.

(** The other guest and then the manager delete the urgent leak; the
    manager deletes it a second time. *)
Lemma X24_witness :
  let st' := snd (MaintenanceRequests.deleteRequest Demo.manager 1%N
                    underMaintenance) in
  (role Demo.otherGuest <> "admin" /\ role Demo.otherGuest <> "manager"
   /\ (role Demo.manager = "admin" \/ role Demo.manager = "manager")
   /\ Db.findById Maintenance._id 1%N (requests underMaintenance)
      = Some urgentLeak
   /\ uniqueIds Maintenance._id (requests underMaintenance))
  /\ MaintenanceRequests.deleteRequest Demo.otherGuest 1%N underMaintenance
     = (mkResponse 403 (Message "Not authorized"), underMaintenance)
  /\ Db.findById Maintenance._id 1%N (requests st') = None
  /\ rooms st' = [Demo.room101 "maintenance"]
  /\ MaintenanceRequests.deleteRequest Demo.manager 1%N st'
     = (mkResponse 404 (Message "Maintenance request not found"), st').
Proof.
  intros st'.
  assert (Hadmin : role Demo.otherGuest <> "admin") by discriminate.
  assert (Hmanager : role Demo.otherGuest <> "manager") by discriminate.
  assert (Hrole : role Demo.manager = "admin" \/ role Demo.manager = "manager")
    by (right; reflexivity).
  assert (Hu : uniqueIds Maintenance._id (requests underMaintenance)).
  { repeat constructor. intros []. }
  split.
  { split; [exact Hadmin|]. split; [exact Hmanager|]. split; [exact Hrole|].
    split; [reflexivity | exact Hu]. }
  destruct (proj2 (proj2 (X24_deleteRequest_is_for_managers Demo.manager 1%N
                            underMaintenance)) urgentLeak Hrole eq_refl)
    as (_ & _ & Hgone & _ & Hrooms & _).
  split; [|split; [exact (Hgone Hu)|split; [exact Hrooms|]]].
  - apply (proj1 (X24_deleteRequest_is_for_managers Demo.otherGuest 1%N
                    underMaintenance) Hadmin Hmanager).
  - apply (proj1 (proj2 (X24_deleteRequest_is_for_managers Demo.manager 1%N
                           st')) Hrole).
    exact (Hgone Hu).
Defined.

(** X25: creating a request and deleting it again.  When [createRequest]
    answers 201 and a manager or admin then deletes the created request,
    the deletion is answered 200 and the requests are exactly those from
    before the creation; the rooms stay as the creation left them, so the
    room of an urgent request remains in maintenance although the request
    is gone. *)
Theorem X25_create_then_delete_request :
  forall (env : Env) (now : Z) (user admin : User) (body : RequestBody.t)
         (st st1 : Store) (request : Maintenance.t),
    MaintenanceController.createRequest env now user body st
    = (mkResponse 201 (RequestJson (Some request)), st1) ->
    role admin = "admin" \/ role admin = "manager" ->
    let st2 := snd (MaintenanceRequests.deleteRequest admin
                      (Maintenance._id request) st1) in
    fst (MaintenanceRequests.deleteRequest admin (Maintenance._id request)
           st1)
    = mkResponse 200 (Message "Maintenance request deleted successfully")
    /\ requests st2 = requests st
    /\ rooms st2 = rooms st1
    /\ (RequestBody.priority body = Some "urgent" ->
        option_map Room.status
          (Db.findById Room._id (Maintenance.roomId request) (rooms st2))
        = Some "maintenance").
Proof.
  intros env now user admin body st st1 request H Hrole st2.
  rewrite createRequest_run in H.
  destruct (RequestBody.roomId body) as [roomId|]; [|discriminate H].
  destruct (Db.findById Room._id roomId (rooms st)) as [room|] eqn:Hroom;
    [|discriminate H].
  cbv zeta in H.
  destruct (Maintenance.validate (createdRequest env now user body roomId st));
    [|discriminate H].
  injection H as <- <-.
  set (doc := createdRequest env now user body roomId st) in *.
  assert (Hfind : Db.findById Maintenance._id (Maintenance._id doc)
                    (requests st ++ [doc]) = Some doc)
    by (apply findById_created; reflexivity).
  assert (Hpriv : Js.includes ["admin"; "manager"] (Some (role admin)) = true)
    by (destruct Hrole as [-> | ->]; reflexivity).
  unfold st2, MaintenanceRequests.deleteRequest,
    MaintenanceRequests.Maintenance_findById,
    MaintenanceRequests.Maintenance_deleteOne, tryCatch, bind, orAnswer,
    when_, answer, ret.
  rewrite Hpriv. cbn [negb with_rooms with_requests requests rooms].
  cbv beta iota. cbn [with_rooms with_requests requests rooms].
  rewrite Hfind.
  cbn [fst snd with_rooms with_requests requests rooms].
  split; [reflexivity|].
  split; [apply deleteById_created; reflexivity|].
  split; [reflexivity|].
  intros Hp. rewrite Hp. cbn [Js.strictEq]. rewrite String.eqb_refl.
  change (Maintenance.roomId doc) with roomId.
  pose proof (findById_id _ _ _ _ Hroom) as Hrid.
  assert (Hl : Db.findById Room._id roomId
                 (Db.replaceById Room._id
                    (Room.set_status "maintenance" room) (rooms st))
               = Some (Room.set_status "maintenance" room)).
  { rewrite <- Hrid at 1.
    apply (findById_replaceById Room._id (rooms st) room
             (Room.set_status "maintenance" room)).
    cbn [Room.set_status Room._id]. now rewrite Hrid. }
  now rewrite Hl.
Qed.

(** The guest reports an urgent leak in the occupied room 101 and the
    manager deletes the request. *)
Lemma X25_witness :
  let created := MaintenanceController.createRequest Demo.env Demo.now
                   Demo.guest (leak (Some "urgent")) occupiedRoom in
  let request := createdRequest Demo.env Demo.now Demo.guest
                   (leak (Some "urgent")) 101%N occupiedRoom in
  let st2 := snd (MaintenanceRequests.deleteRequest Demo.manager
                    (Maintenance._id request) (snd created)) in
  (fst created = mkResponse 201 (RequestJson (Some request))
   /\ (role Demo.manager = "admin" \/ role Demo.manager = "manager"))
  /\ requests st2 = requests occupiedRoom
  /\ option_map Room.status (Db.findById Room._id 101%N (rooms st2))
     = Some "maintenance".
Proof.
  intros created request st2.
  assert (Hrole : role Demo.manager = "admin" \/ role Demo.manager = "manager")
    by (right; reflexivity).
  split; [split; [reflexivity | exact Hrole]|].
  destruct (X25_create_then_delete_request Demo.env Demo.now Demo.guest
              Demo.manager (leak (Some "urgent")) occupiedRoom (snd created)
              request eq_refl Hrole)
    as (_ & Hreq & _ & Hroom).
  split; [exact Hreq|]. apply Hroom. reflexivity.
Defined.

(** ** The [_id]s of the collections *)

Lemma map_replaceById {A : Type} (id_of : A -> ObjectId) (d : A)
    (c : list A) :
  map id_of (Db.replaceById id_of d c) = map id_of c.
Proof.
  unfold Db.replaceById. rewrite map_map. apply map_ext_in.
  intros x _. destruct (N.eqb (id_of x) (id_of d)) eqn:E; [|reflexivity].
  now apply N.eqb_eq in E.
Qed.

Lemma uniqueIds_created {A : Type} (id_of : A -> ObjectId) (c : list A)
    (d : A) :
  id_of d = Db.freshId id_of c ->
  uniqueIds id_of c -> uniqueIds id_of (c ++ [d]).
Proof.
  unfold uniqueIds. intros Hid Hu. rewrite map_app. simpl.
  apply NoDup_app; [exact Hu | repeat constructor; intros [] |].
  intros x Hin [Hx | []]. apply in_map_iff in Hin.
  destruct Hin as (y & Hy & Hin).
  pose proof (freshId_above id_of c y Hin). lia.
Qed.

Lemma uniqueIds_deleteById {A : Type} (id_of : A -> ObjectId)
    (id : ObjectId) (c : list A) :
  uniqueIds id_of c -> uniqueIds id_of (deleteById id_of id c).
Proof.
  unfold uniqueIds. induction c as [|x c IH]; simpl; intros Hu;
    [exact Hu|].
  inversion Hu as [|? ? Hout Hu']; subst.
  destruct (N.eqb (id_of x) id); [exact Hu'|].
  simpl. constructor; [|now apply IH].
  intros Hin. apply Hout. apply in_map_iff in Hin.
  destruct Hin as (y & Hy & Hin). rewrite <- Hy. apply in_map.
  clear - Hin. induction c as [|z c IH]; simpl in *; [contradiction|].
  destruct (N.eqb (id_of z) id); [now right|].
  destruct Hin as [-> | Hin]; [now left | right; now apply IH].
Qed.

Ltac step_run :=
  match goal with
  | |- context [Db.findById ?f ?i ?c] =>
      destruct (Db.findById f i c) eqn:?
  | |- context [Reservation_validate ?e ?r] =>
      destruct (Reservation_validate e r) eqn:?
  | |- context [Housekeeping.validate ?r] =>
      destruct (Housekeeping.validate r) eqn:?
  | |- context [Maintenance.validate ?r] =>
      destruct (Maintenance.validate r) eqn:?
  | |- context [if ?c then _ else _] => destruct c eqn:?
  | |- context [match ?x with Some _ => _ | None => _ end] =>
      destruct x eqn:?
  end.

Ltac keys_kept :=
  unfold keys; cbn [fst snd with_rooms with_reservations with_tasks
                      with_requests rooms reservations tasks requests];
  rewrite ?map_replaceById; reflexivity.

Ltac all_runs :=
  repeat (step_run;
          cbn [with_rooms with_reservations with_tasks with_requests rooms
                 reservations tasks requests]);
  keys_kept.

(** The handlers that update documents in place leave the [_id]s of every
    collection as they were. *)
Lemma checkIn_keys (env : Env) (now : Z) (id : ObjectId) (st : Store) :
  keys (snd (checkIn env now id st)) = keys st.
Proof.
  unfold checkIn, populatedRoom, tryCatch, bind, orAnswer, when_, answer, ret,
    throw, Reservation_findById, Reservation_save, Room_findById, Room_save,
    serverError.
  all_runs.
Qed.

Lemma checkOut_keys (env : Env) (now : Z) (id : ObjectId) (st : Store) :
  keys (snd (checkOut env now id st)) = keys st.
Proof.
  unfold checkOut, populatedRoom, tryCatch, bind, orAnswer, when_, answer,
    ret, throw, Reservation_findById, Reservation_save, Room_findById,
    Room_save, serverError.
  all_runs.
Qed.

Lemma updateReservation_keys (env : Env) (now : Z) (user : User)
    (id : ObjectId) (body : UpdateBody.t) (st : Store) :
  keys (snd (updateReservation env now user id body st)) = keys st.
Proof.
  unfold updateReservation, guestGuard, tryCatch, bind, orAnswer, when_,
    answer, ret, throw, Reservation_findById, Reservation_save, serverError.
  all_runs.
Qed.

Lemma updateTask_keys (env : Env) (now : Z) (user : User) (id : ObjectId)
    (body : TaskBody.t) (st : Store) :
  keys (snd (updateTask env now user id body st)) = keys st.
Proof.
  unfold updateTask, tryCatch, bind, orAnswer, answer, ret,
    Housekeeping_findById, Housekeeping_save, serverError.
  destruct (Db.findById Housekeeping._id id (tasks st)) as [task0|];
    [|reflexivity].
  destruct (applyBody_cases env now user body task0 st)
    as [(task & E & _) | E]; rewrite E; [|reflexivity].
  destruct (Housekeeping.validate _); [|reflexivity].
  rewrite syncRoom_run. unfold roomsAfterSync.
  all_runs.
Qed.

Lemma updateRequest_keys (env : Env) (now : Z) (user : User) (id : ObjectId)
    (body : RequestUpdate.t) (st : Store) :
  keys (snd (MaintenanceController.updateRequest env now user id body st))
  = keys st.
Proof.
  unfold MaintenanceController.updateRequest, tryCatch, bind, orAnswer,
    when_, answer, ret, serverError,
    MaintenanceController.Maintenance_findById,
    MaintenanceController.Maintenance_save.
  destruct (Db.findById Maintenance._id id (requests st)) as [r|];
    [|reflexivity].
  destruct (_ && _); [reflexivity|].
  destruct (Js.strictEq (RequestUpdate.status body) "resolved").
  - cbv beta iota. rewrite releaseRoom_run. unfold roomsAfterRelease.
    cbn [with_rooms requests].
    destruct (Maintenance.validate _); all_runs.
  - destruct (Maintenance.validate _); all_runs.
Qed.

Lemma wellKeyed_keys (st st' : Store) :
  keys st' = keys st -> wellKeyed st -> wellKeyed st'.
Proof.
  unfold keys, wellKeyed, uniqueIds. intros [= -> -> -> ->]. exact id.
Qed.

Lemma createReservation_wellKeyed (env : Env) (now : Z) (user : User)
    (body : CreateBody.t) (st : Store) :
  wellKeyed st -> wellKeyed (snd (createReservation env now user body st)).
Proof.
  intros Hw.
  destruct (createReservation env now user body st) as [resp st'] eqn:E.
  destruct (Z.eq_dec (code resp) 201) as [C | C].
  - destruct (createReservation_201 _ _ _ _ _ _ _ E C)
      as (roomId & ci & co & room & _ & _ & _ & _ & _ & ->).
    destruct Hw as (H1 & H2 & H3 & H4).
    unfold wellKeyed, createdStore.
    cbn [snd with_rooms with_reservations rooms reservations tasks requests].
    split; [|split; [|split; assumption]].
    + unfold uniqueIds. now rewrite map_replaceById.
    + apply uniqueIds_created; [reflexivity | exact H2].
  - now rewrite (createReservation_unchanged _ _ _ _ _ _ _ E C).
Qed.

Lemma createTask_wellKeyed (env : Env) (now : Z) (body : TaskBody.t)
    (st : Store) :
  wellKeyed st -> wellKeyed (snd (HousekeepingTasks.createTask env now body st)).
Proof.
  intros Hw. rewrite createTask_run.
  destruct (TaskBody.roomId body) as [roomId|]; [|exact Hw].
  destruct (Db.findById Room._id roomId (rooms st)); [|exact Hw].
  destruct (TaskBody.taskType body) as [taskType|]; [|exact Hw].
  cbv zeta. destruct (Housekeeping.validate _); [|exact Hw].
  destruct Hw as (H1 & H2 & H3 & H4).
  unfold wellKeyed.
  cbn [snd with_tasks rooms reservations tasks requests].
  split; [assumption|]. split; [assumption|]. split; [|assumption].
  apply uniqueIds_created; [reflexivity | exact H3].
Qed.

Lemma createRequest_wellKeyed (env : Env) (now : Z) (user : User)
    (body : RequestBody.t) (st : Store) :
  wellKeyed st ->
  wellKeyed (snd (MaintenanceController.createRequest env now user body st)).
Proof.
  intros Hw. rewrite createRequest_run.
  destruct (RequestBody.roomId body) as [roomId|]; [|exact Hw].
  destruct (Db.findById Room._id roomId (rooms st)); [|exact Hw].
  cbv zeta. destruct (Maintenance.validate _); [|exact Hw].
  destruct Hw as (H1 & H2 & H3 & H4).
  unfold wellKeyed.
  cbn [snd with_rooms with_requests rooms reservations tasks requests].
  split; [|split; [assumption|split; [assumption|]]].
  - destruct (Js.strictEq _ _); [|exact H1].
    unfold uniqueIds. now rewrite map_replaceById.
  - apply uniqueIds_created; [reflexivity | exact H4].
Qed.

Lemma deleteTask_wellKeyed (id : ObjectId) (st : Store) :
  wellKeyed st -> wellKeyed (snd (HousekeepingTasks.deleteTask id st)).
Proof.
  intros Hw.
  unfold HousekeepingTasks.deleteTask, HousekeepingTasks.Housekeeping_deleteOne,
    tryCatch, bind, orAnswer, answer, ret, Housekeeping_findById, serverError.
  destruct (Db.findById Housekeeping._id id (tasks st)); [|exact Hw].
  destruct Hw as (H1 & H2 & H3 & H4).
  unfold wellKeyed.
  cbn [snd with_tasks rooms reservations tasks requests].
  split; [assumption|]. split; [assumption|]. split; [|assumption].
  now apply uniqueIds_deleteById.
Qed.

Lemma deleteRequest_wellKeyed (user : User) (id : ObjectId) (st : Store) :
  wellKeyed st -> wellKeyed (snd (MaintenanceRequests.deleteRequest user id st)).
Proof.
  intros Hw.
  unfold MaintenanceRequests.deleteRequest,
    MaintenanceRequests.Maintenance_deleteOne,
    MaintenanceRequests.Maintenance_findById,
    tryCatch, bind, orAnswer, when_, answer, ret, serverError.
  destruct (negb _); [exact Hw|].
  destruct (Db.findById Maintenance._id id (requests st)); [|exact Hw].
  destruct Hw as (H1 & H2 & H3 & H4).
  unfold wellKeyed.
  cbn [snd with_requests rooms reservations tasks requests].
  split; [assumption|]. split; [assumption|]. split; [assumption|].
  now apply uniqueIds_deleteById.
Qed.

(** X26: the handlers that save an existing document add and remove
    nothing.  Whatever the arguments and the answer of [checkIn],
    [checkOut], [updateReservation], [updateTask] and [updateRequest], every
    collection holds the same [_id]s in the same order afterwards. *)
Theorem X26_updates_add_and_remove_no_document :
  forall (env : Env) (now : Z) (user : User) (id : ObjectId) (st : Store),
    keys (snd (checkIn env now id st)) = keys st
    /\ keys (snd (checkOut env now id st)) = keys st
    /\ (forall body,
           keys (snd (updateReservation env now user id body st)) = keys st)
    /\ (forall body,
           keys (snd (updateTask env now user id body st)) = keys st)
    /\ (forall body,
           keys (snd (MaintenanceController.updateRequest env now user id
                        body st)) = keys st).
Proof.
  intros env now user id st.
  split; [apply checkIn_keys|]. split; [apply checkOut_keys|].
  split; [intros body; apply updateReservation_keys|].
  split; intros body; [apply updateTask_keys | apply updateRequest_keys].
Qed.

(** X27: the [_id]s stay unique.  When no collection of the store holds two
    documents with the same [_id], the same is true after any of the ten
    handlers that write to the store, whatever their arguments and their
    answer. *)
Theorem X27_ids_stay_unique :
  forall (env : Env) (now : Z) (user : User) (id : ObjectId) (st : Store),
    wellKeyed st ->
    (forall body, wellKeyed (snd (createReservation env now user body st)))
    /\ wellKeyed (snd (checkIn env now id st))
    /\ wellKeyed (snd (checkOut env now id st))
    /\ (forall body,
           wellKeyed (snd (updateReservation env now user id body st)))
    /\ (forall body,
           wellKeyed (snd (HousekeepingTasks.createTask env now body st)))
    /\ (forall body, wellKeyed (snd (updateTask env now user id body st)))
    /\ wellKeyed (snd (HousekeepingTasks.deleteTask id st))
    /\ (forall body,
           wellKeyed (snd (MaintenanceController.createRequest env now user
                             body st)))
    /\ (forall body,
           wellKeyed (snd (MaintenanceController.updateRequest env now user
                             id body st)))
    /\ wellKeyed (snd (MaintenanceRequests.deleteRequest user id st)).
Proof.
  intros env now user id st Hw.
  split; [intros body; now apply createReservation_wellKeyed|].
  split; [exact (wellKeyed_keys _ _ (checkIn_keys env now id st) Hw)|].
  split; [exact (wellKeyed_keys _ _ (checkOut_keys env now id st) Hw)|].
  split; [intros body;
          exact (wellKeyed_keys _ _
                   (updateReservation_keys env now user id body st) Hw)|].
  split; [intros body; now apply createTask_wellKeyed|].
  split; [intros body;
          exact (wellKeyed_keys _ _
                   (updateTask_keys env now user id body st) Hw)|].
  split; [now apply deleteTask_wellKeyed|].
  split; [intros body; now apply createRequest_wellKeyed|].
  split; [intros body;
          exact (wellKeyed_keys _ _
                   (updateRequest_keys env now user id body st) Hw)|].
  now apply deleteRequest_wellKeyed.
Qed.

(** The store with the guest's first stay. *)
Lemma X27_witness :
  wellKeyed afterFirstStay
  /\ wellKeyed (snd (createReservation Demo.env Demo.now Demo.guest
                       (Demo.stay "2024-03-10" "2024-03-13") afterFirstStay))
  /\ wellKeyed (snd (checkIn Demo.env Demo.now 1%N afterFirstStay))
  /\ wellKeyed (snd (MaintenanceController.createRequest Demo.env Demo.now
                       Demo.guest (leak (Some "urgent")) afterFirstStay)).
Proof.
  assert (Hw : wellKeyed afterFirstStay).
  { unfold wellKeyed, uniqueIds. simpl.
    repeat split; repeat constructor; intros []. }
  destruct (X27_ids_stay_unique Demo.env Demo.now Demo.guest 1%N
              afterFirstStay Hw)
    as (H1 & H2 & _ & _ & _ & _ & _ & H3 & _).
  split; [exact Hw|]. split; [apply H1|]. split; [exact H2 | apply H3].
Defined.
